(** * STREAM data viewer: geospatial selection logic

    A shallow embedding of the client-side logic of the STREAM map viewer
    that carries behaviour of its own:

    - the point-in-polygon containment test of the map component
      ([pointInGeometry], [pointInPolygonRings], [isPointInRing]);
    - the HUC10-by-HUC6 resolver with its result cache, its candidate field
      names and the request-id counter of the HUC6 click handler
      ([queryHuc10ByHuc6], [normalizeHucCode], [extractWatershedMetadata]);
    - the selection state of the streams store ([toggleGaugeSelection],
      [toggleDomainSelection], [setSelectionBy], ...);
    - the session of the streams store and its requests ([login], [logout],
      [fetchGauges], [downloadSelectedData], ...);
    - the gauges of a HUC10 layer, the click handlers of the HUC10 layers
      and of the gauge markers, the selection styles and the zoom to the
      selection ([getGaugeIdsInLayer], [syncHuc10SelectionStyles],
      [zoomToSelectedStreamGauges]);
    - the handlers of the STREAM drawer ([canDownload], [resetOptions],
      [onLogin], [onLogout], [onDownload]).

    JavaScript numbers are IEEE 754 binary64 values, embedded as Rocq's
    primitive floats; strings are byte strings; the store's plain object
    used as a dictionary and the component's [Map] are finite maps.  What
    Leaflet does with the features handed to its GeoJSON layer is not part
    of the embedded code: the click handler is embedded for any behaviour
    of the layer's [addData]. *)

From Stdlib Require Import Floats.PrimFloat Floats.SpecFloat Floats.FloatOps Floats.FloatAxioms.
From Stdlib Require QArith.QArith_base.
From Stdlib Require Import Ascii String ZArith Lia.
From stdpp Require Import gmap strings list pretty.

Open Scope string_scope.
Open Scope list_scope.

(** ** JavaScript completions *)

(** A call either returns a value or raises.  The only exception the
    embedded code can raise by itself is a [TypeError]: a method call on a
    value that has no such method, a property read on [null], the
    destructuring of a value that is not iterable. *)
Inductive Completion (A : Type) : Type :=
| Returns (value : A)
| ThrowsTypeError.
Arguments Returns {A} value.
Arguments ThrowsTypeError {A}.

(** ** Geometry containment test (map component, lines 267-307) *)

Module Containment.

(** A position: the JavaScript array of numbers [[x, y, ...]]. *)
Definition Position : Type := list float.

(** A linear ring as GeoJSON has it: an array of positions. *)
Definition Ring : Type := list Position.

(** Array destructuring [const [a, b] = v] binds a missing entry to
    [undefined]; the relational and arithmetic operators of the crossing
    test convert [undefined] to NaN, so a missing entry is read as NaN. *)
Definition entry (v : Position) (k : nat) : float := nth k v nan.

(** What a ring holds at an index: a position, or a value that the
    destructuring [const [xi, yi] = ring[i]] cannot iterate ([null], a
    number, a boolean, an object that is not an array). *)
Inductive Vertex : Type :=
| VertexArray (position : Position)
| NotIterable.

(** What an array of rings holds at an index: an array of vertices;
    [null], whose [length] cannot be read; or a value over which the loop
    of [isPointInRing] toggles nothing, because its [length] is [undefined]
    (a number, a boolean, an object without a [length] member) or because
    its entries are single characters (a string). *)
Inductive RingValue : Type :=
| RingArray (vertices : list Vertex)
| NullRing
| NoRing.

(** A GeoJSON ring as a value. *)
Definition ringOf (ring : Ring) : RingValue := RingArray (List.map VertexArray ring).

(** The geometry object handed to [pointInGeometry].  [Polygon] and
    [MultiPolygon] are GeoJSON objects whose [coordinates] member is an
    array; an entry of a MultiPolygon's array that is not itself an array is
    [None].  [OtherObject type rings] is any other object: [type] is its
    [type] member (the empty string when the member is missing or falsy),
    it has no array under [coordinates], and [rings] is its [rings] member
    when that is an array (the ArcGIS JSON form). *)
Inductive Geometry : Type :=
| Polygon (coordinates : list RingValue)
| MultiPolygon (coordinates : list (option (list RingValue)))
| OtherObject (type : string) (rings : option (list RingValue)).

(** ToBoolean on a number: [+0], [-0] and NaN are falsy. *)
Definition truthyNumber (a : float) : bool :=
  negb (a =? 0)%float && (a =? a)%float.

(** [(yj - yi || 1e-12)]; the literal is the binary64 value nearest to
    [1e-12]. *)
Definition edgeDenominator (yi yj : float) : float :=
  let d := (yj - yi)%float in
  if truthyNumber d then d else 0x1.19799812dea11p-40%float.

(** [yi > py !== yj > py &&
     px < ((xj - xi) * (py - yi)) / (yj - yi || 1e-12) + xi]. *)
Definition intersects (px py xi yi xj yj : float) : bool :=
  xorb (py <? yi)%float (py <? yj)%float
  && (px <? ((xj - xi) * (py - yi)) / edgeDenominator yi yj + xi)%float.

(** The body of the [for] loop of [isPointInRing] for the index pair
    [(i, j)]: the two destructurings of lines 301-302, which raise on a
    vertex that is not iterable, and the test of line 303. *)
Definition crossesEdge (px py : float) (ring : list Vertex) (i j : nat)
    : Completion bool :=
  match nth i ring NotIterable with
  | NotIterable => ThrowsTypeError
  | VertexArray vi =>
      match nth j ring NotIterable with
      | NotIterable => ThrowsTypeError
      | VertexArray vj =>
          Returns (intersects px py (entry vi 0) (entry vi 1) (entry vj 0) (entry vj 1))
      end
  end.

(** [for (let i = 0, j = ring.length - 1; i < ring.length; j = i++)]:
    [steps] counts the iterations that remain, [ring.length - i]. *)
Fixpoint ringLoop (px py : float) (ring : list Vertex) (steps i j : nat)
    (inside : bool) : Completion bool :=
  match steps with
  | O => Returns inside
  | S steps' =>
      match crossesEdge px py ring i j with
      | ThrowsTypeError => ThrowsTypeError
      | Returns crossed =>
          ringLoop px py ring steps' (S i) i (if crossed then negb inside else inside)
      end
  end.

(** [isPointInRing(point, ring)].  For the empty ring [j] starts at [-1]
    and the body never runs; the truncated subtraction yields [0] there. *)
Definition isPointInRing (point : float * float) (ring : RingValue)
    : Completion bool :=
  let '(px, py) := point in
  match ring with
  | RingArray vertices =>
      ringLoop px py vertices (length vertices) 0 (length vertices - 1) false
  | NullRing => ThrowsTypeError
  | NoRing => Returns false
  end.

(** [for (let i = 1; i < polygonRings.length; i += 1)
       if (isPointInRing(point, polygonRings[i])) return false]
    followed by [return true]. *)
Fixpoint holeLoop (point : float * float) (polygonRings : list RingValue)
    (steps i : nat) : Completion bool :=
  match steps with
  | O => Returns true
  | S steps' =>
      match isPointInRing point (nth i polygonRings NullRing) with
      | ThrowsTypeError => ThrowsTypeError
      | Returns true => Returns false
      | Returns false => holeLoop point polygonRings steps' (S i)
      end
  end.

(** [pointInPolygonRings(point, polygonRings)]; [None] is a value for which
    [Array.isArray] is false. *)
Definition pointInPolygonRings (point : float * float)
    (polygonRings : option (list RingValue)) : Completion bool :=
  match polygonRings with
  | None => Returns false
  | Some rings =>
      if (length rings =? 0)%nat then Returns false
      else
        match isPointInRing point (nth 0 rings NullRing) with
        | ThrowsTypeError => ThrowsTypeError
        | Returns false => Returns false
        | Returns true => holeLoop point rings (length rings - 1) 1
        end
  end.

(** [coordinates.some((polyCoords) => pointInPolygonRings(point, polyCoords))]:
    the polygons in order, up to the first that contains the point. *)
Fixpoint somePolygon (point : float * float)
    (coordinates : list (option (list RingValue))) : Completion bool :=
  match coordinates with
  | [] => Returns false
  | polyCoords :: rest =>
      match pointInPolygonRings point polyCoords with
      | ThrowsTypeError => ThrowsTypeError
      | Returns true => Returns true
      | Returns false => somePolygon point rest
      end
  end.

(** [pointInGeometry(pointCoords, geometry)]; [None] is a null or undefined
    geometry.  [pointCoords] is an array: the only call (line 260) passes
    coordinates that have passed the [Array.isArray] test of line 258. *)
Definition pointInGeometry (pointCoords : Position)
    (geometry : option Geometry) : Completion bool :=
  match geometry with
  | None => Returns false
  | Some g =>
      let point := (entry pointCoords 0, entry pointCoords 1) in
      match g with
      | Polygon coordinates => pointInPolygonRings point (Some coordinates)
      | MultiPolygon coordinates => somePolygon point coordinates
      | OtherObject type rings =>
          if String.eqb type "" then Returns false
          else if String.eqb type "Polygon" then
            (* geometry.coordinates is not an array *)
            pointInPolygonRings point None
          else if String.eqb type "MultiPolygon" then
            (* geometry.coordinates.some is not a function *)
            ThrowsTypeError
          else
            match rings with
            | Some r => pointInPolygonRings point (Some r)
            | None => Returns false
            end
      end
  end.

(** *** The containment rule in the specification's words

    Ray casting with even-odd counting, on rings that are arrays of
    positions: a ray leaves the point towards [+x]; a ring contains the
    point when the ray crosses an odd number of its edges. *)

(** The vertex that precedes each vertex of a ring, cyclically. *)
Definition predecessors (ring : Ring) : list Position :=
  match ring with
  | [] => []
  | _ :: _ => List.last ring [] :: List.removelast ring
  end.

(** The edges of a ring, each as (end vertex, start vertex). *)
Definition edges (ring : Ring) : list (Position * Position) :=
  combine ring (predecessors ring).

(** The ordinate [y] lies strictly above the horizontal line through a
    point of ordinate [py]. *)
Definition above (py y : float) : bool := (py <? y)%float.

(** The abscissa at which the line through [(xi, yi)] and [(xj, yj)] meets
    the horizontal line of ordinate [py], computed in binary64, each
    operation rounded to nearest; the divisor is the height of the edge, or
    [1e-12] where that height is zero or NaN. *)
Definition crossingAbscissa (py xi yi xj yj : float) : float :=
  let height := (yj - yi)%float in
  let divisor :=
    if (height =? 0)%float || negb (height =? height)%float
    then 0x1.19799812dea11p-40%float else height in
  (((xj - xi) * (py - yi)) / divisor + xi)%float.

(** An edge is crossed by the ray that leaves the point towards [+x]: just
    one of its ends lies strictly above the ray, and the point is to the
    left of the abscissa at which the edge meets the line of the ray. *)
Definition rayCrosses (point : float * float)
    (e : Position * Position) : bool :=
  let '(px, py) := point in
  let '(xi, yi) := (entry (fst e) 0, entry (fst e) 1) in
  let '(xj, yj) := (entry (snd e) 0, entry (snd e) 1) in
  negb (Bool.eqb (above py yi) (above py yj))
  && (px <? crossingAbscissa py xi yi xj yj)%float.

Definition crossings (point : float * float) (ring : Ring) : nat :=
  length (List.filter (rayCrosses point) (edges ring)).

(** Even-odd rule: inside when the ray crosses an odd number of edges. *)
Definition insideRing (point : float * float) (ring : Ring) : bool :=
  Nat.odd (crossings point ring).

(** Inside the outer ring and inside none of the holes. *)
Definition insidePolygon (point : float * float) (rings : list Ring) : bool :=
  match rings with
  | [] => false
  | outer :: holes =>
      insideRing point outer && forallb (fun h => negb (insideRing point h)) holes
  end.

Definition insideMultiPolygon (point : float * float)
    (polygons : list (option (list Ring))) : bool :=
  existsb (fun poly => match poly with
                       | Some rings => insidePolygon point rings
                       | None => false
                       end) polygons.

(** *** The same rule in exact arithmetic *)

(** The number a binary64 value stands for, as a multiple of [2^-1074],
    the smallest positive binary64 value; NaN and the infinities stand for
    none. *)
Definition scaled (a : float) : option Z :=
  match Prim2SF a with
  | S754_zero _ => Some 0%Z
  | S754_finite negative mantissa exponent =>
      Some ((if negative then Z.neg mantissa else Z.pos mantissa)
            * 2 ^ (exponent + 1074))%Z
  | _ => None
  end.

(** The rational number a binary64 value stands for. *)
Definition rational (a : float) : option QArith_base.Q :=
  match scaled a with
  | Some z => Some (QArith_base.Qmake z (2 ^ 1074)%positive)
  | None => None
  end.

Definition ratLt (a b : QArith_base.Q) : bool := negb (QArith_base.Qle_bool b a).

(** The crossing test on rational numbers: just one end of the edge lies
    strictly above the ray, and the point is to the left of the point where
    the edge meets the line of the ray. *)
Definition crossesExactly (px py xi yi xj yj : QArith_base.Q) : bool :=
  negb (Bool.eqb (ratLt py yi) (ratLt py yj))
  && ratLt px
       (QArith_base.Qplus
          (QArith_base.Qdiv
             (QArith_base.Qmult (QArith_base.Qminus xj xi) (QArith_base.Qminus py yi))
             (QArith_base.Qminus yj yi))
          xi).

(** The crossing test in exact arithmetic, on the numbers the binary64
    coordinates stand for. *)
Definition rayCrossesExactly (point : float * float)
    (e : Position * Position) : bool :=
  match rational (fst point), rational (snd point),
        rational (entry (fst e) 0), rational (entry (fst e) 1),
        rational (entry (snd e) 0), rational (entry (snd e) 1) with
  | Some px, Some py, Some xi, Some yi, Some xj, Some yj =>
      crossesExactly px py xi yi xj yj
  | _, _, _, _, _, _ => false
  end.

(** The even-odd rule in exact arithmetic. *)
Definition insideRingExactly (point : float * float) (ring : Ring) : bool :=
  Nat.odd (length (List.filter (rayCrossesExactly point) (edges ring))).

End Containment.


(** ** HUC10-by-HUC6 resolver and HUC6 click handler
       (map component, lines 57-59, 191-240, 364-470, 915-924) *)

Module Watershed.
Import Containment.

(** *** Attribute values and watershed metadata *)

(** The value of a feature attribute.  The watershed service reports HUC
    codes and names as text, so an attribute is a string, [null], or
    missing ([undefined]). *)
Inductive JsValue : Type :=
| JsUndefined
| JsNull
| JsString (s : string).

(** ToBoolean. *)
Definition truthy (v : JsValue) : bool :=
  match v with
  | JsString s => negb (String.eqb s "")
  | _ => false
  end.

(** [String(v)]. *)
Definition toString (v : JsValue) : string :=
  match v with
  | JsUndefined => "undefined"
  | JsNull => "null"
  | JsString s => s
  end.

(** [v ?? d]. *)
Definition nullishCoalesce (v d : JsValue) : JsValue :=
  match v with
  | JsUndefined | JsNull => d
  | _ => v
  end.

(** A [properties] object: its own keys in [Object.keys] order, each with
    its value. *)
Definition Properties : Type := list (string * JsValue).

(** [properties[key]]. *)
Definition getProperty (properties : Properties) (key : string) : JsValue :=
  match List.find (fun kv => String.eqb (fst kv) key) properties with
  | Some kv => snd kv
  | None => JsUndefined
  end.

(** A GeoJSON object of type Feature, as the feature service returns it:
    its [properties] and its [geometry], [None] when that is [null]. *)
Record Feature : Type := mkFeature {
  properties : Properties;
  geometry : option Geometry
}.

Record FeatureCollection : Type := mkFeatureCollection {
  features : list Feature
}.

Definition isDigit (c : ascii) : bool :=
  (48 <=? nat_of_ascii c)%nat && (nat_of_ascii c <=? 57)%nat.

Definition lowerAscii (c : ascii) : ascii :=
  if (65 <=? nat_of_ascii c)%nat && (nat_of_ascii c <=? 90)%nat
  then ascii_of_nat (nat_of_ascii c + 32) else c.

Fixpoint lowerCase (s : string) : string :=
  match s with
  | EmptyString => EmptyString
  | String c s' => String (lowerAscii c) (lowerCase s')
  end.

(** A pattern matches somewhere in a string when it matches at the start of
    one of its suffixes. *)
Fixpoint matchesSomewhere (atStart : string -> bool) (s : string) : bool :=
  atStart s ||
  match s with
  | EmptyString => false
  | String _ s' => matchesSomewhere atStart s'
  end.

Definition startsWithDigit (s : string) : bool :=
  match s with
  | String c _ => isDigit c
  | EmptyString => false
  end.

(** [hu_?\d] at the start of a lower-cased string. *)
Definition huDigitAtStart (s : string) : bool :=
  match s with
  | String "h" (String "u" rest) =>
      startsWithDigit rest ||
      match rest with
      | String "_" rest' => startsWithDigit rest'
      | _ => false
      end
  | _ => false
  end.

(** [/huc|hu_?\d|code/i.test(key)]. *)
Definition fuzzyCodeKeyTest (key : string) : bool :=
  matchesSomewhere
    (fun s => String.prefix "huc" s || huDigitAtStart s || String.prefix "code" s)
    (lowerCase key).

(** [/name/i.test(key)]. *)
Definition fuzzyNameKeyTest (key : string) : bool :=
  matchesSomewhere (String.prefix "name") (lowerCase key).

(** The [for (const key of candidates)] loops: the value of the first
    candidate key whose property is truthy, if any. *)
Fixpoint firstTruthy (properties : Properties) (candidates : list string)
    : option JsValue :=
  match candidates with
  | [] => None
  | key :: rest =>
      if truthy (getProperty properties key)
      then Some (getProperty properties key)
      else firstTruthy properties rest
  end.

(** One of the two lookups of [extractWatershedMetadata]: the candidates,
    then the first key that passes the fuzzy test, then ['N/A'], and
    [String(value ?? 'N/A')] at the end. *)
Definition extractField (properties : Properties) (candidates : list string)
    (fuzzy : string -> bool) : string :=
  let value :=
    match firstTruthy properties candidates with
    | Some v => v
    | None =>
        match List.find fuzzy (List.map fst properties) with
        | Some fuzzyKey => getProperty properties fuzzyKey
        | None => JsString "N/A"
        end
    end in
  toString (nullishCoalesce value (JsString "N/A")).

Record WatershedMetadata : Type := mkMetadata {
  code : string;
  name : string
}.

(** [extractWatershedMetadata(properties, level)]. *)
Definition extractWatershedMetadata (properties : Properties) (level : nat)
    : WatershedMetadata :=
  let codeCandidates :=
    [ "HUC" +:+ pretty level; "HUC_" +:+ pretty level; "HU_" +:+ pretty level;
      "HUC_CODE"; "huc"; "huc_code"; "code" ] in
  let nameCandidates :=
    [ "NAME"; "HU_" +:+ pretty level +:+ "_NAME"; "HUC" +:+ pretty level +:+ "_NAME";
      "WBDNAME"; "name" ] in
  {| code := extractField properties codeCandidates fuzzyCodeKeyTest;
     name := extractField properties nameCandidates fuzzyNameKeyTest |}.

Fixpoint removeNonDigits (s : string) : string :=
  match s with
  | EmptyString => EmptyString
  | String c s' =>
      if isDigit c then String c (removeNonDigits s') else removeNonDigits s'
  end.

(** [normalizeHucCode(code)]: [String(code).replace(/\D/g, '')], and the
    empty string for [null] and [undefined]. *)
Definition normalizeHucCode (code : JsValue) : string :=
  match code with
  | JsUndefined | JsNull => ""
  | _ => removeNonDigits (toString code)
  end.

(** *** Remote queries *)

(** A query sent to the HUC10 layer of the feature service. *)
Inductive Query : Type :=
| WhereQuery (clause : string)
| IntersectsQuery (huc6Geometry : Geometry).

(** How the service answers: the callback's [result], or its [error]. *)
Inductive Reply : Type :=
| Resolved (result : FeatureCollection)
| Rejected (error : string).

(** [runHuc10WhereQuery(field, huc6Code)]: the query it sends. *)
Definition runHuc10WhereQuery (field huc6Code : string) : Query :=
  WhereQuery (field +:+ " LIKE '" +:+ huc6Code +:+ "%'").

(** [runHuc10IntersectsQuery(huc6Geometry)]: the query it sends. *)
Definition runHuc10IntersectsQuery (huc6Geometry : Geometry) : Query :=
  IntersectsQuery huc6Geometry.

Definition fieldCandidates : list string :=
  ["HUC10"; "HUC_10"; "HUC"; "huc10"; "huc_code"; "HUC_CODE"; "HU_10"].

(** *** Component state *)

(** Where an unfinished call of [queryHuc10ByHuc6] waits: at the [await] of
    the where-query for [field], with the candidates [rest] still to try,
    or at the [await] of the intersection query. *)
Inductive Awaiting : Type :=
| AwaitWhere (normalizedCode : string) (huc6Geometry : Geometry)
    (field : string) (rest : list string)
| AwaitIntersects (normalizedCode : string) (huc6Geometry : Geometry).

(** A click handler suspended at [await queryHuc10ByHuc6(...)]: its local
    [requestId] and [code], and where the call waits. *)
Record Handler : Type := mkHandler {
  requestId : Z;
  handlerCode : string;
  awaiting : Awaiting
}.

(** The refs of the component that the resolver and the click handler use,
    the features the HUC10 layer shows, and the click handlers suspended at
    their [await].  [huc10QueryRequestId] counts clicks; a binary64 number
    holds every integer below 2^53 exactly, so the counter is an integer. *)
Record MapState : Type := mkMapState {
  leaflet : bool;                                   (* mapObject.value.leaflet is set *)
  routeName : string;                               (* route.name *)
  huc10QueryCache : gmap string FeatureCollection;
  huc10DetectedField : string;
  huc10QueryRequestId : Z;
  huc10Layer : list Feature;                        (* features on the HUC10 layer *)
  alerts : list string;                             (* texts of the alerts displayed *)
  suspended : list Handler
}.

(** State after [onMounted]: the refs as declared (lines 57-59). *)
Definition initialState (route : string) : MapState :=
  {| leaflet := true; routeName := route;
     huc10QueryCache := ∅; huc10DetectedField := "";
     huc10QueryRequestId := 0; huc10Layer := []; alerts := [];
     suspended := [] |}.

Definition setCache (s : MapState) (c : gmap string FeatureCollection) : MapState :=
  {| leaflet := leaflet s; routeName := routeName s;
     huc10QueryCache := c; huc10DetectedField := huc10DetectedField s;
     huc10QueryRequestId := huc10QueryRequestId s; huc10Layer := huc10Layer s;
     alerts := alerts s; suspended := suspended s |}.

Definition setDetectedField (s : MapState) (f : string) : MapState :=
  {| leaflet := leaflet s; routeName := routeName s;
     huc10QueryCache := huc10QueryCache s; huc10DetectedField := f;
     huc10QueryRequestId := huc10QueryRequestId s; huc10Layer := huc10Layer s;
     alerts := alerts s; suspended := suspended s |}.

Definition setRequestId (s : MapState) (n : Z) : MapState :=
  {| leaflet := leaflet s; routeName := routeName s;
     huc10QueryCache := huc10QueryCache s; huc10DetectedField := huc10DetectedField s;
     huc10QueryRequestId := n; huc10Layer := huc10Layer s;
     alerts := alerts s; suspended := suspended s |}.

Definition setLayer (s : MapState) (l : list Feature) : MapState :=
  {| leaflet := leaflet s; routeName := routeName s;
     huc10QueryCache := huc10QueryCache s; huc10DetectedField := huc10DetectedField s;
     huc10QueryRequestId := huc10QueryRequestId s; huc10Layer := l;
     alerts := alerts s; suspended := suspended s |}.

Definition setAlerts (s : MapState) (a : list string) : MapState :=
  {| leaflet := leaflet s; routeName := routeName s;
     huc10QueryCache := huc10QueryCache s; huc10DetectedField := huc10DetectedField s;
     huc10QueryRequestId := huc10QueryRequestId s; huc10Layer := huc10Layer s;
     alerts := a; suspended := suspended s |}.

Definition setRoute (s : MapState) (r : string) : MapState :=
  {| leaflet := leaflet s; routeName := r;
     huc10QueryCache := huc10QueryCache s; huc10DetectedField := huc10DetectedField s;
     huc10QueryRequestId := huc10QueryRequestId s; huc10Layer := huc10Layer s;
     alerts := alerts s; suspended := suspended s |}.

Definition setSuspended (s : MapState) (hs : list Handler) : MapState :=
  {| leaflet := leaflet s; routeName := routeName s;
     huc10QueryCache := huc10QueryCache s; huc10DetectedField := huc10DetectedField s;
     huc10QueryRequestId := huc10QueryRequestId s; huc10Layer := huc10Layer s;
     alerts := alerts s; suspended := hs |}.

(** [isStreamRoute()]. *)
Definition isStreamRoute (s : MapState) : bool := String.eqb (routeName s) "stream".

(** *** The resolver, [queryHuc10ByHuc6] (lines 364-396)

    The function is [async]: it runs until it reaches an [await] on a remote
    query, and is resumed with the service's answer.  [Progress] is what one
    such run ends in. *)
Inductive Progress : Type :=
| Return (collection : FeatureCollection)
| Throw (error : string)
| Await (q : Query) (k : Awaiting).

(** The head of [for (const field of orderedFieldCandidates)]: the next
    where-query; past the last candidate (and when the loop is skipped) the
    intersection query of line 391. *)
Definition tryNext (normalizedCode : string) (huc6Geometry : Geometry)
    (fields : list string) : Progress :=
  match fields with
  | field :: rest =>
      Await (runHuc10WhereQuery field normalizedCode)
            (AwaitWhere normalizedCode huc6Geometry field rest)
  | [] =>
      Await (runHuc10IntersectsQuery huc6Geometry)
            (AwaitIntersects normalizedCode huc6Geometry)
  end.

(** Lines 373-375. *)
Definition orderedFieldCandidates (s : MapState) : list string :=
  if negb (String.eqb (huc10DetectedField s) "")
  then huc10DetectedField s ::
       List.filter (fun f => negb (String.eqb f (huc10DetectedField s))) fieldCandidates
  else fieldCandidates.

(** [queryHuc10ByHuc6(huc6Geometry, huc6Code)] from its entry to its first
    [await] or [return]. *)
Definition queryHuc10ByHuc6 (s : MapState) (huc6Geometry : Geometry)
    (huc6Code : string) : Progress :=
  let normalizedCode := normalizeHucCode (JsString huc6Code) in
  if negb (String.eqb normalizedCode "") then
    match huc10QueryCache s !! normalizedCode with
    | Some cached => Return cached
    | None => tryNext normalizedCode huc6Geometry (orderedFieldCandidates s)
    end
  else tryNext normalizedCode huc6Geometry [].

(** [queryHuc10ByHuc6] from the [await] it is suspended at, given the
    service's answer, to its next [await] or to its end. *)
Definition resumeQueryHuc10ByHuc6 (s : MapState) (k : Awaiting) (answer : Reply)
    : MapState * Progress :=
  match k with
  | AwaitWhere normalizedCode huc6Geometry field rest =>
      match answer with
      | Resolved collection =>
          if negb (length (features collection) =? 0)%nat then
            (setCache (setDetectedField s field)
               (<[normalizedCode := collection]> (huc10QueryCache s)),
             Return collection)
          else (s, tryNext normalizedCode huc6Geometry rest)
      | Rejected _ =>
          (* catch: keep trying field candidates *)
          (s, tryNext normalizedCode huc6Geometry rest)
      end
  | AwaitIntersects normalizedCode huc6Geometry =>
      match answer with
      | Resolved collection =>
          (if negb (String.eqb normalizedCode "")
           then setCache s (<[normalizedCode := collection]> (huc10QueryCache s))
           else s,
           Return collection)
      | Rejected error => (s, Throw error)
      end
  end.

(** *** The HUC6 click handler (lines 191-240) *)

(** The [strictlyNested] filter of lines 220-227. *)
Definition strictlyNested (huc6Code : string) (featureCollection : FeatureCollection)
    : list Feature :=
  List.filter
    (fun feature =>
       let huc10 := normalizeHucCode
                      (JsString (code (extractWatershedMetadata (properties feature) 10))) in
       let huc6 := normalizeHucCode (JsString huc6Code) in
       if String.eqb huc6 "" then true else String.prefix huc6 huc10)
    (features featureCollection).

(** What Leaflet makes of the features handed to the HUC10 layer at lines
    228-229, [huc10Layer.addData(strictlyNested)] and the [setStyle] calls
    of [syncHuc10SelectionStyles()] on the layers it created: the features
    that are on the layer afterwards, and the text [error.message || error]
    of what was raised, if anything was. *)
Record Drawing : Type := mkDrawing {
  drawn : list Feature;
  raised : option string
}.

(** Leaflet's GeoJSON layer.  Leaflet is not part of the embedded code:
    the handlers take the behaviour of [addData] as they find it. *)
Class Leaflet : Type := {
  addData : list Feature -> Drawing
}.

(** Lines 231-239: the [catch] branch. *)
Definition onQueryRejected (s : MapState) (error : string) : MapState :=
  setAlerts s (alerts s ++ ["Could not load HUC10 subwatersheds: " +:+ error]).

(** What an event handler does that the component's state does not record:
    a remote query sent on behalf of the click handler with local
    [requestId], and how that handler's call [queryHuc10ByHuc6(_, huc6Code)]
    ended. *)
Inductive Effect : Type :=
| Sent (requestId : Z) (q : Query)
| Returned (requestId : Z) (huc6Code : string) (collection : FeatureCollection)
| Threw (requestId : Z) (huc6Code : string) (error : string).

(** The watcher on [route.fullPath] (lines 915-924). *)
Definition onRouteChange (s : MapState) (newName : string) : MapState :=
  let s1 := setRoute s newName in
  if negb (isStreamRoute s1) then setLayer s1 [] else s1.

Inductive Event : Type :=
| Huc6Click (target : option Feature)
| ServiceReply (requestId : Z) (answer : Reply)
| RouteChange (newName : string).

Section ClickHandler.
Context {geoJsonLayer : Leaflet}.

(** Lines 214-230: the handler once [await queryHuc10ByHuc6(...)] has
    yielded [featureCollection].  [clearLayers] empties the layer, [addData]
    puts on it what Leaflet draws of the features handed over, and what
    Leaflet raises lands in the [catch] branch of the same [try]. *)
Definition onQueryResolved (s : MapState) (requestId : Z) (huc6Code : string)
    (featureCollection : FeatureCollection) : MapState :=
  if negb (requestId =? huc10QueryRequestId s)%Z || negb (isStreamRoute s) then s
  else
    let cleared := setLayer s [] in
    if negb (length (features featureCollection) =? 0)%nat
    then
      let drawing := addData (strictlyNested huc6Code featureCollection) in
      let shown := setLayer cleared (huc10Layer cleared ++ drawn drawing) in
      match raised drawing with
      | Some error => onQueryRejected shown error
      | None => shown
      end
    else cleared.

(** The click handler around the call: suspended while the call awaits a
    remote query, continued in the [try] or the [catch] branch when the call
    ends.  A call that ends without waiting for the service (a cache hit) is
    continued from the microtask queue, before any other event is handled,
    hence within the same turn. *)
Definition continueHandler (s : MapState) (requestId : Z) (huc6Code : string)
    (p : Progress) : MapState * list Effect :=
  match p with
  | Await q k =>
      (setSuspended s (suspended s ++ [mkHandler requestId huc6Code k]),
       [Sent requestId q])
  | Return collection =>
      (onQueryResolved s requestId huc6Code collection,
       [Returned requestId huc6Code collection])
  | Throw error =>
      (onQueryRejected s error, [Threw requestId huc6Code error])
  end.

(** [huc6Layer.on('click', async (e) => ...)] up to its [await]; [target] is
    [e.layer.feature]. *)
Definition onHuc6Click (s : MapState) (target : option Feature)
    : MapState * list Effect :=
  match target with
  | None => (s, [])
  | Some feature =>
      match leaflet s, geometry feature with
      | true, Some huc6Geometry =>
          let huc6Code := code (extractWatershedMetadata (properties feature) 6) in
          let requestId := (huc10QueryRequestId s + 1)%Z in
          let s1 := setRequestId s requestId in
          continueHandler s1 requestId huc6Code
            (queryHuc10ByHuc6 s1 huc6Geometry huc6Code)
      | _, _ => (s, [])
      end
  end.

(** The service answers the query that the handler with local [requestId]
    is waiting for. *)
Definition onServiceReply (s : MapState) (rid : Z) (answer : Reply)
    : MapState * list Effect :=
  match List.find (fun h => (requestId h =? rid)%Z) (suspended s) with
  | None => (s, [])
  | Some h =>
      let others := List.filter (fun h' => negb (requestId h' =? rid)%Z) (suspended s) in
      let '(s1, p) := resumeQueryHuc10ByHuc6 (setSuspended s others) (awaiting h) answer in
      continueHandler s1 rid (handlerCode h) p
  end.

(** One turn of the event loop. *)
Definition handle (s : MapState) (ev : Event) : MapState * list Effect :=
  match ev with
  | Huc6Click target => onHuc6Click s target
  | ServiceReply rid answer => onServiceReply s rid answer
  | RouteChange newName => (onRouteChange s newName, [])
  end.

(** A sequence of turns, with everything the handlers did, in order. *)
Fixpoint run (s : MapState) (evs : list Event) : MapState * list Effect :=
  match evs with
  | [] => (s, [])
  | ev :: rest =>
      let '(s1, done1) := handle s ev in
      let '(s2, done2) := run s1 rest in
      (s2, (done1 ++ done2)%list)
  end.

End ClickHandler.

(** *** One call on its own *)

(** A feature service that answers every query at once. *)
Record Service : Type := mkService {
  answerWhere : string -> Reply;          (* by where-clause *)
  answerIntersects : Geometry -> Reply
}.

Definition answerQuery (svc : Service) (q : Query) : Reply :=
  match q with
  | WhereQuery clause => answerWhere svc clause
  | IntersectsQuery g => answerIntersects svc g
  end.

(** Drives a call to its end against [svc]: the final state, how the
    promise settles, and the queries sent, in order.  [fuel] bounds the
    number of awaits. *)
Fixpoint settle (fuel : nat) (svc : Service) (s : MapState) (p : Progress)
    : option (MapState * Reply * list Query) :=
  match p with
  | Return collection => Some (s, Resolved collection, [])
  | Throw error => Some (s, Rejected error, [])
  | Await q k =>
      match fuel with
      | O => None
      | S fuel' =>
          let '(s1, p1) := resumeQueryHuc10ByHuc6 s k (answerQuery svc q) in
          match settle fuel' svc s1 p1 with
          | Some (s2, r, sent) => Some (s2, r, q :: sent)
          | None => None
          end
      end
  end.

(** A whole call of [queryHuc10ByHuc6] with no other handler running in
    between: at most one await per candidate field, the detected field, and
    the intersection query. *)
Definition queryHuc10ByHuc6Alone (svc : Service) (s : MapState)
    (huc6Geometry : Geometry) (huc6Code : string)
    : option (MapState * Reply * list Query) :=
  settle (length fieldCandidates + 2) svc s (queryHuc10ByHuc6 s huc6Geometry huc6Code).

End Watershed.

(** ** Selection state of the streams store (stores/streams.js, lines 13-18, 128-193) *)

Module Streams.

(** The refs of the store that hold the selection.  Gauge identifiers and
    domain codes are strings; [selectedDomainGaugeMap] is the plain object
    from domain code to the gauge identifiers of that domain. *)
Record Store : Type := mkStore {
  selectedGaugeIds : list string;
  selectedDomainCodes : list string;
  selectedDomainGaugeMap : gmap string (list string);
  selectionBy : string;       (* gauge | domain *)
  selectionType : string      (* Single | Multiple *)
}.

(** Lines 13-18. *)
Definition initialStore : Store :=
  {| selectedGaugeIds := []; selectedDomainCodes := [];
     selectedDomainGaugeMap := ∅;
     selectionBy := "gauge"; selectionType := "Single" |}.

(** [Boolean(id)] on a string: only the empty string is falsy. *)
Definition Boolean (id : string) : bool := negb (String.eqb id "").

(** [array.includes(x)]. *)
Definition includes (xs : list string) (x : string) : bool := bool_decide (x ∈ xs).

(** [set.add(x)] on the insertion-ordered elements of a [Set]. *)
Definition setAdd (elems : list string) (x : string) : list string :=
  if includes elems x then elems else (elems ++ [x])%list.

(** [[...new Set(xs)]]: the distinct elements of [xs] in order of first
    occurrence. *)
Definition spreadSet (xs : list string) : list string := fold_left setAdd xs [].

(** The names [Object.prototype] defines: a property read [obj[key]] on a
    plain object finds them (all truthy) when [obj] has no own [key]. *)
Definition objectPrototypeKeys : list string :=
  [ "constructor"; "hasOwnProperty"; "isPrototypeOf"; "propertyIsEnumerable";
    "toLocaleString"; "toString"; "valueOf"; "__proto__";
    "__defineGetter__"; "__defineSetter__"; "__lookupGetter__"; "__lookupSetter__" ].

(** [Object.keys(obj)] and [Object.values(obj)].  The finite map lists its
    entries in its own order, not in JavaScript's property order; the results
    below depend on which keys and values are listed, not on their order. *)
Definition objectKeys (obj : gmap string (list string)) : list string :=
  (map_to_list obj).*1.

Definition objectValues (obj : gmap string (list string)) : list (list string) :=
  (map_to_list obj).*2.

Definition setGaugeIds (st : Store) (ids : list string) : Store :=
  {| selectedGaugeIds := ids; selectedDomainCodes := selectedDomainCodes st;
     selectedDomainGaugeMap := selectedDomainGaugeMap st;
     selectionBy := selectionBy st; selectionType := selectionType st |}.

(** [clearSelectedGauges()]. *)
Definition clearSelectedGauges (st : Store) : Store := setGaugeIds st [].

(** [clearSelectedDomains()]. *)
Definition clearSelectedDomains (st : Store) : Store :=
  {| selectedGaugeIds := selectedGaugeIds st; selectedDomainCodes := [];
     selectedDomainGaugeMap := ∅;
     selectionBy := selectionBy st; selectionType := selectionType st |}.

(** [clearSelections()]. *)
Definition clearSelections (st : Store) : Store :=
  clearSelectedDomains (clearSelectedGauges st).

(** [setSelectionBy(mode)]. *)
Definition setSelectionBy (mode : string) (st : Store) : Store :=
  clearSelections
    {| selectedGaugeIds := selectedGaugeIds st;
       selectedDomainCodes := selectedDomainCodes st;
       selectedDomainGaugeMap := selectedDomainGaugeMap st;
       selectionBy := mode; selectionType := selectionType st |}.

(** [setSelectionType(mode)]. *)
Definition setSelectionType (mode : string) (st : Store) : Store :=
  clearSelections
    {| selectedGaugeIds := selectedGaugeIds st;
       selectedDomainCodes := selectedDomainCodes st;
       selectedDomainGaugeMap := selectedDomainGaugeMap st;
       selectionBy := selectionBy st; selectionType := mode |}.

(** [toggleGaugeSelection(gaugeId)]. *)
Definition toggleGaugeSelection (gaugeId : string) (st : Store) : Store :=
  if negb (Boolean gaugeId) then st
  else if String.eqb (selectionType st) "Single" then setGaugeIds st [gaugeId]
  else if includes (selectedGaugeIds st) gaugeId then
    setGaugeIds st
      (List.filter (fun id => negb (String.eqb id gaugeId)) (selectedGaugeIds st))
  else setGaugeIds st (selectedGaugeIds st ++ [gaugeId]).

(** [setSelectedGauges(gaugeIds)]. *)
Definition setSelectedGauges (gaugeIds : list string) (st : Store) : Store :=
  setGaugeIds st (spreadSet (List.filter Boolean gaugeIds)).

(** [nextMap[domainCode]] as a condition: an own entry is an array, hence
    truthy; otherwise the read falls through to [Object.prototype]. *)
Definition hasTruthyProperty (obj : gmap string (list string)) (key : string) : bool :=
  bool_decide (is_Some (obj !! key)) || includes objectPrototypeKeys key.

(** [toggleDomainSelection(domainCode, gaugeIdsForDomain)]. *)
Definition toggleDomainSelection (domainCode : string)
    (gaugeIdsForDomain : list string) (st : Store) : Store :=
  if negb (Boolean domainCode) then st
  else
    let nextGaugeIds := List.filter Boolean (spreadSet gaugeIdsForDomain) in
    if String.eqb (selectionType st) "Single" then
      {| selectedGaugeIds := nextGaugeIds;
         selectedDomainCodes := [domainCode];
         selectedDomainGaugeMap := {[ domainCode := nextGaugeIds ]};
         selectionBy := selectionBy st; selectionType := selectionType st |}
    else
      let nextMap :=
        if hasTruthyProperty (selectedDomainGaugeMap st) domainCode
        then delete domainCode (selectedDomainGaugeMap st)
        else <[domainCode := nextGaugeIds]> (selectedDomainGaugeMap st) in
      {| selectedGaugeIds :=
           spreadSet (List.filter Boolean (concat (objectValues nextMap)));
         selectedDomainCodes := objectKeys nextMap;
         selectedDomainGaugeMap := nextMap;
         selectionBy := selectionBy st; selectionType := selectionType st |}.

(** The store's selection operations, as calls. *)
Inductive Operation : Type :=
| ToggleGaugeSelection (gaugeId : string)
| SetSelectedGauges (gaugeIds : list string)
| ToggleDomainSelection (domainCode : string) (gaugeIdsForDomain : list string)
| ClearSelectedGauges
| ClearSelectedDomains
| ClearSelections
| SetSelectionBy (mode : string)
| SetSelectionType (mode : string).

Definition perform (st : Store) (op : Operation) : Store :=
  match op with
  | ToggleGaugeSelection gaugeId => toggleGaugeSelection gaugeId st
  | SetSelectedGauges gaugeIds => setSelectedGauges gaugeIds st
  | ToggleDomainSelection domainCode gaugeIds =>
      toggleDomainSelection domainCode gaugeIds st
  | ClearSelectedGauges => clearSelectedGauges st
  | ClearSelectedDomains => clearSelectedDomains st
  | ClearSelections => clearSelections st
  | SetSelectionBy mode => setSelectionBy mode st
  | SetSelectionType mode => setSelectionType mode st
  end.

(** The store after a sequence of calls. *)
Definition performAll (st : Store) (ops : list Operation) : Store :=
  fold_left perform ops st.

(** Two lists that hold the same identifiers. *)
Definition sameSet (xs ys : list string) : Prop := ∀ x, x ∈ xs ↔ x ∈ ys.

End Streams.

(** ** Session, gauges and download of the streams store
       (stores/streams.js, lines 6-12, 16, 19-126, 195-259) *)

Module Session.
Import Containment Watershed Streams.

(** [sessionExpiresAt] as [isSessionExpired] reads it: a falsy value
    ([null] at first), a value whose [Date] has no time, or the time of its
    [Date] in milliseconds. *)
Inductive Expiry : Type :=
| NoExpiry
| UnreadableExpiry
| ExpiresAt (time : Z).

(** A gauge of [gaugesGeoJson]: [geometry.coordinates] when it is an array,
    and [properties.STREAM_ID]. *)
Record GaugeFeature : Type := mkGaugeFeature {
  gaugeCoordinates : option Position;
  STREAM_ID : JsValue
}.

(** The collection the gauges endpoint answers with: its [features] when
    they are an array. *)
Record GaugeCollection : Type := mkGaugeCollection {
  gaugeFeatures : option (list GaugeFeature)
}.

(** The [options] object: the keys of [water_quality_variables] and the
    entries of [other_datasets], when the members are present. *)
Record Options : Type := mkOptions {
  water_quality_variables : option (list string);
  other_datasets : option (list string)
}.

Record Loading : Type := mkLoading {
  loadingLogin : bool;
  loadingOptions : bool;
  loadingGauges : bool;
  loadingDownload : bool
}.

(** All refs of the store; [selection] holds the five refs of the
    selection state.  A falsy [sessionToken] is the empty string. *)
Record StreamsStore : Type := mkStreamsStore {
  sessionToken : string;
  sessionExpiresAt : Expiry;
  options : Options;
  gaugesGeoJson : option GaugeCollection;
  selection : Store;
  zoomToSelectionRequestId : Z;
  loading : Loading
}.

(** Lines 6-24. *)
Definition initialStreamsStore : StreamsStore :=
  {| sessionToken := ""; sessionExpiresAt := NoExpiry;
     options := {| water_quality_variables := Some []; other_datasets := Some [] |};
     gaugesGeoJson := None; selection := initialStore;
     zoomToSelectionRequestId := 0;
     loading := {| loadingLogin := false; loadingOptions := false;
                   loadingGauges := false; loadingDownload := false |} |}.

Definition setSessionToken (st : StreamsStore) (token : string) : StreamsStore :=
  {| sessionToken := token; sessionExpiresAt := sessionExpiresAt st;
     options := options st; gaugesGeoJson := gaugesGeoJson st;
     selection := selection st;
     zoomToSelectionRequestId := zoomToSelectionRequestId st;
     loading := loading st |}.

Definition setSessionExpiresAt (st : StreamsStore) (expiry : Expiry) : StreamsStore :=
  {| sessionToken := sessionToken st; sessionExpiresAt := expiry;
     options := options st; gaugesGeoJson := gaugesGeoJson st;
     selection := selection st;
     zoomToSelectionRequestId := zoomToSelectionRequestId st;
     loading := loading st |}.

Definition setOptions (st : StreamsStore) (data : Options) : StreamsStore :=
  {| sessionToken := sessionToken st; sessionExpiresAt := sessionExpiresAt st;
     options := data; gaugesGeoJson := gaugesGeoJson st;
     selection := selection st;
     zoomToSelectionRequestId := zoomToSelectionRequestId st;
     loading := loading st |}.

Definition setGaugesGeoJson (st : StreamsStore) (data : option GaugeCollection)
    : StreamsStore :=
  {| sessionToken := sessionToken st; sessionExpiresAt := sessionExpiresAt st;
     options := options st; gaugesGeoJson := data;
     selection := selection st;
     zoomToSelectionRequestId := zoomToSelectionRequestId st;
     loading := loading st |}.

(** A selection operation of the store, applied to the whole store. *)
Definition updateSelection (f : Store -> Store) (st : StreamsStore) : StreamsStore :=
  {| sessionToken := sessionToken st; sessionExpiresAt := sessionExpiresAt st;
     options := options st; gaugesGeoJson := gaugesGeoJson st;
     selection := f (selection st);
     zoomToSelectionRequestId := zoomToSelectionRequestId st;
     loading := loading st |}.

Definition setLoading (st : StreamsStore) (flags : Loading) : StreamsStore :=
  {| sessionToken := sessionToken st; sessionExpiresAt := sessionExpiresAt st;
     options := options st; gaugesGeoJson := gaugesGeoJson st;
     selection := selection st;
     zoomToSelectionRequestId := zoomToSelectionRequestId st;
     loading := flags |}.

Definition setLoadingLogin (st : StreamsStore) (flag : bool) : StreamsStore :=
  setLoading st
    {| loadingLogin := flag; loadingOptions := loadingOptions (loading st);
       loadingGauges := loadingGauges (loading st);
       loadingDownload := loadingDownload (loading st) |}.

Definition setLoadingOptions (st : StreamsStore) (flag : bool) : StreamsStore :=
  setLoading st
    {| loadingLogin := loadingLogin (loading st); loadingOptions := flag;
       loadingGauges := loadingGauges (loading st);
       loadingDownload := loadingDownload (loading st) |}.

Definition setLoadingGauges (st : StreamsStore) (flag : bool) : StreamsStore :=
  setLoading st
    {| loadingLogin := loadingLogin (loading st);
       loadingOptions := loadingOptions (loading st);
       loadingGauges := flag;
       loadingDownload := loadingDownload (loading st) |}.

Definition setLoadingDownload (st : StreamsStore) (flag : bool) : StreamsStore :=
  setLoading st
    {| loadingLogin := loadingLogin (loading st);
       loadingOptions := loadingOptions (loading st);
       loadingGauges := loadingGauges (loading st);
       loadingDownload := flag |}.

(** *** Errors, requests and responses *)

(** What a call throws or rejects with: an [Error] made by the store, or
    the reason [fetch], [response.json()] or [response.blob()] rejected
    with, by its text. *)
Inductive Thrown : Type :=
| NewError (message : string)
| Foreign (text : string).

(** [String(error)]. *)
Definition errorString (e : Thrown) : string :=
  match e with
  | NewError message =>
      if String.eqb message "" then "Error" else "Error: " +:+ message
  | Foreign text => text
  end.

(** How the promise of an [async] function settles. *)
Inductive Settled (A : Type) : Type :=
| Fulfils (value : A)
| Rejects (error : Thrown).
Arguments Fulfils {A} value.
Arguments Rejects {A} error.

(** The body of the download request. *)
Record DownloadPayload : Type := mkPayload {
  gauges : list string;
  start_date : string;
  end_date : string;
  waterQualityVariables : list string;
  otherDatasets : list string
}.

(** The requests the store sends; [session] is the [X-Streams-Session]
    header. *)
Inductive Request : Type :=
| PostLogin (username password : string)
| PostLogout (session : string)
| GetOptions
| GetGauges (maxFeatures : Z) (session : string)
| PostDownload (session : string) (payload : DownloadPayload).

(** What [fetch] followed by [response.json()] comes to: [fetch] rejects,
    [json()] rejects, or the body is an object, read with [response.ok]
    false (then only its [detail] is used: a text, [null] or missing) or
    true. *)
Inductive Fetched (A : Type) : Type :=
| FetchRejects (reason : string)
| JsonRejects (reason : string)
| NotOk (detail : JsValue)
| Ok (data : A).
Arguments FetchRejects {A} reason.
Arguments JsonRejects {A} reason.
Arguments NotOk {A} detail.
Arguments Ok {A} data.

(** The body of a successful login. *)
Record LoginData : Type := mkLoginData {
  session_token : string;
  expires_at : Expiry
}.

(** What the download request comes to: the body of a response that is not
    ok is read in a [try] of its own ([None]: reading it failed). *)
Inductive DownloadFetched : Type :=
| DownloadFetchRejects (reason : string)
| DownloadNotOk (detail : option JsValue)
| DownloadBlobRejects (reason : string)
| DownloadOk (blob : string).

(** The message of [new Error(data.detail || fallback)]. *)
Definition errorText (detail : JsValue) (fallback : string) : string :=
  if truthy detail then toString detail else fallback.

(** [data?.detail === 'Invalid or expired STREAMS session token.'] *)
Definition invalidToken (detail : JsValue) : bool :=
  match detail with
  | JsString s => String.eqb s "Invalid or expired STREAMS session token."
  | _ => false
  end.

(** *** Session *)

(** [clearSession()]. *)
Definition clearSession (st : StreamsStore) : StreamsStore :=
  updateSelection clearSelections
    (setGaugesGeoJson (setSessionExpiresAt (setSessionToken st "") NoExpiry) None).

(** [isSessionExpired()]; [now] is [Date.now()]. *)
Definition isSessionExpired (st : StreamsStore) (now : Z) : bool :=
  match sessionExpiresAt st with
  | NoExpiry => false
  | UnreadableExpiry => false
  | ExpiresAt time => (time <=? now)%Z
  end.

(** [ensureValidSession()]: the store it leaves, and what it throws. *)
Definition ensureValidSession (st : StreamsStore) (now : Z)
    : StreamsStore * option Thrown :=
  if negb (Boolean (sessionToken st))
  then (st, Some (NewError "Please sign in before continuing."))
  else if isSessionExpired st now
  then (clearSession st,
        Some (NewError "Your STREAMS session has expired. Please sign in again."))
  else (st, None).

(** Each of the [async] functions below is given the outcome of its request
    and runs from its call to the settling of its promise, with nothing else
    touching the store in between; it yields the store it leaves, how its
    promise settles, and the requests it sent. *)

(** [fetchOptions()]. *)
Definition fetchOptions (st : StreamsStore) (response : Fetched Options)
    : StreamsStore * Settled unit * list Request :=
  let st1 := setLoadingOptions st true in
  let '(st2, outcome) :=
    match response with
    | FetchRejects reason => (st1, Rejects (Foreign reason))
    | JsonRejects reason => (st1, Rejects (Foreign reason))
    | NotOk detail =>
        (st1, Rejects (NewError (errorText detail "Failed to load STREAMS options")))
    | Ok data => (setOptions st1 data, Fulfils tt)
    end in
  (setLoadingOptions st2 false, outcome, [GetOptions]).

(** [fetchGauges(maxFeatures)]; [now] is the time of the call. *)
Definition fetchGauges (st : StreamsStore) (now : Z) (maxFeatures : Z)
    (response : Fetched GaugeCollection)
    : StreamsStore * Settled (option GaugeCollection) * list Request :=
  if negb (Boolean (sessionToken st)) then (st, Fulfils None, [])
  else
    match ensureValidSession st now with
    | (st1, Some error) => (st1, Rejects error, [])
    | (st1, None) =>
        let st2 := setLoadingGauges st1 true in
        let request := GetGauges maxFeatures (sessionToken st2) in
        let '(st3, outcome) :=
          match response with
          | FetchRejects reason => (st2, Rejects (Foreign reason))
          | JsonRejects reason => (st2, Rejects (Foreign reason))
          | NotOk detail =>
              if invalidToken detail
              then (clearSession st2,
                    Rejects (NewError "Your STREAMS session expired. Please sign in again."))
              else (st2, Rejects (NewError (errorText detail "Failed to load gauge data")))
          | Ok data => (setGaugesGeoJson st2 (Some data), Fulfils (Some data))
          end in
        (setLoadingGauges st3 false, outcome, [request])
    end.

(** [Promise.all([fetchOptions(), fetchGauges()])]: it rejects with the
    reason of the promise that rejects first.  [fetchGauges] rejects ahead
    of every response when it sends no request; otherwise
    [optionsSettlesFirst] tells which response came first. *)
Definition promiseAll (optionsOutcome : Settled unit)
    (gaugesOutcome : Settled (option GaugeCollection))
    (gaugesRequests : list Request) (optionsSettlesFirst : bool)
    : Settled unit :=
  match optionsOutcome, gaugesOutcome with
  | Fulfils _, Fulfils _ => Fulfils tt
  | Rejects error, Fulfils _ => Rejects error
  | Fulfils _, Rejects error => Rejects error
  | Rejects optionsError, Rejects gaugesError =>
      match gaugesRequests with
      | [] => Rejects gaugesError
      | _ :: _ =>
          if optionsSettlesFirst then Rejects optionsError else Rejects gaugesError
      end
  end.

(** [login(username, password)].  The two loads it starts run side by
    side; they write different refs, so the store they leave is the one of
    running one after the other.  [now] is the time the loads start. *)
Definition login (st : StreamsStore) (now : Z) (username password : string)
    (response : Fetched LoginData) (optionsResponse : Fetched Options)
    (gaugesResponse : Fetched GaugeCollection) (optionsSettlesFirst : bool)
    : StreamsStore * Settled LoginData * list Request :=
  let st1 := setLoadingLogin st true in
  let request := PostLogin username password in
  match response with
  | FetchRejects reason => (setLoadingLogin st1 false, Rejects (Foreign reason), [request])
  | JsonRejects reason => (setLoadingLogin st1 false, Rejects (Foreign reason), [request])
  | NotOk detail =>
      (setLoadingLogin st1 false,
       Rejects (NewError (errorText detail "Login failed")), [request])
  | Ok data =>
      let st2 := setSessionExpiresAt (setSessionToken st1 (session_token data))
                   (expires_at data) in
      let '(st3, optionsOutcome, optionsRequests) := fetchOptions st2 optionsResponse in
      let '(st4, gaugesOutcome, gaugesRequests) :=
        fetchGauges st3 now 5000 gaugesResponse in
      (setLoadingLogin st4 false,
       match promiseAll optionsOutcome gaugesOutcome gaugesRequests optionsSettlesFirst with
       | Fulfils _ => Fulfils data
       | Rejects error => Rejects error
       end,
       (request :: optionsRequests ++ gaugesRequests)%list)
  end.

(** [logout()]; [delivered] tells whether [fetch] resolved (a rejection is
    caught and logged). *)
Definition logout (st : StreamsStore) (delivered : bool)
    : StreamsStore * list Request :=
  if negb (Boolean (sessionToken st)) then (st, [])
  else (clearSession st, [PostLogout (sessionToken st)]).

(** [downloadSelectedData({startDate, endDate, waterQualityVariables,
    otherDatasets})]. *)
Definition downloadSelectedData (st : StreamsStore) (now : Z)
    (startDate endDate : string)
    (waterQualityVariables otherDatasets : list string)
    (response : DownloadFetched)
    : StreamsStore * Settled string * list Request :=
  match ensureValidSession st now with
  | (st1, Some error) => (st1, Rejects error, [])
  | (st1, None) =>
      if (length (selectedGaugeIds (selection st1)) =? 0)%nat
      then (st1, Rejects (NewError "Select at least one gauge before downloading."), [])
      else
        let st2 := setLoadingDownload st1 true in
        let payload :=
          {| gauges := selectedGaugeIds (selection st2);
             start_date := startDate +:+ "T00:00:00Z";
             end_date := endDate +:+ "T23:59:59Z";
             waterQualityVariables := waterQualityVariables;
             otherDatasets := otherDatasets |} in
        let request := PostDownload (sessionToken st2) payload in
        let '(st3, outcome) :=
          match response with
          | DownloadFetchRejects reason => (st2, Rejects (Foreign reason))
          | DownloadNotOk None => (st2, Rejects (NewError "Download failed"))
          | DownloadNotOk (Some detail) =>
              (* the error thrown after [clearSession] is caught by the
                 inner [catch]; the one thrown after it carries [detail] *)
              (if invalidToken detail then clearSession st2 else st2,
               Rejects (NewError (errorText detail "Download failed")))
          | DownloadBlobRejects reason => (st2, Rejects (Foreign reason))
          | DownloadOk blob => (st2, Fulfils blob)
          end in
        (setLoadingDownload st3 false, outcome, [request])
  end.

(** [requestZoomToSelection()]. *)
Definition requestZoomToSelection (st : StreamsStore) : StreamsStore :=
  {| sessionToken := sessionToken st; sessionExpiresAt := sessionExpiresAt st;
     options := options st; gaugesGeoJson := gaugesGeoJson st;
     selection := selection st;
     zoomToSelectionRequestId := (zoomToSelectionRequestId st + 1)%Z;
     loading := loading st |}.

(** [set.has(value)] for a [Set] of strings. *)
Definition setHas (elems : list string) (value : JsValue) : bool :=
  match value with
  | JsString s => includes elems s
  | _ => false
  end.

(** [selectedGaugeFeatures()]. *)
Definition selectedGaugeFeatures (st : StreamsStore) : list GaugeFeature :=
  match gaugesGeoJson st with
  | Some {| gaugeFeatures := Some features |} =>
      let selected := spreadSet (selectedGaugeIds (selection st)) in
      List.filter (fun feature => setHas selected (STREAM_ID feature)) features
  | _ => []
  end.

End Session.

(** ** Gauges of a HUC10 domain, map click handlers and selection styles
       (map component, lines 157-164, 246-265, 332-362, 479-498, 518-548) *)

Module StreamMap.
Import Containment Watershed Streams Session.

(** A layer of the HUC10 GeoJSON layer: its [feature], and Leaflet's
    [layer.getBounds().contains(L.latLng(lat, lng))] when the layer has
    [getBounds].  The coordinates of a gauge come from JSON: they are
    numbers, and none is NaN. *)
Record Huc10LayerView : Type := mkLayerView {
  layerFeature : option Feature;
  boundsContain : option (float -> float -> bool)
}.

(** [layer?.feature?.geometry]. *)
Definition layerGeometry (layer : Huc10LayerView) : option Geometry :=
  match layerFeature layer with
  | Some feature => geometry feature
  | None => None
  end.

(** [feature?.properties || {}]. *)
Definition layerProperties (layer : Huc10LayerView) : Properties :=
  match layerFeature layer with
  | Some feature => properties feature
  | None => []
  end.

(** The loop of lines 255-263 over the gauges still to visit, [ids] being
    the identifiers pushed so far. *)
Fixpoint collectGaugeIds (gaugesLeft : list GaugeFeature) (layer : Huc10LayerView)
    (ids : list string) : Completion (list string) :=
  match gaugesLeft with
  | [] => Returns ids
  | feature :: rest =>
      match gaugeCoordinates feature with
      | None => collectGaugeIds rest layer ids
      | Some coords =>
          if (length coords <? 2)%nat || negb (truthy (STREAM_ID feature))
          then collectGaugeIds rest layer ids
          else
            match pointInGeometry coords (layerGeometry layer) with
            | ThrowsTypeError => ThrowsTypeError
            | Returns inGeometry =>
                let inside :=
                  inGeometry ||
                  match boundsContain layer with
                  | Some contains => contains (entry coords 1) (entry coords 0)
                  | None => false
                  end in
                collectGaugeIds rest layer
                  (if inside then ids ++ [toString (STREAM_ID feature)] else ids)
            end
      end
  end.

(** [getGaugeIdsInLayer(layer)]. *)
Definition getGaugeIdsInLayer (st : StreamsStore) (layer : option Huc10LayerView)
    : Completion (list string) :=
  match gaugesGeoJson st, layer with
  | Some {| gaugeFeatures := Some (feature :: rest) |}, Some layer =>
      match collectGaugeIds (feature :: rest) layer [] with
      | Returns ids => Returns (spreadSet ids)
      | ThrowsTypeError => ThrowsTypeError
      end
  | _, _ => Returns []
  end.

(** The click handler of a HUC10 layer (lines 158-164), as far as it
    touches the store. *)
Definition onHuc10Click (st : StreamsStore) (layer : Huc10LayerView)
    : Completion StreamsStore :=
  let code := code (extractWatershedMetadata (layerProperties layer) 10) in
  if String.eqb (selectionBy (selection st)) "domain" then
    match getGaugeIdsInLayer st (Some layer) with
    | Returns gaugeIds =>
        Returns (updateSelection (toggleDomainSelection code gaugeIds) st)
    | ThrowsTypeError => ThrowsTypeError
    end
  else Returns st.

(** The click handler of a gauge marker (lines 495-498). *)
Definition onGaugeClick (st : StreamsStore) (feature : GaugeFeature) : StreamsStore :=
  if negb (String.eqb (selectionBy (selection st)) "gauge") then st
  else
    match STREAM_ID feature with
    | JsString streamId => updateSelection (toggleGaugeSelection streamId) st
    | _ => st
    end.

(** Lines 479-484: whether [buildStreamGaugeLayer] draws the marker of a
    gauge as selected (radius 7, colour #ff3b30) rather than plain (radius 5,
    colour #1d4ed8). *)
Definition gaugeMarkerSelected (st : StreamsStore) (feature : GaugeFeature) : bool :=
  setHas (spreadSet (selectedGaugeIds (selection st))) (STREAM_ID feature).

(** The two styles [syncHuc10SelectionStyles] chooses between: the
    highlight (colour #bb3e03) and the plain style (colour #0a9396). *)
Inductive Huc10Style : Type :=
| Highlighted
| Plain.

(** The style [syncHuc10SelectionStyles] gives to the layer of a
    feature (lines 336-360). *)
Definition huc10Style (st : StreamsStore) (layer : Huc10LayerView) : Huc10Style :=
  let selectedCodes :=
    spreadSet
      (List.map (fun code => normalizeHucCode (JsString code))
         (selectedDomainCodes (selection st))) in
  let isDomainMode := String.eqb (selectionBy (selection st)) "domain" in
  let code :=
    normalizeHucCode
      (JsString (code (extractWatershedMetadata (layerProperties layer) 10))) in
  if isDomainMode && Boolean code && includes selectedCodes code
  then Highlighted else Plain.

(** [syncHuc10SelectionStyles()] over the layers of the HUC10 layer. *)
Definition syncHuc10SelectionStyles (st : StreamsStore)
    (huc10Layers : option (list Huc10LayerView)) : list Huc10Style :=
  match huc10Layers with
  | Some layers => List.map (huc10Style st) layers
  | None => []
  end.

(** [Math.max(a, b)]. *)
Definition mathMax (a b : float) : float :=
  if is_nan a || is_nan b then nan
  else if (a <? b)%float then b
  else if (b <? a)%float then a
  else if (1 / a <? 0)%float then b else a.

(** What [zoomToSelectedStreamGauges] asks of the map. *)
Inductive ViewChange : Type :=
| SetView (lat lng : float) (zoom : float)
| FitBounds (latLngs : list (float * float)) (maxZoom : float).

(** Lines 528-536: [L.latLng(lat, lng)] of each feature that has
    coordinates. *)
Definition gaugeLatLngs (selectedFeatures : list GaugeFeature) : list (float * float) :=
  List.flat_map
    (fun feature =>
       match gaugeCoordinates feature with
       | Some coordinates =>
           if (length coordinates <? 2)%nat then []
           else [(entry coordinates 1, entry coordinates 0)]
       | None => []
       end)
    selectedFeatures.

(** [zoomToSelectedStreamGauges()]; [leafletZoom] is [leaflet.getZoom()],
    when the map exists. *)
Definition zoomToSelectedStreamGauges (leafletZoom : option float) (routeName : string)
    (st : StreamsStore) : option ViewChange :=
  match leafletZoom with
  | None => None
  | Some currentZoom =>
      if negb (String.eqb routeName "stream") then None
      else
        match gaugeLatLngs (selectedGaugeFeatures st) with
        | [] => None
        | [(lat, lng)] => Some (SetView lat lng (mathMax currentZoom 12))
        | latLngs => Some (FitBounds latLngs 12)
        end
  end.

End StreamMap.

(** ** The STREAM drawer (drawer component, lines 187-192, 203-210, 216-218,
       224-295) *)

Module Drawer.
Import Watershed Streams Session.

Record DrawerState : Type := mkDrawer {
  username : string;
  password : string;
  selectedWaterQuality : list string;
  selectedDatasets : list string;
  startDate : string;
  endDate : string
}.

(** An alert shown through the alert store. *)
Record Alert : Type := mkAlert {
  alertTitle : string;
  alertText : string;
  alertType : string
}.

(** [canDownload]. *)
Definition canDownload (d : DrawerState) (st : StreamsStore) : bool :=
  (0 <? length (selectedGaugeIds (selection st)))%nat
  && ((0 <? length (selectedWaterQuality d))%nat || (0 <? length (selectedDatasets d))%nat)
  && Boolean (startDate d)
  && Boolean (endDate d).

Definition setSelectedWaterQuality (d : DrawerState) (labels : list string)
    : DrawerState :=
  {| username := username d; password := password d;
     selectedWaterQuality := labels; selectedDatasets := selectedDatasets d;
     startDate := startDate d; endDate := endDate d |}.

Definition setSelectedDatasets (d : DrawerState) (labels : list string) : DrawerState :=
  {| username := username d; password := password d;
     selectedWaterQuality := selectedWaterQuality d; selectedDatasets := labels;
     startDate := startDate d; endDate := endDate d |}.

(** [clearWaterQuality()] and [clearDatasets()]. *)
Definition clearWaterQuality (d : DrawerState) : DrawerState :=
  setSelectedWaterQuality d [].

Definition clearDatasets (d : DrawerState) : DrawerState :=
  setSelectedDatasets d [].

(** [resetOptions()]; [today] is [new Date().toISOString().slice(0, 10)]. *)
Definition resetOptions (today : string) (d : DrawerState) (st : StreamsStore)
    : DrawerState * StreamsStore :=
  let d1 := clearDatasets (clearWaterQuality d) in
  let st1 := updateSelection (setSelectionBy "gauge") st in
  let st2 := updateSelection (setSelectionType "Single") st1 in
  ({| username := username d1; password := password d1;
      selectedWaterQuality := selectedWaterQuality d1;
      selectedDatasets := selectedDatasets d1;
      startDate := "2011-01-01"; endDate := today |},
   st2).

(** [onLogin()]. *)
Definition onLogin (d : DrawerState) (st : StreamsStore) (now : Z)
    (response : Fetched LoginData) (optionsResponse : Fetched Options)
    (gaugesResponse : Fetched GaugeCollection) (optionsSettlesFirst : bool)
    : DrawerState * StreamsStore * Alert :=
  let '(st1, outcome, _) :=
    login st now (username d) (password d) response optionsResponse gaugesResponse
      optionsSettlesFirst in
  match outcome with
  | Fulfils _ =>
      ({| username := username d; password := "";
          selectedWaterQuality := selectedWaterQuality d;
          selectedDatasets := selectedDatasets d;
          startDate := startDate d; endDate := endDate d |},
       st1,
       {| alertTitle := "STREAMS"; alertText := "Signed in and gauges loaded.";
          alertType := "success" |})
  | Rejects error =>
      (d, st1,
       {| alertTitle := "STREAMS Login Error"; alertText := errorString error;
          alertType := "error" |})
  end.

(** [onLogout()]. *)
Definition onLogout (d : DrawerState) (st : StreamsStore) (delivered : bool)
    : DrawerState * StreamsStore * Alert :=
  let '(st1, _) := logout st delivered in
  (setSelectedDatasets (setSelectedWaterQuality d []) [], st1,
   {| alertTitle := "STREAMS"; alertText := "Signed out."; alertType := "info" |}).

(** [onDownload()]: the store it leaves, the request sent, and the blob
    saved as streams-data.zip or the alert shown. *)
Definition onDownload (d : DrawerState) (st : StreamsStore) (now : Z)
    (response : DownloadFetched)
    : StreamsStore * list Request * (string + Alert) :=
  let '(st1, outcome, requests) :=
    downloadSelectedData st now (startDate d) (endDate d)
      (selectedWaterQuality d) (selectedDatasets d) response in
  (st1, requests,
   match outcome with
   | Fulfils blob => inl blob
   | Rejects error =>
       inr {| alertTitle := "STREAMS Download Error"; alertText := errorString error;
              alertType := "error" |}
   end).

End Drawer.

(** ** The handlers of the two components that change the streams store *)

Module Interface.
Import Watershed Streams Session StreamMap Drawer.

(** What the user or the network can make happen to the store: a click on
    a gauge marker or on a HUC10 layer, the controls of the drawer, and the
    store's requests with their outcomes.  The arguments of the requests are
    arbitrary, and no action is tied to its control being enabled. *)
Inductive Action : Type :=
| GaugeClick (feature : GaugeFeature)
| Huc10Click (layer : Huc10LayerView)
| SelectBy (mode : string)
| SelectType (mode : string)
| ClearSelection
| ZoomToSelected
| ResetOptions (today : string) (d : DrawerState)
| SignIn (now : Z) (username password : string) (response : Fetched LoginData)
    (optionsResponse : Fetched Options) (gaugesResponse : Fetched GaugeCollection)
    (optionsSettlesFirst : bool)
| SignOut (delivered : bool)
| Download (now : Z) (startDate endDate : string)
    (waterQualityVariables otherDatasets : list string) (response : DownloadFetched).

(** The store after one action.  An exception in the HUC10 click handler
    leaves the store as it was. *)
Definition act (st : StreamsStore) (a : Action) : StreamsStore :=
  match a with
  | GaugeClick feature => onGaugeClick st feature
  | Huc10Click layer =>
      match onHuc10Click st layer with
      | Returns st1 => st1
      | ThrowsTypeError => st
      end
  | SelectBy mode => updateSelection (setSelectionBy mode) st
  | SelectType mode => updateSelection (setSelectionType mode) st
  | ClearSelection => updateSelection clearSelections st
  | ZoomToSelected => requestZoomToSelection st
  | ResetOptions today d => snd (resetOptions today d st)
  | SignIn now username password response optionsResponse gaugesResponse first =>
      fst (fst (login st now username password response optionsResponse
                  gaugesResponse first))
  | SignOut delivered => fst (logout st delivered)
  | Download now startDate endDate waterQualityVariables otherDatasets response =>
      fst (fst (downloadSelectedData st now startDate endDate
                  waterQualityVariables otherDatasets response))
  end.

(** The store after a sequence of actions. *)
Definition actAll (st : StreamsStore) (actions : list Action) : StreamsStore :=
  fold_left act actions st.

End Interface.


(** * Vocabulary of the properties

    What the statements below are written with: the invariants of the
    component and of the store, the claims in their own words where the code
    departs from them, and the data of the concrete runs. *)

Section Vocabulary.
Import Containment Watershed Streams.

(** ** Containment test *)

(** The edges of a list of vertices whose first vertex is preceded by
    [prev]. *)
Fixpoint edgesFrom (prev : Position) (l : list Position)
    : list (Position * Position) :=
  match l with
  | [] => []
  | v :: l' => (v, prev) :: edgesFrom v l'
  end.

(** The polygons of a MultiPolygon whose rings are arrays of positions. *)
Definition polygonsOf (polygons : list (option (list Ring)))
    : list (option (list RingValue)) :=
  List.map (option_map (List.map ringOf)) polygons.

(** A square with a square hole. *)
Definition square : Ring := [[0; 0]; [4; 0]; [4; 4]; [0; 4]; [0; 0]]%float.
Definition squareHole : Ring := [[1; 1]; [2; 1]; [2; 2]; [1; 2]; [1; 1]]%float.

(** The triangle with the corners (0, 0), (3, 0) and (0, 3), and two
    positions close to its longest side: the binary64 values nearest to
    (2.94, 0.06), whose sum is below 3, and nearest to
    (2.7, 0.30000000000000004), whose sum is above 3. *)
Definition triangle : Ring := [[0; 0]; [3; 0]; [0; 3]; [0; 0]]%float.

Definition justInside : Position :=
  [0x1.7851eb851eb85p+1; 0x1.eb851eb851eb8p-5]%float.

Definition justOutside : Position :=
  [0x1.599999999999ap+1; 0x1.3333333333334p-2]%float.

(** The position lies strictly inside the triangle, as a statement on the
    numbers its coordinates stand for: [0 < x], [0 < y] and [x + y < 3]. *)
Definition strictlyInsideTriangle (position : Position) : Prop :=
  ∃ x y : QArith_base.Q,
    rational (entry position 0) = Some x ∧ rational (entry position 1) = Some y
    ∧ QArith_base.Qlt (QArith_base.Qmake 0 1) x
    ∧ QArith_base.Qlt (QArith_base.Qmake 0 1) y
    ∧ QArith_base.Qlt (QArith_base.Qplus x y) (QArith_base.Qmake 3 1).

(** The position lies strictly outside the triangle, beyond its longest
    side: [3 < x + y]. *)
Definition beyondTheLongestSide (position : Position) : Prop :=
  ∃ x y : QArith_base.Q,
    rational (entry position 0) = Some x ∧ rational (entry position 1) = Some y
    ∧ QArith_base.Qlt (QArith_base.Qmake 3 1) (QArith_base.Qplus x y).

(** An edge parallel to an axis: its ends have the same abscissa or the
    same ordinate. *)
Definition axisParallel (e : Position * Position) : Prop :=
  entry (fst e) 0 = entry (snd e) 0 ∨ entry (fst e) 1 = entry (snd e) 1.

(** The coordinates of the point and of the vertex stand for numbers, and
    the difference of their ordinates does not overflow. *)
Definition withinRange (point : float * float) (v : Position) : Prop :=
  is_Some (rational (fst point)) ∧ is_Some (rational (snd point))
  ∧ is_Some (rational (entry v 0)) ∧ is_Some (rational (entry v 1))
  ∧ is_Some (rational (snd point - entry v 1)%float).

(** C1 in the words of the claim: the test returns true exactly when the
    point falls inside the ring, by the even-odd rule on the numbers
    themselves. *)
Definition containmentIsExactAsStated : Prop :=
  ∀ (pointCoords : Position) (ring : Ring),
    let point := (entry pointCoords 0, entry pointCoords 1) in
    isPointInRing point (ringOf ring) = Returns (insideRingExactly point ring).

(** ** Resolver and click handler *)

(** The current answer of the where-query for a field holds no feature:
    the query failed or its result is empty. *)
Definition yieldsNoFeatures (answer : Reply) : Prop :=
  match answer with
  | Resolved collection => features collection = []
  | Rejected _ => True
  end.

(** The where-query the resolver sends for [field]. *)
Definition whereQueryFor (normalizedCode field : string) : Query :=
  runHuc10WhereQuery field normalizedCode.

(** The where-query for [field] holds no feature. *)
Definition fieldFailed (svc : Service) (normalizedCode field : string) : Prop :=
  yieldsNoFeatures (answerQuery svc (whereQueryFor normalizedCode field)).

(** How the call ends once it has reached the intersection query. *)
Definition intersectsOutcome (svc : Service) (normalizedCode : string)
    (huc6Geometry : Geometry) (s : MapState) (sent : list Query)
    : option (MapState * Reply * list Query) :=
  match answerIntersects svc huc6Geometry with
  | Resolved collection =>
      Some (if negb (String.eqb normalizedCode "")
            then setCache s (<[normalizedCode := collection]> (huc10QueryCache s))
            else s,
            Resolved collection, sent)
  | Rejected error => Some (s, Rejected error, sent)
  end.

(** The normalised code a suspended call of [queryHuc10ByHuc6] carries. *)
Definition awaitingCode (k : Awaiting) : string :=
  match k with
  | AwaitWhere normalizedCode _ _ _ => normalizedCode
  | AwaitIntersects normalizedCode _ => normalizedCode
  end.

(** In every state the handlers in flight carry request ids that the counter
    has reached, and the normalised form of their own code. *)
Definition wellFormed (s : MapState) : Prop :=
  ∀ h, In h (suspended s) →
       (requestId h <= huc10QueryRequestId s)%Z
       ∧ awaitingCode (awaiting h) = normalizeHucCode (JsString (handlerCode h)).

(** No call for the normalised code [n] is in flight. *)
Definition noCallInFlightFor (n : string) (s : MapState) : Prop :=
  ∀ h, In h (suspended s) → awaitingCode (awaiting h) ≠ n.

(** A HUC6 region and two answers of the service that differ. *)
Definition regionClicked : Feature :=
  {| properties := [("HUC6", JsString "170501")]; geometry := Some (Polygon []) |}.

Definition firstAnswer : FeatureCollection :=
  {| features := [ {| properties := [("HUC10", JsString "1705010101")];
                      geometry := Some (Polygon [ringOf square]) |} ] |}.

Definition secondAnswer : FeatureCollection :=
  {| features := [ {| properties := [("HUC10", JsString "1705010102")];
                      geometry := Some (Polygon [ringOf square]) |} ] |}.

(** Two clicks on the region before the service answers, then both answers. *)
Definition overlappingCalls : list Event :=
  [ Huc6Click (Some regionClicked); Huc6Click (Some regionClicked);
    ServiceReply 1 (Resolved firstAnswer); ServiceReply 2 (Resolved secondAnswer) ].

(** A feature of the region clicked, and one of a neighbouring region. *)
Definition nestedFeature : Feature :=
  {| properties := [("HUC10", JsString "1705010101")];
     geometry := Some (Polygon [ringOf square]) |}.

Definition neighbourFeature : Feature :=
  {| properties := [("HUC10", JsString "1706020304")];
     geometry := Some (Polygon [ringOf square]) |}.

(** A feature of the region clicked that comes without geometry, and one
    whose geometry is an object without a type. *)
Definition bareFeature : Feature :=
  {| properties := [("HUC10", JsString "1705010103")]; geometry := None |}.

Definition untypedFeature : Feature :=
  {| properties := [("HUC10", JsString "1705010104")];
     geometry := Some (OtherObject "" (Some [ringOf square])) |}.

(** What Leaflet does with the features of the concrete runs.  Each of
    them carries a GeoJSON polygon with valid positions, no geometry, or an
    object without a type: Leaflet draws the first, skips the second, and
    stops at the third with the error 'Invalid GeoJSON object.', the
    features before it being drawn already.  The runs hand it no other
    feature. *)
Fixpoint addFeatures (features drawnSoFar : list Feature) : Drawing :=
  match features with
  | [] => {| drawn := drawnSoFar; raised := None |}
  | feature :: rest =>
      match geometry feature with
      | None => addFeatures rest drawnSoFar
      | Some (OtherObject _ _) =>
          {| drawn := drawnSoFar; raised := Some "Invalid GeoJSON object." |}
      | Some _ => addFeatures rest (drawnSoFar ++ [feature])
      end
  end.

Definition leafletOfTheRuns : Leaflet :=
  {| addData := fun features => addFeatures features [] |}.

(** A service whose first where-query fails, whose second comes back empty
    and whose third holds a feature. *)
Definition flakyService : Service :=
  {| answerWhere := fun clause =>
       if String.eqb clause "HUC10 LIKE '170501%'" then Rejected "timeout"
       else if String.eqb clause "HUC_10 LIKE '170501%'"
            then Resolved {| features := [] |}
       else if String.eqb clause "HUC LIKE '170501%'" then Resolved firstAnswer
       else Rejected "unknown field";
     answerIntersects := fun _ => Resolved secondAnswer |}.


(** C5 in the words of the claim: when a query result arrives, a feature
    of the result is on the HUC10 layer exactly when its normalised HUC10
    code starts with the normalised HUC6 code (or that code is empty); under
    some behaviour of the Leaflet layer, at least. *)
Definition nestedFeaturesShownAsStated : Prop :=
  ∃ layer : Leaflet,
  ∀ (s : MapState) (rid : Z) (huc6Code : string) (fc : FeatureCollection)
    (feature : Feature),
    let huc6 := normalizeHucCode (JsString huc6Code) in
    let huc10 :=
      normalizeHucCode (JsString (code (extractWatershedMetadata (properties feature) 10))) in
    In feature (huc10Layer (onQueryResolved s rid huc6Code fc))
    ↔ In feature (features fc) ∧ (huc6 = "" ∨ ∃ rest, huc10 = huc6 +:+ rest).

(** C3 in the words of the claim: once a call has returned a collection for
    a code with non-empty normalisation, a later click whose code has the
    same normalisation is answered with that collection and sends no
    query (under some behaviour of the Leaflet layer, at least). *)
Definition cacheClaimAsStated : Prop :=
  ∃ layer : Leaflet,
  ∀ (route : string) (evs : list Event) (rid : Z) (huc6Code : string)
    (X : FeatureCollection) (feature : Feature) (huc6Geometry : Geometry),
    let s := fst (run (initialState route) evs) in
    let laterCode := code (extractWatershedMetadata (properties feature) 6) in
    In (Returned rid huc6Code X) (snd (run (initialState route) evs)) →
    normalizeHucCode (JsString huc6Code) ≠ "" →
    geometry feature = Some huc6Geometry →
    normalizeHucCode (JsString laterCode) = normalizeHucCode (JsString huc6Code) →
    snd (handle s (Huc6Click (Some feature)))
    = [Returned (huc10QueryRequestId s + 1) laterCode X].

(** ** Selection store *)

(** Neither selection list holds a duplicate or an empty identifier, and no
    key of the domain-gauge map is empty. *)
Definition selectionInvariant (st : Store) : Prop :=
  NoDup (selectedGaugeIds st)
  ∧ (∀ id, id ∈ selectedGaugeIds st → id ≠ "")
  ∧ NoDup (selectedDomainCodes st)
  ∧ (∀ c, c ∈ selectedDomainCodes st → c ≠ "")
  ∧ (∀ k, is_Some (selectedDomainGaugeMap st !! k) → k ≠ "").

(** The gauge identifiers [toggleDomainSelection] derives from a domain-gauge
    map (line 192). *)
Definition derivedGaugeIds (obj : gmap string (list string)) : list string :=
  spreadSet (List.filter Boolean (concat (objectValues obj))).

(** The selection lists are the ones the domain-gauge map gives rise to. *)
Definition derivedFromMap (st : Store) : Prop :=
  sameSet (selectedDomainCodes st) (objectKeys (selectedDomainGaugeMap st))
  ∧ sameSet (selectedGaugeIds st) (derivedGaugeIds (selectedDomainGaugeMap st)).




End Vocabulary.

(** * Further vocabulary: gauges of a layer, the interface, the session *)

Section FurtherVocabulary.
Import Containment Watershed Streams Session StreamMap Drawer Interface.

(** A string of decimal digits. *)
Fixpoint allDigits (s : string) : bool :=
  match s with
  | EmptyString => true
  | String c s' => isDigit c && allDigits s'
  end.

(** The code candidates of [extractWatershedMetadata] for a level. *)
Definition codeCandidates (level : nat) : list string :=
  [ "HUC" +:+ pretty level; "HUC_" +:+ pretty level; "HU_" +:+ pretty level;
    "HUC_CODE"; "huc"; "huc_code"; "code" ].

(** The gauge has a position of at least two numbers and the non-empty
    identifier [gaugeId]: it passes the guard of line 258. *)
Definition locatedGauge (feature : GaugeFeature) (coords : Position)
    (gaugeId : string) : Prop :=
  gaugeCoordinates feature = Some coords
  ∧ (2 <= length coords)%nat
  ∧ STREAM_ID feature = JsString gaugeId
  ∧ gaugeId ≠ "".

(** The position is inside the bounds of the layer. *)
Definition withinBounds (layer : Huc10LayerView) (coords : Position) : Prop :=
  ∃ contains, boundsContain layer = Some contains
              ∧ contains (entry coords 1) (entry coords 0) = true.


(** The gauges the store holds. *)
Definition loadedGauges (st : StreamsStore) : list GaugeFeature :=
  match gaugesGeoJson st with
  | Some {| gaugeFeatures := Some features |} => features
  | _ => []
  end.

(** [pointInGeometry] raises at the position of a loaded gauge that passes
    the guard of line 258. *)
Definition raisesAtAGauge (st : StreamsStore) (layer : Huc10LayerView) : Prop :=
  ∃ feature coords id,
    In feature (loadedGauges st) ∧ locatedGauge feature coords id
    ∧ pointInGeometry coords (layerGeometry layer) = ThrowsTypeError.


(** The normalised HUC10 code of a layer's feature, as
    [syncHuc10SelectionStyles] computes it. *)
Definition normalizedCodeOf (layer : Huc10LayerView) : string :=
  normalizeHucCode
    (JsString (code (extractWatershedMetadata (layerProperties layer) 10))).

(** Gauge selection and domain selection are kept apart: outside domain
    mode no domain is selected, and in domain mode the selected gauges and
    codes are the ones the domain-gauge map gives rise to. *)
Definition modesKeptApart (sel : Store) : Prop :=
  (selectionBy sel ≠ "domain" →
   selectedDomainCodes sel = [] ∧ selectedDomainGaugeMap sel = ∅)
  ∧ (selectionBy sel = "domain" → derivedFromMap sel).

(** With selection type Single at most one gauge (outside domain mode) or
    one domain (in domain mode) is selected. *)
Definition singleHoldsAtMostOne (sel : Store) : Prop :=
  selectionType sel = "Single" →
  (selectionBy sel ≠ "domain" → (length (selectedGaugeIds sel) <= 1)%nat)
  ∧ (selectionBy sel = "domain" → (length (selectedDomainCodes sel) <= 1)%nat).

(** The detected field is empty or a candidate; the calls in flight carry
    a code made of digits, and those waiting for a where-query a non-empty
    code and candidate fields only; the keys of the cache are non-empty
    strings of digits. *)
Definition resolverInvariant (s : MapState) : Prop :=
  (huc10DetectedField s = "" ∨ In (huc10DetectedField s) fieldCandidates)
  ∧ (∀ h, In h (suspended s) →
          allDigits (awaitingCode (awaiting h)) = true
          ∧ match awaiting h with
            | AwaitWhere normalizedCode _ field rest =>
                normalizedCode ≠ "" ∧ ∀ f, In f (field :: rest) → In f fieldCandidates
            | AwaitIntersects _ _ => True
            end)
  ∧ (∀ k, is_Some (huc10QueryCache s !! k) → k ≠ "" ∧ allDigits k = true).

(** The queries a call can send for a code, in order: the where-queries of
    the fields, then the intersection query. *)
Definition queriesInOrder (normalizedCode : string) (huc6Geometry : Geometry)
    (fields : list string) : list Query :=
  List.map (whereQueryFor normalizedCode) fields ++ [IntersectsQuery huc6Geometry].

(** The handler a reply with request id [rid] is for. *)
Definition handlerFor (s : MapState) (rid : Z) : option Handler :=
  List.find (fun h => (requestId h =? rid)%Z) (suspended s).

(** ** Data of the concrete runs *)

(** Leaflet's test of a position against the bounds with the given south,
    west, north and east sides. *)
Definition boxContains (south west north east : float) : float → float → bool :=
  fun lat lng =>
    ((south <=? lat) && (lat <=? north) && (west <=? lng) && (lng <=? east))%float.

(** Gauges inside the square, in its hole, far away, and without a
    STREAM_ID. *)
Definition gaugeInside : GaugeFeature :=
  {| gaugeCoordinates := Some [3; 3]%float; STREAM_ID := JsString "S1" |}.

Definition gaugeInHole : GaugeFeature :=
  {| gaugeCoordinates := Some [1.5; 1.5]%float; STREAM_ID := JsString "S2" |}.

Definition gaugeFarAway : GaugeFeature :=
  {| gaugeCoordinates := Some [9; 9]%float; STREAM_ID := JsString "S3" |}.

Definition gaugeWithoutId : GaugeFeature :=
  {| gaugeCoordinates := Some [3; 3]%float; STREAM_ID := JsUndefined |}.

Definition sampleGauges : GaugeCollection :=
  {| gaugeFeatures :=
       Some [gaugeInside; gaugeInHole; gaugeFarAway; gaugeWithoutId; gaugeInside] |}.

(** A HUC10 layer over the square with the hole, and one whose geometry
    comes as ArcGIS JSON (rings, no type). *)
Definition sampleLayer : Huc10LayerView :=
  {| layerFeature :=
       Some {| properties := [("HUC10", JsString "1705010101")];
               geometry := Some (Polygon [ringOf square; ringOf squareHole]) |};
     boundsContain := Some (boxContains 0 0 4 4) |}.

Definition arcgisLayer : Huc10LayerView :=
  {| layerFeature :=
       Some {| properties := [("HUC10", JsString "1705010102")];
               geometry := Some (OtherObject "" (Some [ringOf square])) |};
     boundsContain := Some (boxContains 0 0 4 4) |}.

(** A HUC10 layer whose polygon has [null] in the place of its ring. *)
Definition brokenLayer : Huc10LayerView :=
  {| layerFeature :=
       Some {| properties := [("HUC10", JsString "1705010103")];
               geometry := Some (Polygon [NullRing]) |};
     boundsContain := Some (boxContains 0 0 4 4) |}.

(** A store signed in until time 1000, with the gauges loaded, in domain
    mode. *)
Definition signedIn : StreamsStore :=
  {| sessionToken := "token"; sessionExpiresAt := ExpiresAt 1000;
     options := {| water_quality_variables := Some ["pH"]; other_datasets := Some [] |};
     gaugesGeoJson := Some sampleGauges;
     selection := setSelectionBy "domain" initialStore;
     zoomToSelectionRequestId := 0;
     loading := {| loadingLogin := false; loadingOptions := false;
                   loadingGauges := false; loadingDownload := false |} |}.

(** The form of the drawer filled in for a download. *)
Definition filledDrawer : DrawerState :=
  {| username := "user"; password := "secret";
     selectedWaterQuality := ["pH"]; selectedDatasets := [];
     startDate := "2011-01-01"; endDate := "2011-12-31" |}.

End FurtherVocabulary.

(** * Properties *)

(** ** Containment test *)

Section ContainmentFacts.
Import Containment.

Lemma combine_predecessors (prev : Position) (l : list Position) :
  combine l (prev :: List.removelast l) = edgesFrom prev l.
Proof.
  revert prev. induction l as [|v l IH]; intros prev; [reflexivity|].
  cbn [combine edgesFrom]. f_equal.
  destruct l as [|w l]; [reflexivity|].
  rewrite <- IH. reflexivity.
Qed.

Lemma edges_edgesFrom (ring : Ring) :
  edges ring = edgesFrom (List.last ring []) ring.
Proof.
  unfold edges, predecessors. destruct ring as [|v l]; [reflexivity|].
  apply combine_predecessors.
Qed.

Lemma nth_pred_length_last (l : list Position) :
  nth (length l - 1) l [] = List.last l [].
Proof.
  induction l as [|v l IH]; [reflexivity|].
  destruct l as [|w l]; [reflexivity|].
  change (List.last (v :: w :: l) []) with (List.last (w :: l) []).
  rewrite <- IH. cbn [length].
  replace (S (S (length l)) - 1) with (S (length l)) by lia.
  replace (S (length l) - 1) with (length l) by lia.
  reflexivity.
Qed.

(** The test of line 303 is the crossing test of the rule. *)
Lemma intersects_rayCrosses (px py : float) (vi vj : Position) :
  intersects px py (entry vi 0) (entry vi 1) (entry vj 0) (entry vj 1)
  = rayCrosses (px, py) (vi, vj).
Proof.
  unfold intersects, rayCrosses, above, crossingAbscissa, edgeDenominator, truthyNumber.
  cbn [fst snd].
  destruct (py <? entry vi 1)%float, (py <? entry vj 1)%float;
    cbn [xorb Bool.eqb negb andb]; try reflexivity;
    destruct (entry vj 1 - entry vi 1 =? 0)%float,
             (entry vj 1 - entry vi 1 =? entry vj 1 - entry vi 1)%float;
    reflexivity.
Qed.

Lemma nth_positions (l : list Position) (i : nat) :
  i < length l → nth i (List.map VertexArray l) NotIterable = VertexArray (nth i l []).
Proof.
  intros Hi. rewrite (nth_indep _ NotIterable (VertexArray [])) by (rewrite length_map; exact Hi).
  apply (map_nth VertexArray).
Qed.

Lemma crossesEdge_positions (px py : float) (ring : Ring) (i j : nat) :
  i < length ring → j < length ring →
  crossesEdge px py (List.map VertexArray ring) i j
  = Returns (rayCrosses (px, py) (nth i ring [], nth j ring [])).
Proof.
  intros Hi Hj. unfold crossesEdge. rewrite !nth_positions by assumption.
  rewrite intersects_rayCrosses. reflexivity.
Qed.

(** The loop flips [inside] once per crossed edge. *)
Lemma ringLoop_parity (px py : float) (l2 : list Position) :
  ∀ (l1 : list Position) (j : nat) (inside : bool),
    j < length (l1 ++ l2) →
    ringLoop px py (List.map VertexArray (l1 ++ l2)) (length l2) (length l1) j inside
    = Returns
        (xorb inside
           (Nat.odd (length (List.filter (rayCrosses (px, py))
                               (edgesFrom (nth j (l1 ++ l2) []) l2))))).
Proof.
  induction l2 as [|v l2 IH]; intros l1 j inside Hj.
  - cbn. destruct inside; reflexivity.
  - cbn [length ringLoop edgesFrom List.filter].
    assert (Hi : nth (length l1) (l1 ++ v :: l2) [] = v) by apply nth_middle.
    rewrite crossesEdge_positions; [|rewrite length_app; cbn; lia|exact Hj].
    rewrite Hi.
    replace (l1 ++ v :: l2) with ((l1 ++ [v]) ++ l2) by (rewrite <- app_assoc; reflexivity).
    replace (S (length l1)) with (length (l1 ++ [v])) by (rewrite length_app; cbn; lia).
    rewrite IH by (rewrite !length_app; cbn; lia).
    replace (nth (length l1) ((l1 ++ [v]) ++ l2) []) with v
      by (rewrite <- app_assoc; cbn; symmetry; apply nth_middle).
    destruct (rayCrosses (px, py) (v, nth j ((l1 ++ [v]) ++ l2) [])).
    + cbn [length]. rewrite Nat.odd_succ, <- Nat.negb_odd.
      destruct inside, (Nat.odd _); reflexivity.
    + reflexivity.
Qed.

Lemma isPointInRing_insideRing (point : float * float) (ring : Ring) :
  isPointInRing point (ringOf ring) = Returns (insideRing point ring).
Proof.
  destruct point as [px py]. unfold isPointInRing, ringOf, insideRing, crossings.
  rewrite length_map.
  destruct ring as [|v ring]; [reflexivity|].
  rewrite edges_edgesFrom, <- nth_pred_length_last.
  apply (ringLoop_parity px py (v :: ring) [] (length (v :: ring) - 1) false).
  cbn. lia.
Qed.

Lemma nth_rings (l : list Ring) (i : nat) :
  i < length l → nth i (List.map ringOf l) NullRing = ringOf (nth i l []).
Proof.
  intros Hi. rewrite (nth_indep _ NullRing (ringOf [])) by (rewrite length_map; exact Hi).
  apply (map_nth ringOf).
Qed.

Lemma holeLoop_forallb (point : float * float) (suffix : list Ring) :
  ∀ prefix : list Ring,
    holeLoop point (List.map ringOf (prefix ++ suffix)) (length suffix) (length prefix)
    = Returns (forallb (fun h => negb (insideRing point h)) suffix).
Proof.
  induction suffix as [|h suffix IH]; intros prefix; [reflexivity|].
  cbn [length holeLoop forallb].
  rewrite nth_rings by (rewrite length_app; cbn; lia).
  rewrite nth_middle, isPointInRing_insideRing.
  destruct (insideRing point h); [reflexivity|]. cbn [negb andb].
  replace (prefix ++ h :: suffix) with ((prefix ++ [h]) ++ suffix)
    by (rewrite <- app_assoc; reflexivity).
  replace (S (length prefix)) with (length (prefix ++ [h]))
    by (rewrite length_app; cbn; lia).
  apply IH.
Qed.

Lemma pointInPolygonRings_insidePolygon (point : float * float) (rings : list Ring) :
  pointInPolygonRings point (Some (List.map ringOf rings))
  = Returns (insidePolygon point rings).
Proof.
  unfold pointInPolygonRings, insidePolygon.
  destruct rings as [|outer holes]; [reflexivity|].
  cbn [List.map length Nat.eqb nth]. rewrite isPointInRing_insideRing.
  destruct (insideRing point outer); [|reflexivity]. cbn [andb].
  replace (S (length (List.map ringOf holes)) - 1) with (length holes)
    by (rewrite length_map; lia).
  change (ringOf outer :: List.map ringOf holes)
    with (List.map ringOf ([outer] ++ holes)).
  apply (holeLoop_forallb point holes [outer]).
Qed.

Lemma multiPolygon_some (point : float * float)
    (polygons : list (option (list Ring))) :
  somePolygon point (polygonsOf polygons)
  = Returns (insideMultiPolygon point polygons).
Proof.
  unfold insideMultiPolygon, polygonsOf.
  induction polygons as [|poly polygons IH]; [reflexivity|].
  cbn [List.map somePolygon existsb].
  destruct poly as [rings|]; cbn [option_map].
  - rewrite pointInPolygonRings_insidePolygon.
    destruct (insidePolygon point rings); [reflexivity|exact IH].
  - cbn [pointInPolygonRings orb]. exact IH.
Qed.

Lemma digits2_pos_bounds (m : positive) :
  (2 ^ (Z.pos (digits2_pos m) - 1) <= Z.pos m < 2 ^ Z.pos (digits2_pos m))%Z.
Proof.
  induction m as [m IH|m IH|]; cbn [digits2_pos].
  - rewrite Pos2Z.inj_succ.
    replace (Z.succ (Z.pos (digits2_pos m)) - 1)%Z with (Z.succ (Z.pos (digits2_pos m) - 1))%Z by lia.
    rewrite !Z.pow_succ_r by lia. lia.
  - rewrite Pos2Z.inj_succ.
    replace (Z.succ (Z.pos (digits2_pos m)) - 1)%Z with (Z.succ (Z.pos (digits2_pos m) - 1))%Z by lia.
    rewrite !Z.pow_succ_r by lia. lia.
  - cbn. lia.
Qed.

(** A finite binary64 value in canonical form: the exponent is at least
    [-1074], the mantissa has at most 53 bits, and exactly 53 above the
    lowest exponent. *)
Lemma bounded_canonical (m : positive) (e : Z) :
  bounded prec emax m e = true →
  (-1074 <= e)%Z ∧ (Z.pos m < 2 ^ 53)%Z ∧ ((-1074 < e)%Z → (2 ^ 52 <= Z.pos m)%Z).
Proof.
  unfold bounded, canonical_mantissa, fexp, emin, prec, emax.
  intros H. apply andb_true_iff in H as [H _].
  apply Z.eqb_eq in H.
  pose proof (digits2_pos_bounds m) as [Hlo Hhi].
  set (d := Z.pos (digits2_pos m)) in *.
  assert (Hd : (0 < d)%Z) by (subst d; lia).
  split; [lia|]. split.
  - assert (d <= 53)%Z by lia.
    apply Z.lt_le_trans with (2 ^ d)%Z; [exact Hhi|].
    apply Z.pow_le_mono_r; lia.
  - intros He. assert (d = 53)%Z by lia.
    replace 52%Z with (d - 1)%Z by lia. exact Hlo.
Qed.

Lemma scaled_order (m1 m2 : positive) (e1 e2 : Z) :
  bounded prec emax m1 e1 = true →
  bounded prec emax m2 e2 = true →
  match (e1 ?= e2)%Z with
  | Lt => Lt
  | Gt => Gt
  | Eq => Pos.compare_cont Eq m1 m2
  end
  = (Z.pos m1 * 2 ^ (e1 + 1074) ?= Z.pos m2 * 2 ^ (e2 + 1074))%Z.
Proof.
  intros H1 H2.
  apply bounded_canonical in H1 as (He1 & Hm1 & Hn1).
  apply bounded_canonical in H2 as (He2 & Hm2 & Hn2).
  assert (Hstep : ∀ (ma mb : positive) (ea eb : Z),
            (-1074 <= ea)%Z → (ea < eb)%Z → (Z.pos ma < 2 ^ 53)%Z → (2 ^ 52 <= Z.pos mb)%Z →
            (Z.pos ma * 2 ^ (ea + 1074) < Z.pos mb * 2 ^ (eb + 1074))%Z).
  { intros ma mb ea eb Hea Hlt Hma Hmb.
    assert (Hp : (0 < 2 ^ (ea + 1074))%Z) by (apply Z.pow_pos_nonneg; lia).
    assert (Hq : (2 * 2 ^ (ea + 1074) <= 2 ^ (eb + 1074))%Z).
    { rewrite <- Z.pow_succ_r by lia. apply Z.pow_le_mono_r; lia. }
    change (2 ^ 53)%Z with (2 * 2 ^ 52)%Z in Hma.
    nia. }
  destruct (Z.compare_spec e1 e2) as [->|Hlt|Hgt].
  - assert (Hp : (0 < 2 ^ (e2 + 1074))%Z) by (apply Z.pow_pos_nonneg; lia).
    change (Pos.compare_cont Eq m1 m2) with (Z.pos m1 ?= Z.pos m2)%Z.
    symmetry.
    destruct (Z.compare_spec (Z.pos m1) (Z.pos m2)) as [E|L|G].
    + rewrite E. apply Z.compare_refl.
    + apply Z.compare_lt_iff. nia.
    + apply Z.compare_gt_iff. nia.
  - symmetry. apply Z.compare_lt_iff. apply Hstep; first [lia | apply Hn2; lia].
  - symmetry. apply Z.compare_gt_iff. apply Hstep; first [lia | apply Hn1; lia].
Qed.

Lemma ltb_scaled (a b : float) (za zb : Z) :
  scaled a = Some za → scaled b = Some zb →
  ((a <? b)%float = true ↔ (za < zb)%Z).
Proof.
  unfold scaled. rewrite ltb_spec.
  pose proof (Prim2SF_valid a) as Va. pose proof (Prim2SF_valid b) as Vb.
  destruct (Prim2SF a) as [sa|sa| |sa ma ea], (Prim2SF b) as [sb|sb| |sb mb eb];
    try discriminate; intros [= <-] [= <-]; unfold SFltb, SFcompare.
  - split; [discriminate|lia].
  - cbn [valid_binary] in Vb. apply bounded_canonical in Vb as (He & _ & _).
    assert (0 < 2 ^ (eb + 1074))%Z by (apply Z.pow_pos_nonneg; lia).
    destruct sb; split; try discriminate; try reflexivity; nia.
  - cbn [valid_binary] in Va. apply bounded_canonical in Va as (He & _ & _).
    assert (0 < 2 ^ (ea + 1074))%Z by (apply Z.pow_pos_nonneg; lia).
    destruct sa; split; try discriminate; try reflexivity; nia.
  - cbn [valid_binary] in Va, Vb.
    pose proof (scaled_order ma mb ea eb Va Vb) as Hab.
    pose proof (scaled_order mb ma eb ea Vb Va) as Hba.
    apply bounded_canonical in Va as (Hea & _ & _).
    apply bounded_canonical in Vb as (Heb & _ & _).
    assert (0 < 2 ^ (ea + 1074))%Z by (apply Z.pow_pos_nonneg; lia).
    assert (0 < 2 ^ (eb + 1074))%Z by (apply Z.pow_pos_nonneg; lia).
    destruct sa, sb.
    + replace (match (ea ?= eb)%Z with
               | Lt => Gt
               | Gt => Lt
               | Eq => CompOpp (Pos.compare_cont Eq ma mb)
               end)
        with (CompOpp (Z.pos ma * 2 ^ (ea + 1074) ?= Z.pos mb * 2 ^ (eb + 1074))%Z)
        by (rewrite <- Hab; destruct (ea ?= eb)%Z; reflexivity).
      change (Z.neg ma) with (- Z.pos ma)%Z. change (Z.neg mb) with (- Z.pos mb)%Z.
      destruct (Z.compare_spec (Z.pos ma * 2 ^ (ea + 1074)) (Z.pos mb * 2 ^ (eb + 1074)));
        cbn [CompOpp]; split; try discriminate; try reflexivity; lia.
    + split; [intros _; nia|reflexivity].
    + split; [discriminate|nia].
    + rewrite Hab.
      destruct (Z.compare_spec (Z.pos ma * 2 ^ (ea + 1074)) (Z.pos mb * 2 ^ (eb + 1074)));
        split; try discriminate; try reflexivity; lia.
Qed.

Lemma above_exact (py y : float) (qp qy : QArith_base.Q) :
  rational py = Some qp → rational y = Some qy →
  (above py y = true ↔ QArith_base.Qlt qp qy).
Proof.
  unfold rational, above.
  destruct (scaled py) as [zp|] eqn:Hp; [|discriminate].
  destruct (scaled y) as [zy|] eqn:Hy; [|discriminate].
  intros [= <-] [= <-]. rewrite (ltb_scaled py y zp zy Hp Hy).
  unfold QArith_base.Qlt. cbn [QArith_base.Qnum QArith_base.Qden].
  generalize (2 ^ 1074)%positive. intros d. split; intros H; nia.
Qed.

(** An edge both of whose ends lie on the same side of the ray is not
    crossed. *)
Lemma rayCrosses_straddles (point : float * float) (e : Position * Position) :
  rayCrosses point e = true →
  above (snd point) (entry (fst e) 1) ≠ above (snd point) (entry (snd e) 1).
Proof.
  destruct point as [px py]. unfold rayCrosses. cbn [fst snd].
  destruct (above py (entry (fst e) 1)), (above py (entry (snd e) 1));
    cbn; congruence.
Qed.

Lemma edgesFrom_ends (prev : Position) (l : list Position) (e : Position * Position) :
  In e (edgesFrom prev l) → In (fst e) l ∧ (snd e = prev ∨ In (snd e) l).
Proof.
  revert prev. induction l as [|v l IH]; intros prev; [intros []|].
  cbn [edgesFrom]. intros [<-|Hin].
  - cbn. auto.
  - destruct (IH v Hin) as [H1 [H2|H2]]; cbn; auto.
Qed.

Lemma edges_ends (ring : Ring) (e : Position * Position) :
  In e (edges ring) → In (fst e) ring ∧ In (snd e) ring.
Proof.
  rewrite edges_edgesFrom. intros Hin.
  destruct (edgesFrom_ends _ _ _ Hin) as [H1 [H2|H2]]; (split; [exact H1|]); [|exact H2].
  rewrite H2. destruct ring as [|v ring]; [destruct H1|].
  destruct (@exists_last _ (v :: ring)) as (l' & a & E); [discriminate|].
  rewrite E, List.last_last. apply in_or_app. right. left. reflexivity.
Qed.

(** A ring that lies wholly on one side of the ray is not entered. *)
Lemma insideRing_one_side (point : float * float) (ring : Ring) (side : bool) :
  (∀ v, In v ring → above (snd point) (entry v 1) = side) →
  insideRing point ring = false.
Proof.
  intros Hside. unfold insideRing, crossings.
  assert (Hnone : ∀ l : list (Position * Position),
            (∀ e, In e l → rayCrosses point e = false) →
            List.filter (rayCrosses point) l = []).
  { induction l as [|e l IH]; intros Hl; [reflexivity|].
    cbn [List.filter]. rewrite (Hl e) by (left; reflexivity).
    apply IH. intros e' He'. apply Hl. right. exact He'. }
  rewrite Hnone; [reflexivity|].
  intros e He. apply edges_ends in He as [H1 H2].
  destruct (rayCrosses point e) eqn:Hc; [|reflexivity].
  apply rayCrosses_straddles in Hc.
  rewrite (Hside _ H1), (Hside _ H2) in Hc. congruence.
Qed.

(** A binary64 value that stands for a number is a zero or a finite
    value. *)
Lemma scaled_finite (a : float) (z : Z) :
  scaled a = Some z →
  (∃ s, Prim2SF a = S754_zero s) ∨ (∃ s m e, Prim2SF a = S754_finite s m e).
Proof.
  unfold scaled. destruct (Prim2SF a) as [s|s| |s m e]; try discriminate; eauto.
Qed.

Lemma SFsub_diag (x : spec_float) :
  (∃ s, x = S754_zero s) ∨ (∃ s m e, x = S754_finite s m e) →
  SF64sub x x = S754_zero false.
Proof.
  intros [[s ->]|(s & m & e & ->)]; unfold SF64sub, SFsub.
  - destruct s; reflexivity.
  - rewrite Z.sub_diag. reflexivity.
Qed.

Lemma divisor_not_zero (h : float) :
  let divisor :=
    if (h =? 0)%float || negb (h =? h)%float then 0x1.19799812dea11p-40%float else h in
  (∃ s, Prim2SF divisor = S754_infinity s) ∨ (∃ s m e, Prim2SF divisor = S754_finite s m e).
Proof.
  cbn zeta.
  destruct (h =? 0)%float eqn:Hz; cbn [orb].
  { right. vm_compute. eauto. }
  destruct (h =? h)%float eqn:Hn; cbn [negb].
  2:{ right. vm_compute. eauto. }
  rewrite FloatAxioms.eqb_spec in Hz, Hn.
  change (Prim2SF 0) with (S754_zero false) in Hz.
  destruct (Prim2SF h) as [s|s| |s m e]; eauto; cbn in Hz, Hn; discriminate.
Qed.

(** On a vertical edge the crossing abscissa is the abscissa of the edge,
    without any rounding, as long as [py - yi] does not overflow. *)
Lemma vertical_abscissa (py x yi yj : float) (zx zd : Z) :
  scaled x = Some zx →
  scaled (py - yi)%float = Some zd →
  scaled (crossingAbscissa py x yi x yj) = Some zx.
Proof.
  intros Hx Hd. unfold crossingAbscissa. cbn zeta.
  pose proof (divisor_not_zero (yj - yi)%float) as Hdiv. cbn zeta in Hdiv.
  set (divisor := if ((yj - yi =? 0) || negb (yj - yi =? yj - yi))%float
                  then 0x1.19799812dea11p-40%float else (yj - yi)%float) in *.
  unfold scaled in *.
  rewrite FloatAxioms.add_spec, FloatAxioms.div_spec, FloatAxioms.mul_spec, FloatAxioms.sub_spec.
  rewrite SFsub_diag by (apply (scaled_finite x zx); unfold scaled; exact Hx).
  destruct (Prim2SF (py - yi)%float) as [sd|sd| |sd md ed]; try discriminate.
  - destruct Hdiv as [[s ->]|(s & m & e & ->)];
      cbn [SF64mul SFmul SF64div SFdiv xorb];
      destruct (Prim2SF x) as [sx|sx| |sx mx ex]; try discriminate;
      cbn [SF64add SFadd]; try exact Hx;
      destruct sd, s, sx; cbn; exact Hx.
  - destruct Hdiv as [[s ->]|(s & m & e & ->)];
      cbn [SF64mul SFmul SF64div SFdiv xorb];
      destruct (Prim2SF x) as [sx|sx| |sx mx ex]; try discriminate;
      cbn [SF64add SFadd]; try exact Hx;
      destruct sd, s, sx; cbn; exact Hx.
Qed.
Lemma ratLt_iff (a b : QArith_base.Q) : ratLt a b = true ↔ QArith_base.Qlt a b.
Proof.
  unfold ratLt. rewrite negb_true_iff. split.
  - intros Hle. apply QArith_base.Qnot_le_lt. intros Hba.
    apply QArith_base.Qle_bool_iff in Hba. congruence.
  - intros Hlt. destruct (QArith_base.Qle_bool b a) eqn:Hle; [|reflexivity].
    apply QArith_base.Qle_bool_iff in Hle.
    destruct (QArith_base.Qlt_not_le _ _ Hlt Hle).
Qed.

Lemma vertical_exact (a x t u : QArith_base.Q) :
  ratLt a
    (QArith_base.Qplus
       (QArith_base.Qdiv (QArith_base.Qmult (QArith_base.Qminus x x) t) u) x)
  = ratLt a x.
Proof.
  assert (He : QArith_base.Qeq
                 (QArith_base.Qplus
                    (QArith_base.Qdiv (QArith_base.Qmult (QArith_base.Qminus x x) t) u) x)
                 x).
  { unfold QArith_base.Qdiv, QArith_base.Qminus.
    rewrite QArith_base.Qplus_opp_r, !QArith_base.Qmult_0_l, QArith_base.Qplus_0_l.
    reflexivity. }
  apply eq_true_iff_eq. rewrite !ratLt_iff. rewrite He. reflexivity.
Qed.

Lemma above_ratLt (py y : float) (qp qy : QArith_base.Q) :
  rational py = Some qp → rational y = Some qy → above py y = ratLt qp qy.
Proof.
  intros Hp Hy. apply eq_true_iff_eq.
  rewrite (above_exact py y qp qy Hp Hy), ratLt_iff. reflexivity.
Qed.

Lemma ltb_ratLt (a b : float) (qa qb : QArith_base.Q) :
  rational a = Some qa → rational b = Some qb → (a <? b)%float = ratLt qa qb.
Proof. apply above_ratLt. Qed.

Lemma rational_scaled (a b : float) :
  scaled a = scaled b → rational a = rational b.
Proof. unfold rational. intros ->. reflexivity. Qed.

(** On an edge parallel to an axis, the crossing test of the code is the
    crossing test on the numbers themselves. *)
Lemma rayCrosses_exact (point : float * float) (e : Position * Position) :
  axisParallel e → withinRange point (fst e) → withinRange point (snd e) →
  rayCrosses point e = rayCrossesExactly point e.
Proof.
  destruct point as [px py], e as [vi vj]. unfold axisParallel, withinRange.
  cbn [fst snd].
  intros Hedge ([qpx Hpx] & [qpy Hpy] & [qxi Hxi] & [qyi Hyi] & [qd Hd])
         (_ & _ & [qxj Hxj] & [qyj Hyj] & _).
  unfold rayCrossesExactly, rayCrosses, crossesExactly. cbn [fst snd].
  rewrite Hpx, Hpy, Hxi, Hyi, Hxj, Hyj.
  rewrite (above_ratLt py (entry vi 1) qpy qyi Hpy Hyi).
  rewrite (above_ratLt py (entry vj 1) qpy qyj Hpy Hyj).
  destruct Hedge as [Hvertical|Hhorizontal].
  - f_equal. rewrite <- Hvertical in *.
    assert (qxj = qxi) by congruence. subst qxj.
    rewrite vertical_exact.
    unfold rational in Hxi, Hd.
    destruct (scaled (entry vi 0)) as [zx|] eqn:Hzx; [|discriminate].
    destruct (scaled (py - entry vi 1)%float) as [zd|] eqn:Hzd; [|discriminate].
    apply ltb_ratLt; [exact Hpx|].
    rewrite <- Hxi. unfold rational.
    rewrite (vertical_abscissa py (entry vi 0) (entry vi 1) (entry vj 1) zx zd Hzx Hzd).
    reflexivity.
  - rewrite <- Hhorizontal in *. assert (qyj = qyi) by congruence. subst qyj.
    rewrite !Bool.eqb_reflx. reflexivity.
Qed.

Lemma filter_ext_In {A : Type} (f g : A → bool) (l : list A) :
  (∀ x, In x l → f x = g x) → List.filter f l = List.filter g l.
Proof.
  induction l as [|x l IH]; intros Hfg; [reflexivity|].
  cbn [List.filter]. rewrite (Hfg x) by (left; reflexivity).
  rewrite IH; [reflexivity|]. intros y Hy. apply Hfg. right. exact Hy.
Qed.

(** On a ring whose edges are parallel to the axes the test is exact. *)
Lemma insideRing_exact (point : float * float) (ring : Ring) :
  (∀ e, In e (edges ring) → axisParallel e) →
  (∀ v, In v ring → withinRange point v) →
  insideRing point ring = insideRingExactly point ring.
Proof.
  intros Hedges Hrange. unfold insideRing, insideRingExactly, crossings.
  rewrite (filter_ext_In (rayCrosses point) (rayCrossesExactly point)); [reflexivity|].
  intros e He. destruct (edges_ends ring e He) as [H1 H2].
  apply rayCrosses_exact; auto.
Qed.

(** C1, amended.  On rings that are arrays of positions the containment
    test is ray casting with even-odd counting, carried out in binary64
    arithmetic.  A ring contains the point when the ray from the point
    towards [+x] crosses an odd number of its edges; an edge counts as
    crossed when just one of its ends lies strictly above the ray and the
    point is to the left of the abscissa at which the edge meets the line of
    the ray, that abscissa being computed in binary64.  A polygon contains
    the point when its first ring does and none of the later rings (the
    holes) does; a MultiPolygon when at least one of its polygons does; an
    object of another type is tested through its ArcGIS rings like a
    polygon, and an object without a type is never matched.  Which end lies
    above the ray is decided exactly, so a ring wholly above or wholly below
    the ray is never entered; and on a ring whose edges are parallel to the
    axes the whole test is exact: it yields what the even-odd rule yields on
    the numbers themselves. *)
Theorem containment_is_even_odd_ray_casting (pointCoords : Position) :
  let point := (entry pointCoords 0, entry pointCoords 1) in
  (∀ ring : Ring,
      isPointInRing point (ringOf ring) = Returns (Nat.odd (crossings point ring)))
  ∧ (∀ rings : list Ring,
        pointInPolygonRings point (Some (List.map ringOf rings))
        = Returns (insidePolygon point rings))
  ∧ (∀ rings : list Ring,
        pointInGeometry pointCoords (Some (Polygon (List.map ringOf rings)))
        = Returns (insidePolygon point rings))
  ∧ (∀ polygons : list (option (list Ring)),
        pointInGeometry pointCoords (Some (MultiPolygon (polygonsOf polygons)))
        = Returns (insideMultiPolygon point polygons))
  ∧ (∀ (type : string) (rings : list Ring),
        type ≠ "" → type ≠ "Polygon" → type ≠ "MultiPolygon" →
        pointInGeometry pointCoords (Some (OtherObject type (Some (List.map ringOf rings))))
        = Returns (insidePolygon point rings))
  ∧ (∀ rings : option (list RingValue),
        pointInGeometry pointCoords (Some (OtherObject "" rings)) = Returns false)
  ∧ (∀ (py y : float) (qp qy : QArith_base.Q),
        rational py = Some qp → rational y = Some qy →
        (above py y = true ↔ QArith_base.Qlt qp qy))
  ∧ (∀ (ring : Ring) (side : bool),
        (∀ v, In v ring → above (snd point) (entry v 1) = side) →
        isPointInRing point (ringOf ring) = Returns false)
  ∧ (∀ ring : Ring,
        (∀ e, In e (edges ring) → axisParallel e) →
        (∀ v, In v ring → withinRange point v) →
        isPointInRing point (ringOf ring) = Returns (insideRingExactly point ring)).
Proof.
  intros point. repeat apply conj.
  - intros ring. apply isPointInRing_insideRing.
  - intros rings. apply pointInPolygonRings_insidePolygon.
  - intros rings. cbn [pointInGeometry]. fold point.
    apply pointInPolygonRings_insidePolygon.
  - intros polygons. cbn [pointInGeometry]. fold point.
    apply multiPolygon_some.
  - intros type rings H1 H2 H3. cbn [pointInGeometry]. fold point.
    apply String.eqb_neq in H1, H2, H3. rewrite H1, H2, H3.
    apply pointInPolygonRings_insidePolygon.
  - reflexivity.
  - intros py y qp qy. apply above_exact.
  - intros ring side Hside. rewrite isPointInRing_insideRing.
    rewrite (insideRing_one_side point ring side Hside). reflexivity.
  - intros ring Hedges Hrange. rewrite isPointInRing_insideRing.
    rewrite (insideRing_exact point ring Hedges Hrange). reflexivity.
Qed.

(** The square, whose edges are parallel to the axes, is tested exactly:
    at (3, 3) the test returns what the even-odd rule yields on the
    numbers. *)
Lemma containment_is_even_odd_ray_casting_witness :
  isPointInRing (3, 3)%float (ringOf square)
  = Returns (insideRingExactly (3, 3)%float square)
  ∧ insideRingExactly (3, 3)%float square = true.
Proof.
  split; [|vm_compute; reflexivity].
  destruct (containment_is_even_odd_ray_casting [3; 3]%float)
    as (_ & _ & _ & _ & _ & _ & _ & _ & Hexact).
  apply (Hexact square).
  - intros e He. vm_compute in He.
    destruct He as [<-|[<-|[<-|[<-|[<-|[]]]]]];
      first [left; reflexivity | right; reflexivity].
  - intros v Hv. vm_compute in Hv.
    destruct Hv as [<-|[<-|[<-|[<-|[<-|[]]]]]];
      repeat split; eexists; vm_compute; reflexivity.
Defined.

(** C1 as stated fails: the test does not return true exactly when the
    point falls inside.  The crossing abscissa is rounded, so a position
    strictly inside the triangle and close to its longest side is reported
    outside, and one strictly outside is reported inside. *)
Lemma position_near_an_edge_is_misjudged :
  strictlyInsideTriangle justInside
  ∧ pointInGeometry justInside (Some (Polygon [ringOf triangle])) = Returns false
  ∧ insideRingExactly (entry justInside 0, entry justInside 1) triangle = true
  ∧ beyondTheLongestSide justOutside
  ∧ pointInGeometry justOutside (Some (Polygon [ringOf triangle])) = Returns true
  ∧ insideRingExactly (entry justOutside 0, entry justOutside 1) triangle = false
  ∧ ¬ containmentIsExactAsStated.
Proof.
  assert (Hin : insideRingExactly (entry justInside 0, entry justInside 1) triangle = true)
    by (vm_compute; reflexivity).
  assert (Hcode : isPointInRing (entry justInside 0, entry justInside 1) (ringOf triangle)
                  = Returns false) by (vm_compute; reflexivity).
  repeat apply conj.
  - eexists _, _. split; [vm_compute; reflexivity|]. split; [vm_compute; reflexivity|].
    repeat apply conj; vm_compute; reflexivity.
  - vm_compute. reflexivity.
  - exact Hin.
  - eexists _, _. split; [vm_compute; reflexivity|]. split; [vm_compute; reflexivity|].
    vm_compute. reflexivity.
  - vm_compute. reflexivity.
  - vm_compute. reflexivity.
  - intros Hclaim. specialize (Hclaim justInside triangle). cbn zeta in Hclaim.
    rewrite Hcode, Hin in Hclaim. discriminate.
Qed.





(** An object without a [type] member is never matched, whatever rings it
    carries: ArcGIS JSON polygons, which have [rings] and no [type], stop at
    the first test of [pointInGeometry]. *)
Theorem untyped_geometry_is_never_matched
    (pointCoords : Position) (rings : option (list RingValue)) :
  pointInGeometry pointCoords (Some (OtherObject "" rings)) = Returns false.
Proof. reflexivity. Qed.

End ContainmentFacts.
(** ** HUC10-by-HUC6 resolver *)

Section ResolverFacts.
Import Containment Watershed.

Lemma prefix_startsWith (a b : string) :
  String.prefix a b = true ↔ ∃ rest, b = a +:+ rest.
Proof.
  revert b. induction a as [|c a IH]; intros b.
  - destruct b; cbn; split; eauto.
  - destruct b as [|d b]; cbn.
    + split; [discriminate | intros [rest H]; discriminate].
    + destruct (ascii_dec c d) as [->|Hne].
      * rewrite IH. split; intros [rest H]; exists rest.
        -- rewrite H. reflexivity.
        -- injection H as H. exact H.
      * split; [discriminate | intros [rest H]; injection H as H1 H2; congruence].
Qed.

Section OneCall.
Variable svc : Service.
Variable normalizedCode : string.
Variable huc6Geometry : Geometry.

Lemma settle_first_hit (field : string) (post : list string)
    (collection : FeatureCollection) :
  answerQuery svc (whereQueryFor normalizedCode field) = Resolved collection →
  features collection ≠ [] →
  ∀ (pre : list string) (s : MapState) (fuel : nat),
    length pre < fuel →
    Forall (fieldFailed svc normalizedCode) pre →
    settle fuel svc s (tryNext normalizedCode huc6Geometry (pre ++ field :: post))
    = Some (setCache (setDetectedField s field)
              (<[normalizedCode := collection]> (huc10QueryCache s)),
            Resolved collection, List.map (whereQueryFor normalizedCode) (pre ++ [field])).
Proof.
  intros Hhit Hne. induction pre as [|g pre IH]; intros s fuel Hfuel Hpre.
  - destruct fuel as [|fuel]; [cbn in Hfuel; lia|].
    cbn [app tryNext settle]. fold (whereQueryFor normalizedCode field). rewrite Hhit.
    cbn [resumeQueryHuc10ByHuc6].
    destruct (features collection) as [|x xs] eqn:E; [contradiction|].
    cbn [length Nat.eqb negb]. destruct fuel; reflexivity.
  - destruct fuel as [|fuel]; [cbn in Hfuel; lia|].
    apply Forall_cons in Hpre as [Hg Hpre].
    cbn [app tryNext settle]. fold (whereQueryFor normalizedCode g).
    assert (Hstep : resumeQueryHuc10ByHuc6 s
                      (AwaitWhere normalizedCode huc6Geometry g (pre ++ field :: post))
                      (answerQuery svc (whereQueryFor normalizedCode g))
                    = (s, tryNext normalizedCode huc6Geometry (pre ++ field :: post))).
    { unfold fieldFailed, yieldsNoFeatures in Hg. cbn [resumeQueryHuc10ByHuc6].
      destruct (answerQuery svc (whereQueryFor normalizedCode g)) as [c|e]; [|reflexivity].
      rewrite Hg. reflexivity. }
    rewrite Hstep, (IH s fuel); [reflexivity | cbn in Hfuel; lia | exact Hpre].
Qed.

Lemma settle_all_failed :
  ∀ (fields : list string) (s : MapState) (fuel : nat),
    length fields < fuel →
    Forall (fieldFailed svc normalizedCode) fields →
    settle fuel svc s (tryNext normalizedCode huc6Geometry fields)
    = intersectsOutcome svc normalizedCode huc6Geometry s
        (List.map (whereQueryFor normalizedCode) fields ++ [IntersectsQuery huc6Geometry]).
Proof.
  induction fields as [|g fields IH]; intros s fuel Hfuel Hall.
  - destruct fuel as [|fuel]; [cbn in Hfuel; lia|].
    cbn [tryNext settle answerQuery runHuc10IntersectsQuery resumeQueryHuc10ByHuc6].
    unfold intersectsOutcome.
    destruct (answerIntersects svc huc6Geometry) as [c|e]; destruct fuel; reflexivity.
  - destruct fuel as [|fuel]; [cbn in Hfuel; lia|].
    apply Forall_cons in Hall as [Hg Hall].
    cbn [tryNext settle]. fold (whereQueryFor normalizedCode g).
    assert (Hstep : resumeQueryHuc10ByHuc6 s
                      (AwaitWhere normalizedCode huc6Geometry g fields)
                      (answerQuery svc (whereQueryFor normalizedCode g))
                    = (s, tryNext normalizedCode huc6Geometry fields)).
    { unfold fieldFailed, yieldsNoFeatures in Hg. cbn [resumeQueryHuc10ByHuc6].
      destruct (answerQuery svc (whereQueryFor normalizedCode g)) as [c|e]; [|reflexivity].
      rewrite Hg. reflexivity. }
    rewrite Hstep, (IH s fuel); [|cbn in Hfuel; lia|exact Hall].
    unfold intersectsOutcome.
    destruct (answerIntersects svc huc6Geometry); reflexivity.
Qed.

End OneCall.

Lemma orderedFieldCandidates_length (s : MapState) :
  length (orderedFieldCandidates s) < length fieldCandidates + 2.
Proof.
  unfold orderedFieldCandidates.
  destruct (negb (String.eqb (huc10DetectedField s) "")); cbn [length]; [|cbn; lia].
  pose proof (List.filter_length_le
                (fun f => negb (String.eqb f (huc10DetectedField s))) fieldCandidates).
  lia.
Qed.

(** C4.  For an uncached code with non-empty normalisation the resolver
    asks for the candidate fields in order, the detected field first, each
    with the where-clause [field LIKE 'code%']; the first answer that holds
    features is returned and its field recorded (and the result cached); a
    failed or empty answer moves on to the next field; once every candidate
    has failed or come back empty, and at once when the code normalises to
    the empty string, the intersection query is sent and its outcome is the
    outcome of the call. *)
Theorem resolver_tries_fields_in_order_then_intersects
    (svc : Service) (s : MapState) (huc6Geometry : Geometry) (huc6Code : string) :
  let normalizedCode := normalizeHucCode (JsString huc6Code) in
  let fields := orderedFieldCandidates s in
  let whereQuery := whereQueryFor normalizedCode in
  let failed := fieldFailed svc normalizedCode in
  (∀ field, whereQuery field = WhereQuery (field +:+ " LIKE '" +:+ normalizedCode +:+ "%'"))
  ∧ (huc10DetectedField s = "" → fields = fieldCandidates)
  ∧ (huc10DetectedField s ≠ "" →
     fields = huc10DetectedField s ::
              List.filter (fun f => negb (String.eqb f (huc10DetectedField s)))
                fieldCandidates)
  ∧ (normalizedCode ≠ "" →
     huc10QueryCache s !! normalizedCode = None →
     (∀ pre field post collection,
         fields = pre ++ field :: post →
         Forall failed pre →
         answerQuery svc (whereQuery field) = Resolved collection →
         features collection ≠ [] →
         queryHuc10ByHuc6Alone svc s huc6Geometry huc6Code
         = Some (setCache (setDetectedField s field)
                   (<[normalizedCode := collection]> (huc10QueryCache s)),
                 Resolved collection, List.map whereQuery (pre ++ [field])))
     ∧ (Forall failed fields →
        queryHuc10ByHuc6Alone svc s huc6Geometry huc6Code
        = intersectsOutcome svc normalizedCode huc6Geometry s
            (List.map whereQuery fields ++ [IntersectsQuery huc6Geometry])))
  ∧ (normalizedCode = "" →
     queryHuc10ByHuc6Alone svc s huc6Geometry huc6Code
     = intersectsOutcome svc "" huc6Geometry s [IntersectsQuery huc6Geometry]).
Proof.
  intros normalizedCode fields whereQuery failed.
  split; [reflexivity|]. split; [|split; [|split]].
  - intros Hnone. unfold fields, orderedFieldCandidates. rewrite Hnone. reflexivity.
  - intros Hsome. unfold fields, orderedFieldCandidates.
    apply String.eqb_neq in Hsome. rewrite Hsome. reflexivity.
  - intros Hcode Huncached.
    assert (Hstart : queryHuc10ByHuc6 s huc6Geometry huc6Code
                     = tryNext normalizedCode huc6Geometry fields).
    { unfold queryHuc10ByHuc6. fold normalizedCode.
      apply String.eqb_neq in Hcode. rewrite Hcode.
      cbn [negb]. rewrite Huncached. reflexivity. }
    split.
    + intros pre field post collection Hfields Hpre Hhit Hne.
      unfold queryHuc10ByHuc6Alone. rewrite Hstart, Hfields.
      apply settle_first_hit; try assumption.
      pose proof (orderedFieldCandidates_length s) as Hlen.
      fold fields in Hlen. rewrite Hfields, length_app in Hlen.
      cbn [length] in Hlen. lia.
    + intros Hall. unfold queryHuc10ByHuc6Alone. rewrite Hstart.
      apply settle_all_failed; [apply orderedFieldCandidates_length | exact Hall].
  - intros Hempty. unfold queryHuc10ByHuc6Alone, queryHuc10ByHuc6.
    fold normalizedCode. rewrite Hempty. cbn [String.eqb negb].
    apply (settle_all_failed svc "" huc6Geometry [] s); [cbn; lia | constructor].
Qed.

End ResolverFacts.

(** ** HUC6 click handler: displayed features, request ids, cache *)

Section HandlerFacts.
Import Containment Watershed.
Context {geoJsonLayer : Leaflet}.

(** *** What each step leaves alone *)

Lemma onQueryResolved_frame (s : MapState) (rid : Z) (huc6Code : string)
    (fc : FeatureCollection) :
  let s' := onQueryResolved s rid huc6Code fc in
  leaflet s' = leaflet s ∧ routeName s' = routeName s
  ∧ huc10QueryCache s' = huc10QueryCache s
  ∧ huc10DetectedField s' = huc10DetectedField s
  ∧ huc10QueryRequestId s' = huc10QueryRequestId s
  ∧ suspended s' = suspended s.
Proof.
  unfold onQueryResolved.
  destruct (negb (rid =? huc10QueryRequestId s)%Z || negb (isStreamRoute s));
    [repeat split|].
  cbn [setLayer huc10Layer app].
  destruct (negb (length (features fc) =? 0)%nat); [|repeat split].
  destruct (raised (addData (strictlyNested huc6Code fc))); repeat split.
Qed.


Lemma resume_frame (s : MapState) (k : Awaiting) (answer : Reply) :
  let s' := fst (resumeQueryHuc10ByHuc6 s k answer) in
  leaflet s' = leaflet s ∧ routeName s' = routeName s
  ∧ huc10QueryRequestId s' = huc10QueryRequestId s
  ∧ huc10Layer s' = huc10Layer s
  ∧ alerts s' = alerts s ∧ suspended s' = suspended s.
Proof.
  destruct k as [n g f rest|n g], answer as [c|e]; cbn [resumeQueryHuc10ByHuc6].
  - destruct (negb (length (features c) =? 0)%nat); repeat split.
  - repeat split.
  - destruct (negb (String.eqb n "")); repeat split.
  - repeat split.
Qed.

Lemma resume_cache_other (s : MapState) (k : Awaiting) (answer : Reply) (n : string) :
  n ≠ awaitingCode k →
  huc10QueryCache (fst (resumeQueryHuc10ByHuc6 s k answer)) !! n
  = huc10QueryCache s !! n.
Proof.
  intros Hne.
  destruct k as [m g f rest|m g], answer as [c|e];
    cbn [resumeQueryHuc10ByHuc6 awaitingCode] in *; try reflexivity.
  - destruct (negb (length (features c) =? 0)%nat); cbn; [|reflexivity].
    apply lookup_insert_ne. congruence.
  - destruct (negb (String.eqb m "")); cbn; [|reflexivity].
    apply lookup_insert_ne. congruence.
Qed.

Lemma resume_return_cached (s : MapState) (k : Awaiting) (answer : Reply)
    (c : FeatureCollection) :
  snd (resumeQueryHuc10ByHuc6 s k answer) = Return c →
  awaitingCode k ≠ "" →
  huc10QueryCache (fst (resumeQueryHuc10ByHuc6 s k answer)) !! awaitingCode k = Some c.
Proof.
  intros Hret Hcode.
  destruct k as [m g f rest|m g], answer as [c'|e];
    cbn [resumeQueryHuc10ByHuc6 awaitingCode] in *.
  - destruct (negb (length (features c') =? 0)%nat); cbn in *.
    + injection Hret as ->. apply lookup_insert_eq.
    + destruct rest; discriminate.
  - destruct rest; discriminate.
  - apply String.eqb_neq in Hcode. rewrite Hcode. cbn in *.
    injection Hret as ->. apply lookup_insert_eq.
  - discriminate.
Qed.

Lemma tryNext_await (n : string) (g : Geometry) (fields : list string) :
  ∃ q k, tryNext n g fields = Await q k ∧ awaitingCode k = n.
Proof. destruct fields; cbn; eauto. Qed.

Lemma resume_await_code (s : MapState) (k : Awaiting) (answer : Reply)
    (q : Query) (k' : Awaiting) :
  snd (resumeQueryHuc10ByHuc6 s k answer) = Await q k' →
  awaitingCode k' = awaitingCode k.
Proof.
  intros H.
  destruct k as [m g f rest|m g], answer as [c|e];
    cbn [resumeQueryHuc10ByHuc6 awaitingCode snd] in *.
  - destruct (negb (length (features c) =? 0)%nat); cbn in H; [discriminate|].
    destruct (tryNext_await m g rest) as (q0 & k0 & E & Hk). congruence.
  - destruct (tryNext_await m g rest) as (q0 & k0 & E & Hk). congruence.
  - discriminate.
  - discriminate.
Qed.

Lemma continueHandler_frame (s : MapState) (rid : Z) (huc6Code : string)
    (p : Progress) :
  let s' := fst (continueHandler s rid huc6Code p) in
  leaflet s' = leaflet s ∧ routeName s' = routeName s
  ∧ huc10QueryCache s' = huc10QueryCache s
  ∧ huc10DetectedField s' = huc10DetectedField s
  ∧ huc10QueryRequestId s' = huc10QueryRequestId s
  ∧ suspended s' = match p with
                   | Await _ k => suspended s ++ [mkHandler rid huc6Code k]
                   | _ => suspended s
                   end.
Proof.
  destruct p as [c|e|q k]; cbn [continueHandler fst].
  - pose proof (onQueryResolved_frame s rid huc6Code c) as F. cbn zeta in F. tauto.
  - repeat split.
  - repeat split.
Qed.


(** *** Request ids *)

(** A handled click: the map exists and the clicked feature has a geometry
    (the guard of line 193). *)
Lemma click_frame (s : MapState) (feature : Feature) (huc6Geometry : Geometry) :
  leaflet s = true →
  geometry feature = Some huc6Geometry →
  let huc6Code := code (extractWatershedMetadata (properties feature) 6) in
  let rid := (huc10QueryRequestId s + 1)%Z in
  let s' := fst (handle s (Huc6Click (Some feature))) in
  leaflet s' = leaflet s ∧ routeName s' = routeName s
  ∧ huc10QueryCache s' = huc10QueryCache s
  ∧ huc10DetectedField s' = huc10DetectedField s
  ∧ huc10QueryRequestId s' = rid
  ∧ suspended s' = match queryHuc10ByHuc6 (setRequestId s rid) huc6Geometry huc6Code with
                   | Await _ k => suspended s ++ [mkHandler rid huc6Code k]
                   | _ => suspended s
                   end.
Proof.
  intros Hmap Hgeom huc6Code rid s'. subst s'.
  cbn [handle onHuc6Click]. rewrite Hmap, Hgeom. fold huc6Code rid.
  pose proof (continueHandler_frame (setRequestId s rid) rid huc6Code
                (queryHuc10ByHuc6 (setRequestId s rid) huc6Geometry huc6Code)) as F.
  cbn zeta in F. destruct F as (F1 & F2 & F3 & F4 & F5 & F6).
  split; [rewrite F1; exact Hmap|]. split; [exact F2|]. split; [exact F3|].
  split; [exact F4|]. split; [exact F5|exact F6].
Qed.


Lemma run_cons (s : MapState) (ev : Event) (evs : list Event) :
  fst (run s (ev :: evs)) = fst (run (fst (handle s ev)) evs).
Proof.
  cbn [run]. destruct (handle s ev) as [s1 d1]. cbn [fst].
  destruct (run s1 evs) as [s2 d2]. reflexivity.
Qed.



Lemma queryHuc10ByHuc6_await (s : MapState) (g : Geometry) (huc6Code : string)
    (q : Query) (k : Awaiting) :
  queryHuc10ByHuc6 s g huc6Code = Await q k →
  awaitingCode k = normalizeHucCode (JsString huc6Code).
Proof.
  unfold queryHuc10ByHuc6. intros H.
  destruct (negb (String.eqb (normalizeHucCode (JsString huc6Code)) "")).
  - destruct (huc10QueryCache s !! normalizeHucCode (JsString huc6Code)); [discriminate|].
    destruct (tryNext_await (normalizeHucCode (JsString huc6Code)) g
                (orderedFieldCandidates s)) as (q0 & k0 & E & Hk). congruence.
  - cbn in H. injection H as _ <-. reflexivity.
Qed.

Lemma handle_wellFormed (s : MapState) (ev : Event) :
  wellFormed s → wellFormed (fst (handle s ev)).
Proof.
  intros Hwf. destruct ev as [[feature|]|rid answer|newName].
  - destruct (leaflet s) eqn:Hmap;
      [|cbn [handle onHuc6Click]; rewrite Hmap; exact Hwf].
    destruct (geometry feature) as [g|] eqn:Hgeom;
      [|cbn [handle onHuc6Click]; rewrite Hmap, Hgeom; exact Hwf].
    pose proof (click_frame s feature g Hmap Hgeom) as F. cbn zeta in F.
    destruct F as (_ & _ & _ & _ & Hc & Hs).
    intros h Hin. rewrite Hc. rewrite Hs in Hin.
    destruct (queryHuc10ByHuc6 _ g _) as [c|e|q k] eqn:E.
    + destruct (Hwf h Hin). split; [lia|assumption].
    + destruct (Hwf h Hin). split; [lia|assumption].
    + apply in_app_or in Hin as [Hin|[<-|[]]].
      * destruct (Hwf h Hin). split; [lia|assumption].
      * cbn. split; [lia|]. eapply queryHuc10ByHuc6_await. exact E.
  - exact Hwf.
  - cbn [handle]. unfold onServiceReply.
    destruct (List.find _ (suspended s)) as [h0|] eqn:Hfind; [|exact Hwf].
    apply List.find_some in Hfind as [Hin0 Hrid]. apply Z.eqb_eq in Hrid.
    destruct (Hwf h0 Hin0) as [Hle0 Hcode0].
    pose proof (resume_frame
                  (setSuspended s (List.filter (fun h' => negb (requestId h' =? rid)%Z)
                                     (suspended s)))
                  (awaiting h0) answer) as F.
    pose proof (resume_await_code
                  (setSuspended s (List.filter (fun h' => negb (requestId h' =? rid)%Z)
                                     (suspended s)))
                  (awaiting h0) answer) as A.
    cbn zeta in F.
    destruct (resumeQueryHuc10ByHuc6 _ (awaiting h0) answer) as [s1 p].
    cbn [fst snd] in F, A. destruct F as (_ & _ & Hc & _ & _ & Hs).
    pose proof (continueHandler_frame s1 rid (handlerCode h0) p) as G. cbn zeta in G.
    destruct G as (_ & _ & _ & _ & Hc' & Hs').
    intros h Hin. rewrite Hc', Hc. cbn [setSuspended huc10QueryRequestId].
    rewrite Hs', Hs in Hin. cbn [setSuspended suspended] in Hin.
    assert (Hold : ∀ h, In h (List.filter (fun h' => negb (requestId h' =? rid)%Z)
                                (suspended s)) →
                   (requestId h <= huc10QueryRequestId s)%Z
                   ∧ awaitingCode (awaiting h)
                     = normalizeHucCode (JsString (handlerCode h))).
    { intros h' Hin'. apply List.filter_In in Hin' as [Hin' _]. exact (Hwf h' Hin'). }
    destruct p as [c|e|q k]; [exact (Hold h Hin)..|].
    apply in_app_or in Hin as [Hin|[<-|[]]]; [exact (Hold h Hin)|].
    cbn. split; [lia|]. rewrite (A q k eq_refl). exact Hcode0.
  - cbn [handle fst]. unfold onRouteChange.
    destruct (negb _); exact Hwf.
Qed.

Lemma run_wellFormed (evs : list Event) :
  ∀ s, wellFormed s → wellFormed (fst (run s evs)).
Proof.
  induction evs as [|ev evs IH]; intros s Hwf; [exact Hwf|].
  rewrite run_cons. apply IH, handle_wellFormed, Hwf.
Qed.

Lemma initialState_wellFormed (route : string) : wellFormed (initialState route).
Proof. intros h []. Qed.

Lemma handle_leaflet (s : MapState) (ev : Event) :
  leaflet (fst (handle s ev)) = leaflet s.
Proof.
  destruct ev as [[feature|]|rid answer|newName]; cbn [handle fst]; try reflexivity.
  - destruct (leaflet s) eqn:Hmap; [|cbn; rewrite Hmap; cbn; exact Hmap].
    destruct (geometry feature) as [g|] eqn:Hgeom;
      [|unfold onHuc6Click; rewrite Hmap, Hgeom; exact Hmap].
    pose proof (click_frame s feature g Hmap Hgeom) as F. cbn zeta in F.
    cbn [handle] in F. destruct F as (-> & _). exact Hmap.
  - unfold onServiceReply.
    destruct (List.find _ (suspended s)) as [h|]; [|reflexivity].
    pose proof (resume_frame
                  (setSuspended s (List.filter (fun h' => negb (requestId h' =? rid)%Z)
                                     (suspended s)))
                  (awaiting h) answer) as F.
    cbn zeta in F.
    destruct (resumeQueryHuc10ByHuc6 _ (awaiting h) answer) as [s1 p].
    cbn [fst] in F. destruct F as (Hl & _).
    pose proof (continueHandler_frame s1 rid (handlerCode h) p) as G. cbn zeta in G.
    destruct G as (-> & _). exact Hl.
  - unfold onRouteChange. destruct (negb _); reflexivity.
Qed.

Lemma run_leaflet (evs : list Event) :
  ∀ s, leaflet (fst (run s evs)) = leaflet s.
Proof.
  induction evs as [|ev evs IH]; intros s; [reflexivity|].
  rewrite run_cons, IH. apply handle_leaflet.
Qed.

(** X2.  Whatever happens, the click handlers in flight carry request ids
    the counter has reached and the normalised form of their own code. *)
Theorem handlers_in_flight_are_well_formed (route : string) (evs : list Event) :
  wellFormed (fst (run (initialState route) evs)).
Proof. apply run_wellFormed, initialState_wellFormed. Qed.


(** C5, amended.  When the answer for HUC6 code [huc6Code] is the one the
    handler acts on (its request id is the counter's value and the route is
    the stream route), the HUC10 layer is cleared and the features handed to
    its [addData] are exactly the returned features whose normalised HUC10
    code starts with the normalised HUC6 code, every returned feature when
    that code normalises to the empty string.  The layer then holds what
    Leaflet has drawn of them, and what Leaflet raised is shown as an alert.
    Where Leaflet draws nothing but features it is handed, every feature on
    the layer is a nested one; where it draws each feature it is handed, the
    layer holds exactly the nested features. *)
Theorem displayed_huc10_features_are_the_nested_ones
    (s : MapState) (rid : Z) (huc6Code : string) (fc : FeatureCollection)
    (Hcurrent : rid = huc10QueryRequestId s)
    (Hstream : isStreamRoute s = true) :
  let huc6 := normalizeHucCode (JsString huc6Code) in
  let huc10 := fun feature =>
    normalizeHucCode (JsString (code (extractWatershedMetadata (properties feature) 10))) in
  let nested := fun feature =>
    In feature (features fc) ∧ (huc6 = "" ∨ ∃ rest, huc10 feature = huc6 +:+ rest) in
  let handed := strictlyNested huc6Code fc in
  let after := onQueryResolved s rid huc6Code fc in
  (∀ feature, In feature handed ↔ nested feature)
  ∧ (huc6 = "" → handed = features fc)
  ∧ (features fc = [] → huc10Layer after = [] ∧ alerts after = alerts s)
  ∧ (features fc ≠ [] →
     huc10Layer after = drawn (addData handed)
     ∧ alerts after
       = alerts s ++ match raised (addData handed) with
                     | Some error => ["Could not load HUC10 subwatersheds: " +:+ error]
                     | None => []
                     end)
  ∧ ((∀ feature, In feature (drawn (addData handed)) → In feature handed) →
     ∀ feature, In feature (huc10Layer after) → nested feature)
  ∧ (drawn (addData handed) = handed →
     ∀ feature, In feature (huc10Layer after) ↔ nested feature).
Proof.
  intros huc6 huc10 nested handed after.
  assert (Hhanded : ∀ feature, In feature handed ↔ nested feature).
  { intros feature. unfold handed, nested, strictlyNested. fold huc6.
    rewrite List.filter_In. fold (huc10 feature).
    destruct (String.eqb_spec huc6 "") as [He|Hne].
    + split; [intros [Hin _]; auto | intros [Hin _]; auto].
    + rewrite prefix_startsWith. split; intros [Hin Hn]; split; auto.
      destruct Hn as [Hn|Hn]; [contradiction|exact Hn]. }
  assert (Hempty : features fc = [] → huc10Layer after = [] ∧ alerts after = alerts s).
  { intros He. unfold after, onQueryResolved. rewrite Hcurrent, Z.eqb_refl, Hstream, He.
    split; reflexivity. }
  assert (Hfull : features fc ≠ [] →
            huc10Layer after = drawn (addData handed)
            ∧ alerts after
              = alerts s ++ match raised (addData handed) with
                            | Some error =>
                                ["Could not load HUC10 subwatersheds: " +:+ error]
                            | None => []
                            end).
  { intros Hne. unfold after, onQueryResolved. rewrite Hcurrent, Z.eqb_refl, Hstream.
    cbn [negb orb]. fold handed.
    destruct (features fc) as [|f l]; [contradiction|]. cbn [length Nat.eqb negb].
    cbn [setLayer huc10Layer app].
    destruct (raised (addData handed)) as [error|]; cbn.
    - split; reflexivity.
    - rewrite app_nil_r. split; reflexivity. }
  split; [exact Hhanded|]. split.
  { intros He. unfold handed, strictlyNested. fold huc6. rewrite He. cbn [String.eqb].
    generalize (features fc). intros l.
    induction l as [|f l IH]; [reflexivity|].
    cbn [List.filter]. rewrite IH. reflexivity. }
  split; [exact Hempty|]. split; [exact Hfull|]. split.
  - intros Hsub feature.
    destruct (features fc) as [|f l] eqn:Hfc.
    + destruct (Hempty eq_refl) as [-> _]. intros [].
    + destruct Hfull as [-> _]; [discriminate|].
      intros Hin. apply Hhanded, Hsub, Hin.
  - intros Hdrawn feature.
    destruct (features fc) as [|f l] eqn:Hfc.
    + destruct (Hempty eq_refl) as [-> _]. rewrite <- Hhanded.
      unfold handed, strictlyNested. rewrite Hfc. reflexivity.
    + destruct Hfull as [-> _]; [discriminate|]. rewrite Hdrawn. apply Hhanded.
Qed.

(** *** The result cache *)

Lemma queryHuc10ByHuc6_return (s : MapState) (g : Geometry) (huc6Code : string)
    (c : FeatureCollection) :
  queryHuc10ByHuc6 s g huc6Code = Return c →
  huc10QueryCache s !! normalizeHucCode (JsString huc6Code) = Some c.
Proof.
  unfold queryHuc10ByHuc6.
  destruct (negb (String.eqb (normalizeHucCode (JsString huc6Code)) "")).
  - destruct (huc10QueryCache s !! normalizeHucCode (JsString huc6Code)) as [c'|].
    + intros H. injection H as ->. reflexivity.
    + destruct (orderedFieldCandidates s); discriminate.
  - discriminate.
Qed.

Lemma queryHuc10ByHuc6_cached (s : MapState) (g : Geometry) (huc6Code : string)
    (c : FeatureCollection) :
  normalizeHucCode (JsString huc6Code) ≠ "" →
  huc10QueryCache s !! normalizeHucCode (JsString huc6Code) = Some c →
  queryHuc10ByHuc6 s g huc6Code = Return c.
Proof.
  intros Hne Hc. unfold queryHuc10ByHuc6.
  apply String.eqb_neq in Hne. rewrite Hne, Hc. reflexivity.
Qed.

(** A call that has just returned a collection for a code with non-empty
    normalisation leaves that collection in the cache. *)
Lemma handle_returned_cached (s : MapState) (ev : Event) (rid : Z)
    (huc6Code : string) (X : FeatureCollection) :
  wellFormed s →
  In (Returned rid huc6Code X) (snd (handle s ev)) →
  normalizeHucCode (JsString huc6Code) ≠ "" →
  huc10QueryCache (fst (handle s ev)) !! normalizeHucCode (JsString huc6Code) = Some X.
Proof.
  intros Hwf Hret Hne. destruct ev as [[feature|]|rid' answer|newName].
  - cbn [handle onHuc6Click] in *.
    destruct (leaflet s); [|destruct Hret].
    destruct (geometry feature) as [g|]; [|destruct Hret].
    set (rid0 := (huc10QueryRequestId s + 1)%Z) in *.
    set (code0 := code (extractWatershedMetadata (properties feature) 6)) in *.
    pose proof (continueHandler_frame (setRequestId s rid0) rid0 code0
                  (queryHuc10ByHuc6 (setRequestId s rid0) g code0)) as F.
    cbn zeta in F. destruct F as (_ & _ & -> & _).
    destruct (queryHuc10ByHuc6 (setRequestId s rid0) g code0) as [c|e|q k] eqn:E;
      cbn [continueHandler snd] in Hret; destruct Hret as [Hret|[]];
      try discriminate.
    injection Hret as _ <- <-. apply queryHuc10ByHuc6_return in E. exact E.
  - destruct Hret.
  - cbn [handle] in *. unfold onServiceReply in *.
    destruct (List.find _ (suspended s)) as [h|] eqn:Hfind; [|destruct Hret].
    apply List.find_some in Hfind as [Hin _]. destruct (Hwf h Hin) as [_ Hcode].
    pose proof (resume_return_cached
                  (setSuspended s (List.filter (fun h' => negb (requestId h' =? rid')%Z)
                                     (suspended s)))
                  (awaiting h) answer) as R.
    destruct (resumeQueryHuc10ByHuc6 _ (awaiting h) answer) as [s1 p].
    cbn [fst snd] in R.
    pose proof (continueHandler_frame s1 rid' (handlerCode h) p) as F.
    cbn zeta in F. destruct F as (_ & _ & -> & _).
    destruct p as [c|e|q k]; cbn [continueHandler snd] in Hret;
      destruct Hret as [Hret|[]]; try discriminate.
    injection Hret as _ <- <-. rewrite <- Hcode. apply R; [reflexivity|].
    rewrite Hcode. exact Hne.
  - destruct Hret.
Qed.

(** While no call for [n] is in flight, no event changes the cache entry of
    [n] or starts a call for [n] that stays in flight. *)
Lemma handle_keeps_cached (n : string) (X : FeatureCollection) (s : MapState)
    (ev : Event) :
  n ≠ "" →
  huc10QueryCache s !! n = Some X →
  noCallInFlightFor n s →
  huc10QueryCache (fst (handle s ev)) !! n = Some X
  ∧ noCallInFlightFor n (fst (handle s ev)).
Proof.
  intros Hne Hc Hq. destruct ev as [[feature|]|rid answer|newName].
  - destruct (leaflet s) eqn:Hmap;
      [|cbn [handle onHuc6Click]; rewrite Hmap; auto].
    destruct (geometry feature) as [g|] eqn:Hgeom;
      [|cbn [handle onHuc6Click]; rewrite Hmap, Hgeom; auto].
    pose proof (click_frame s feature g Hmap Hgeom) as F. cbn zeta in F.
    destruct F as (_ & _ & -> & _ & _ & Hs). split; [exact Hc|].
    intros h Hin. rewrite Hs in Hin.
    destruct (queryHuc10ByHuc6 _ g _) as [c|e|q k] eqn:E; [exact (Hq h Hin)..|].
    apply in_app_or in Hin as [Hin|[<-|[]]]; [exact (Hq h Hin)|].
    cbn [awaiting]. intros Hk.
    pose proof (queryHuc10ByHuc6_await _ _ _ _ _ E) as Hn. rewrite Hk in Hn.
    rewrite (queryHuc10ByHuc6_cached _ g _ X) in E; [discriminate| |].
    + rewrite <- Hn. exact Hne.
    + rewrite <- Hn. exact Hc.
  - auto.
  - cbn [handle]. unfold onServiceReply.
    destruct (List.find _ (suspended s)) as [h0|] eqn:Hfind; [|auto].
    apply List.find_some in Hfind as [Hin0 _]. pose proof (Hq h0 Hin0) as Hk0.
    set (s0 := setSuspended s (List.filter (fun h' => negb (requestId h' =? rid)%Z)
                                 (suspended s))).
    pose proof (resume_frame s0 (awaiting h0) answer) as F.
    pose proof (resume_cache_other s0 (awaiting h0) answer n) as C.
    pose proof (resume_await_code s0 (awaiting h0) answer) as A.
    cbn zeta in F.
    destruct (resumeQueryHuc10ByHuc6 s0 (awaiting h0) answer) as [s1 p].
    cbn [fst snd] in F, C, A. destruct F as (_ & _ & _ & _ & _ & Hs).
    pose proof (continueHandler_frame s1 rid (handlerCode h0) p) as G.
    cbn zeta in G. destruct G as (_ & _ & -> & _ & _ & Hs'). split.
    + rewrite C by congruence. exact Hc.
    + intros h Hin. rewrite Hs', Hs in Hin. cbn [s0 setSuspended suspended] in Hin.
      assert (Hold : ∀ h, In h (List.filter (fun h' => negb (requestId h' =? rid)%Z)
                                  (suspended s)) → awaitingCode (awaiting h) ≠ n).
      { intros h' Hin'. apply List.filter_In in Hin' as [Hin' _]. exact (Hq h' Hin'). }
      destruct p as [c|e|q k]; [exact (Hold h Hin)..|].
      apply in_app_or in Hin as [Hin|[<-|[]]]; [exact (Hold h Hin)|].
      cbn [awaiting]. rewrite (A q k eq_refl). exact Hk0.
  - cbn [handle fst]. unfold onRouteChange. destruct (negb _); auto.
Qed.

Lemma run_keeps_cached (n : string) (X : FeatureCollection) (evs : list Event) :
  n ≠ "" →
  ∀ s, huc10QueryCache s !! n = Some X →
       noCallInFlightFor n s →
       huc10QueryCache (fst (run s evs)) !! n = Some X.
Proof.
  intros Hne. induction evs as [|ev evs IH]; intros s Hc Hq; [exact Hc|].
  rewrite run_cons. destruct (handle_keeps_cached n X s ev Hne Hc Hq) as [Hc' Hq'].
  apply IH; assumption.
Qed.

Lemma click_answered_from_cache (s : MapState) (feature : Feature)
    (huc6Geometry : Geometry) (X : FeatureCollection) :
  leaflet s = true →
  geometry feature = Some huc6Geometry →
  let huc6Code := code (extractWatershedMetadata (properties feature) 6) in
  normalizeHucCode (JsString huc6Code) ≠ "" →
  huc10QueryCache s !! normalizeHucCode (JsString huc6Code) = Some X →
  snd (handle s (Huc6Click (Some feature)))
  = [Returned (huc10QueryRequestId s + 1) huc6Code X].
Proof.
  intros Hmap Hgeom huc6Code Hne Hc.
  cbn [handle onHuc6Click]. rewrite Hmap, Hgeom. fold huc6Code.
  rewrite (queryHuc10ByHuc6_cached _ huc6Geometry huc6Code X); [reflexivity| |].
  - exact Hne.
  - exact Hc.
Qed.

(** C3, amended.  Once a call has returned a collection for a code with
    non-empty normalisation and no other call for the same normalised code is
    in flight at that moment, every later click whose code has that
    normalisation is answered with the same collection, from the cache and
    without any remote query, whatever happened in between.  A code that
    normalises to the empty string goes straight to the intersection query
    whatever the cache holds, and its result is not stored. *)
Theorem cached_collection_is_returned_without_remote_query
    (route : string) (before after : list Event) (ev : Event)
    (rid : Z) (huc6Code : string) (X : FeatureCollection)
    (feature : Feature) (huc6Geometry : Geometry) :
  let s0 := fst (run (initialState route) before) in
  let s1 := fst (handle s0 ev) in
  let s2 := fst (run s1 after) in
  let n := normalizeHucCode (JsString huc6Code) in
  let laterCode := code (extractWatershedMetadata (properties feature) 6) in
  (In (Returned rid huc6Code X) (snd (handle s0 ev)) →
   n ≠ "" →
   noCallInFlightFor n s1 →
   geometry feature = Some huc6Geometry →
   normalizeHucCode (JsString laterCode) = n →
   huc10QueryCache s2 !! n = Some X
   ∧ snd (handle s2 (Huc6Click (Some feature)))
     = [Returned (huc10QueryRequestId s2 + 1) laterCode X])
  ∧ (∀ (s : MapState) (g : Geometry) (emptyCode : string)
       (cache : gmap string FeatureCollection) (answer : Reply),
        normalizeHucCode (JsString emptyCode) = "" →
        queryHuc10ByHuc6 (setCache s cache) g emptyCode
        = Await (IntersectsQuery g) (AwaitIntersects "" g)
        ∧ huc10QueryCache
            (fst (resumeQueryHuc10ByHuc6 s (AwaitIntersects "" g) answer))
          = huc10QueryCache s).
Proof.
  intros s0 s1 s2 n laterCode. split.
  - intros Hret Hne Hquiet Hgeom Hsame.
    assert (Hwf : wellFormed s0) by (apply run_wellFormed, initialState_wellFormed).
    assert (Hc1 : huc10QueryCache s1 !! n = Some X)
      by (apply (handle_returned_cached s0 ev rid huc6Code X); assumption).
    assert (Hc2 : huc10QueryCache s2 !! n = Some X)
      by (apply run_keeps_cached; assumption).
    assert (Hmap : leaflet s2 = true).
    { unfold s2, s1, s0. rewrite run_leaflet, handle_leaflet, run_leaflet. reflexivity. }
    split; [exact Hc2|].
    apply (click_answered_from_cache s2 feature huc6Geometry X Hmap Hgeom).
    + fold laterCode. rewrite Hsame. exact Hne.
    + fold laterCode. rewrite Hsame. exact Hc2.
  - intros s g emptyCode cache answer Hempty. split.
    + unfold queryHuc10ByHuc6. rewrite Hempty. reflexivity.
    + destruct answer; reflexivity.
Qed.

End HandlerFacts.

(** *** The claims as stated

    Each of the three fails whatever the Leaflet layer does. *)

Section ClaimsAsStated.
Import Containment Watershed.


(** C5 as stated fails, whatever Leaflet draws: the result of a request
    that a later click has overtaken is dropped at line 214, so none of its
    features is shown, nested or not. *)
Lemma overtaken_result_is_not_shown : ¬ nestedFeaturesShownAsStated.
Proof.
  intros [layer Hclaim].
  specialize (Hclaim (fst (run (initialState "stream")
                             [Huc6Click (Some regionClicked);
                              Huc6Click (Some regionClicked)]))
                     1%Z "170501" firstAnswer nestedFeature).
  cbn zeta in Hclaim. destruct Hclaim as [_ Hclaim].
  assert (Hshown : In nestedFeature
                      (huc10Layer
                         (onQueryResolved
                            (fst (run (initialState "stream")
                                    [Huc6Click (Some regionClicked);
                                     Huc6Click (Some regionClicked)]))
                            1 "170501" firstAnswer))).
  { apply Hclaim. split; [left; reflexivity|]. right. exists "0101". reflexivity. }
  vm_compute in Hshown. exact Hshown.
Qed.

(** C3 as stated fails: with two calls for the same code in flight, the
    first to return caches and returns one collection, the second then
    replaces the cache entry, and a later click is answered with the second
    collection, not with the one the first call returned. *)
Lemma overlapping_calls_replace_the_cached_collection : ¬ cacheClaimAsStated.
Proof.
  intros [layer Hclaim].
  specialize (Hclaim "stream" overlappingCalls 1%Z "170501" firstAnswer regionClicked
                     (Polygon [])).
  cbn zeta in Hclaim.
  set (s3 := fst (run (geoJsonLayer := layer) (initialState "stream")
                    [ Huc6Click (Some regionClicked); Huc6Click (Some regionClicked);
                      ServiceReply 1 (Resolved firstAnswer) ])).
  assert (Hrun : run (initialState "stream") overlappingCalls
                 = (fst (handle s3 (ServiceReply 2 (Resolved secondAnswer))),
                    [ Sent 1 (WhereQuery "HUC10 LIKE '170501%'");
                      Sent 2 (WhereQuery "HUC10 LIKE '170501%'");
                      Returned 1 "170501" firstAnswer;
                      Returned 2 "170501" secondAnswer ]))
    by (vm_compute; reflexivity).
  rewrite Hrun in Hclaim. cbn [fst snd] in Hclaim.
  assert (Hwf : wellFormed s3) by (apply run_wellFormed, initialState_wellFormed).
  assert (Hcache : huc10QueryCache (fst (handle s3 (ServiceReply 2 (Resolved secondAnswer))))
                     !! "170501" = Some secondAnswer).
  { apply (handle_returned_cached s3 (ServiceReply 2 (Resolved secondAnswer)) 2 "170501"
             secondAnswer Hwf); [|discriminate].
    vm_compute. left. reflexivity. }
  assert (Hmap : leaflet (fst (handle s3 (ServiceReply 2 (Resolved secondAnswer)))) = true).
  { rewrite handle_leaflet. unfold s3. rewrite run_leaflet. reflexivity. }
  pose proof (click_answered_from_cache _ regionClicked (Polygon []) secondAnswer
                Hmap eq_refl ltac:(discriminate) Hcache) as Hclick.
  cbn zeta in Hclick.
  specialize (Hclaim (or_intror (or_intror (or_introl eq_refl)))
                     ltac:(discriminate) eq_refl eq_refl).
  rewrite Hclick in Hclaim. discriminate Hclaim.
Qed.

End ClaimsAsStated.

(** ** Selection state of the streams store *)

Section StoreFacts.
Import Streams.

Lemma Boolean_true (id : string) : Boolean id = true ↔ id ≠ "".
Proof.
  unfold Boolean. rewrite negb_true_iff. apply String.eqb_neq.
Qed.

Lemma filter_elem_of (f : string → bool) (l : list string) (x : string) :
  x ∈ List.filter f l ↔ x ∈ l ∧ f x = true.
Proof. rewrite !list_elem_of_In. apply List.filter_In. Qed.

Lemma filter_NoDup (f : string → bool) (l : list string) :
  NoDup l → NoDup (List.filter f l).
Proof.
  induction l as [|y l IH]; intros Hnd; [constructor|].
  apply NoDup_cons in Hnd as [Hy Hnd]. cbn [List.filter].
  destruct (f y); [|auto].
  apply NoDup_cons. split; [|auto].
  rewrite filter_elem_of. tauto.
Qed.

Lemma setAdd_elem_of (elems : list string) (y x : string) :
  x ∈ setAdd elems y ↔ x ∈ elems ∨ x = y.
Proof.
  unfold setAdd, includes. case_bool_decide as Hy.
  - split; [auto | intros [H| ->]; assumption].
  - rewrite elem_of_app, list_elem_of_singleton. reflexivity.
Qed.

Lemma setAdd_NoDup (elems : list string) (y : string) :
  NoDup elems → NoDup (setAdd elems y).
Proof.
  intros Hnd. unfold setAdd, includes. case_bool_decide as Hy; [exact Hnd|].
  apply NoDup_app. split; [exact Hnd|]. split; [|apply NoDup_singleton].
  intros x Hx Hin. apply list_elem_of_singleton in Hin. subst x. contradiction.
Qed.

Lemma fold_setAdd_elem_of (xs : list string) :
  ∀ (acc : list string) (x : string),
    x ∈ fold_left setAdd xs acc ↔ x ∈ acc ∨ x ∈ xs.
Proof.
  induction xs as [|y xs IH]; intros acc x; cbn [fold_left].
  - rewrite elem_of_nil. tauto.
  - rewrite IH, setAdd_elem_of, elem_of_cons. tauto.
Qed.

Lemma fold_setAdd_NoDup (xs : list string) :
  ∀ acc : list string, NoDup acc → NoDup (fold_left setAdd xs acc).
Proof.
  induction xs as [|y xs IH]; intros acc Hnd; cbn [fold_left]; [exact Hnd|].
  apply IH, setAdd_NoDup, Hnd.
Qed.

Lemma spreadSet_elem_of (xs : list string) (x : string) :
  x ∈ spreadSet xs ↔ x ∈ xs.
Proof.
  unfold spreadSet. rewrite fold_setAdd_elem_of, elem_of_nil. tauto.
Qed.

Lemma spreadSet_NoDup (xs : list string) : NoDup (spreadSet xs).
Proof. apply fold_setAdd_NoDup. constructor. Qed.

Lemma objectKeys_elem_of (obj : gmap string (list string)) (k : string) :
  k ∈ objectKeys obj ↔ is_Some (obj !! k).
Proof.
  unfold objectKeys. rewrite list_elem_of_fmap. split.
  - intros [[k' v] [-> Hin]]. apply elem_of_map_to_list in Hin. cbn. eauto.
  - intros [v Hv]. exists (k, v). split; [reflexivity|].
    apply elem_of_map_to_list. exact Hv.
Qed.

Lemma objectKeys_NoDup (obj : gmap string (list string)) : NoDup (objectKeys obj).
Proof. apply NoDup_fst_map_to_list. Qed.

(** C6.  With selection type ['Single'], toggling a gauge leaves exactly
    that gauge selected, whatever was selected before; toggling a domain
    leaves exactly that domain code selected, the domain-gauge map with that
    code as its only key, and as selected gauges (and as the map's entry) the
    gauge identifiers given for the domain, without duplicates and without
    falsy entries. *)
Theorem single_selection_replaces
    (st : Store) (gaugeId domainCode : string) (gaugeIdsForDomain : list string)
    (Hsingle : selectionType st = "Single") :
  let st' := toggleDomainSelection domainCode gaugeIdsForDomain st in
  (gaugeId ≠ "" → selectedGaugeIds (toggleGaugeSelection gaugeId st) = [gaugeId])
  ∧ (domainCode ≠ "" →
     selectedDomainCodes st' = [domainCode]
     ∧ selectedDomainGaugeMap st' = {[ domainCode := selectedGaugeIds st' ]}
     ∧ objectKeys (selectedDomainGaugeMap st') = [domainCode]
     ∧ NoDup (selectedGaugeIds st')
     ∧ ∀ id, id ∈ selectedGaugeIds st' ↔ id ∈ gaugeIdsForDomain ∧ id ≠ "").
Proof.
  intros st'. subst st'. split.
  - intros Hgauge. unfold toggleGaugeSelection.
    apply Boolean_true in Hgauge. rewrite Hgauge, Hsingle. reflexivity.
  - intros Hdomain. unfold toggleDomainSelection.
    apply Boolean_true in Hdomain. rewrite Hdomain, Hsingle.
    cbn [negb String.eqb Ascii.eqb Bool.eqb selectedGaugeIds selectedDomainCodes
         selectedDomainGaugeMap].
    split; [reflexivity|]. split; [reflexivity|]. split; [|split].
    + unfold objectKeys. rewrite map_to_list_singleton. reflexivity.
    + apply filter_NoDup, spreadSet_NoDup.
    + intros id. rewrite filter_elem_of, spreadSet_elem_of, Boolean_true. reflexivity.
Qed.

(** C7.  Switching the selection mode or the selection type clears every
    selection: no gauge, no domain code and no map entry is left. *)
Theorem switching_mode_clears_selections (st : Store) (mode : string) :
  (selectedGaugeIds (setSelectionBy mode st) = []
   ∧ selectedDomainCodes (setSelectionBy mode st) = []
   ∧ selectedDomainGaugeMap (setSelectionBy mode st) = ∅
   ∧ selectionBy (setSelectionBy mode st) = mode)
  ∧ (selectedGaugeIds (setSelectionType mode st) = []
     ∧ selectedDomainCodes (setSelectionType mode st) = []
     ∧ selectedDomainGaugeMap (setSelectionType mode st) = ∅
     ∧ selectionType (setSelectionType mode st) = mode).
Proof. repeat split. Qed.

Lemma derived_gauges_truthy (xs : list string) (id : string) :
  id ∈ spreadSet (List.filter Boolean xs) → id ≠ "".
Proof.
  rewrite spreadSet_elem_of, filter_elem_of, Boolean_true. tauto.
Qed.

Lemma perform_invariant (st : Store) (op : Operation) :
  selectionInvariant st → selectionInvariant (perform st op).
Proof.
  intros (Hg & Hgt & Hc & Hct & Hk).
  destruct op as [gaugeId|gaugeIds|domainCode gaugeIds| | | |mode|mode];
    cbn [perform].
  - unfold toggleGaugeSelection.
    destruct (Boolean gaugeId) eqn:Hb; cbn [negb];
      [|repeat split; assumption].
    apply Boolean_true in Hb.
    destruct (String.eqb (selectionType st) "Single").
    + repeat split; cbn; try assumption; [apply NoDup_singleton|].
      intros id Hin. apply list_elem_of_singleton in Hin. congruence.
    + unfold includes. case_bool_decide as Hin.
      * repeat split; cbn; try assumption; [apply filter_NoDup, Hg|].
        intros id Hid. apply filter_elem_of in Hid as [Hid _]. auto.
      * repeat split; cbn; try assumption.
        -- apply NoDup_app. split; [exact Hg|]. split; [|apply NoDup_singleton].
           intros x Hx Hx'. apply list_elem_of_singleton in Hx'. congruence.
        -- intros id Hid. apply elem_of_app in Hid as [Hid|Hid]; [auto|].
           apply list_elem_of_singleton in Hid. congruence.
  - repeat split; cbn; try assumption; [apply spreadSet_NoDup|].
    intros id. apply derived_gauges_truthy.
  - unfold toggleDomainSelection.
    destruct (Boolean domainCode) eqn:Hb; cbn [negb];
      [|repeat split; assumption].
    apply Boolean_true in Hb.
    destruct (String.eqb (selectionType st) "Single").
    + repeat split; cbn.
      * apply filter_NoDup, spreadSet_NoDup.
      * intros id Hid. apply filter_elem_of in Hid as [_ Hid].
        apply Boolean_true in Hid. exact Hid.
      * apply NoDup_singleton.
      * intros c Hin. apply list_elem_of_singleton in Hin. congruence.
      * intros k [v Hv]. apply lookup_singleton_Some in Hv as [<- _]. exact Hb.
    + set (nextMap := if hasTruthyProperty (selectedDomainGaugeMap st) domainCode
                      then delete domainCode (selectedDomainGaugeMap st)
                      else <[domainCode := List.filter Boolean (spreadSet gaugeIds)]>
                             (selectedDomainGaugeMap st)).
      assert (Hnext : ∀ k, is_Some (nextMap !! k) → k ≠ "").
      { intros k. unfold nextMap.
        destruct (hasTruthyProperty (selectedDomainGaugeMap st) domainCode).
        - intros [v Hv]. apply lookup_delete_Some in Hv as [_ Hv]. apply Hk. eauto.
        - intros [v Hv]. apply lookup_insert_Some in Hv as [[<- _]|[_ Hv]];
            [exact Hb|]. apply Hk. eauto. }
      repeat split; cbn.
      * apply spreadSet_NoDup.
      * intros id. apply derived_gauges_truthy.
      * apply objectKeys_NoDup.
      * intros c Hin. apply objectKeys_elem_of in Hin. auto.
      * exact Hnext.
  - repeat split; cbn; try assumption; [constructor|].
    intros id Hin. apply elem_of_nil in Hin. destruct Hin.
  - repeat split; cbn; try assumption; [constructor| |].
    + intros c Hin. apply elem_of_nil in Hin. destruct Hin.
    + intros k [v Hv]. rewrite lookup_empty in Hv. discriminate.
  - repeat split; cbn; [constructor| |constructor| |].
    + intros id Hin. apply elem_of_nil in Hin. destruct Hin.
    + intros c Hin. apply elem_of_nil in Hin. destruct Hin.
    + intros k [v Hv]. rewrite lookup_empty in Hv. discriminate.
  - repeat split; cbn; [constructor| |constructor| |].
    + intros id Hin. apply elem_of_nil in Hin. destruct Hin.
    + intros c Hin. apply elem_of_nil in Hin. destruct Hin.
    + intros k [v Hv]. rewrite lookup_empty in Hv. discriminate.
  - repeat split; cbn; [constructor| |constructor| |].
    + intros id Hin. apply elem_of_nil in Hin. destruct Hin.
    + intros c Hin. apply elem_of_nil in Hin. destruct Hin.
    + intros k [v Hv]. rewrite lookup_empty in Hv. discriminate.
Qed.

Lemma performAll_invariant (ops : list Operation) :
  ∀ st, selectionInvariant st → selectionInvariant (performAll st ops).
Proof.
  unfold performAll. induction ops as [|op ops IH]; intros st Hinv; [exact Hinv|].
  cbn [fold_left]. apply IH, perform_invariant, Hinv.
Qed.

Lemma initialStore_invariant : selectionInvariant initialStore.
Proof.
  repeat split; cbn; try constructor.
  - intros id Hin. apply elem_of_nil in Hin. destruct Hin.
  - intros c Hin. apply elem_of_nil in Hin. destruct Hin.
  - intros k [v Hv]. rewrite lookup_empty in Hv. discriminate.
Qed.

(** C8.  Whatever sequence of store operations is run from the initial
    store, the selected gauge identifiers and the selected domain codes hold
    no duplicate and no falsy (empty) entry. *)
Theorem selections_are_duplicate_free_and_truthy (ops : list Operation) :
  let st := performAll initialStore ops in
  NoDup (selectedGaugeIds st)
  ∧ NoDup (selectedDomainCodes st)
  ∧ Forall (fun id => Boolean id = true) (selectedGaugeIds st)
  ∧ Forall (fun c => Boolean c = true) (selectedDomainCodes st).
Proof.
  intros st.
  destruct (performAll_invariant ops initialStore initialStore_invariant)
    as (Hg & Hgt & Hc & Hct & _).
  fold st in Hg, Hgt, Hc, Hct.
  split; [exact Hg|]. split; [exact Hc|]. split.
  - apply Forall_forall. intros id Hin. apply Boolean_true, Hgt. exact Hin.
  - apply Forall_forall. intros c Hin. apply Boolean_true, Hct. exact Hin.
Qed.

(** *** Toggling twice *)


(** Likewise the entry of a domain that was already selected is replaced by
    the gauges of the call, not restored. *)
Lemma domain_toggle_twice_takes_gauges_from_the_call :
  let st := performAll initialStore
              [SetSelectionType "Multiple"; ToggleDomainSelection "d" ["g1"]] in
  selectedDomainGaugeMap st !! "d" = Some ["g1"]
  ∧ selectedDomainGaugeMap
      (toggleDomainSelection "d" ["g2"] (toggleDomainSelection "d" ["g2"] st)) !! "d"
    = Some ["g2"].
Proof. split; vm_compute; reflexivity. Qed.





End StoreFacts.

(** ** Watershed codes *)

Section CodeFacts.
Import Containment Watershed.

Lemma removeNonDigits_allDigits (s : string) : allDigits (removeNonDigits s) = true.
Proof.
  induction s as [|c s IH]; [reflexivity|].
  cbn [removeNonDigits]. destruct (isDigit c) eqn:Hc; [|exact IH].
  cbn [allDigits]. rewrite Hc, IH. reflexivity.
Qed.



Lemma normalizeHucCode_allDigits (v : JsValue) : allDigits (normalizeHucCode v) = true.
Proof. destruct v; cbn; try reflexivity; apply removeNonDigits_allDigits. Qed.


Lemma getProperty_In (properties : Properties) (key : string) (s : string) :
  getProperty properties key = JsString s → In (key, JsString s) properties.
Proof.
  unfold getProperty. destruct (List.find _ properties) as [[k v]|] eqn:Hfind; [|discriminate].
  cbn [snd]. intros ->. apply List.find_some in Hfind as [Hin Hk].
  cbn [fst] in Hk. apply String.eqb_eq in Hk. subst k. exact Hin.
Qed.

Lemma firstTruthy_In (properties : Properties) (candidates : list string) (v : JsValue) :
  firstTruthy properties candidates = Some v →
  ∃ key s, In key candidates ∧ v = JsString s ∧ s ≠ "" ∧ In (key, JsString s) properties.
Proof.
  induction candidates as [|key rest IH]; [discriminate|].
  cbn [firstTruthy]. destruct (truthy (getProperty properties key)) eqn:Ht.
  - intros [= <-]. destruct (getProperty properties key) as [| |s] eqn:Hget; try discriminate.
    exists key, s. split; [left; reflexivity|]. split; [reflexivity|].
    split; [|apply getProperty_In; exact Hget].
    cbn in Ht. intros ->. discriminate.
  - intros H. destruct (IH H) as (k & s & Hin & Hv & Hs & Hp).
    exists k, s. split; [right; exact Hin|]. auto.
Qed.

Lemma extractField_source (properties : Properties) (candidates : list string)
    (fuzzy : string → bool) :
  extractField properties candidates fuzzy = "N/A"
  ∨ ∃ key s, In (key, JsString s) properties
             ∧ extractField properties candidates fuzzy = s
             ∧ (In key candidates ∧ s ≠ "" ∨ fuzzy key = true).
Proof.
  unfold extractField.
  destruct (firstTruthy properties candidates) as [v|] eqn:Hfirst.
  - destruct (firstTruthy_In _ _ _ Hfirst) as (key & s & Hin & -> & Hs & Hp).
    right. exists key, s. split; [exact Hp|]. split; [reflexivity|]. left. auto.
  - destruct (List.find fuzzy (List.map fst properties)) as [fuzzyKey|] eqn:Hfind;
      [|left; reflexivity].
    apply List.find_some in Hfind as [_ Hfuzzy].
    destruct (getProperty properties fuzzyKey) as [| |s] eqn:Hget;
      [left; reflexivity|left; reflexivity|].
    right. exists fuzzyKey, s. split; [apply getProperty_In; exact Hget|].
    split; [reflexivity|]. right. exact Hfuzzy.
Qed.

Lemma extractField_no_key (properties : Properties) (candidates : list string)
    (fuzzy : string → bool) :
  (∀ key v, In (key, v) properties → In key candidates ∨ fuzzy key = true → truthy v = false) →
  (∀ key v, In (key, v) properties → fuzzy key = false) →
  extractField properties candidates fuzzy = "N/A".
Proof.
  intros Hfalsy Hnone. unfold extractField.
  destruct (firstTruthy properties candidates) as [v|] eqn:Hfirst.
  - destruct (firstTruthy_In _ _ _ Hfirst) as (key & s & Hin & -> & Hs & Hp).
    specialize (Hfalsy key (JsString s) Hp (or_introl Hin)). cbn in Hfalsy.
    destruct (String.eqb_spec s ""); [contradiction|discriminate].
  - destruct (List.find fuzzy (List.map fst properties)) as [fuzzyKey|] eqn:Hfind;
      [|reflexivity].
    apply List.find_some in Hfind as [Hin Hfuzzy].
    apply List.in_map_iff in Hin as ([k v] & Hk & Hin). cbn [fst] in Hk. subst k.
    rewrite (Hnone _ _ Hin) in Hfuzzy. discriminate.
Qed.

(** X4.  The code and the name [extractWatershedMetadata] reports are never
    made up: each is N/A or the text of one of the feature's own properties,
    found under a candidate key (then it is not empty) or under a key that
    passes the fuzzy test; and a feature none of whose keys passes the fuzzy
    test for codes, and none of whose candidate keys holds a truthy value,
    has the code N/A. *)
Theorem extracted_metadata_is_a_property_of_the_feature
    (properties : Properties) (level : nat) :
  let metadata := extractWatershedMetadata properties level in
  (code metadata = "N/A"
   ∨ ∃ key s, In (key, JsString s) properties ∧ code metadata = s
              ∧ (In key (codeCandidates level) ∧ s ≠ "" ∨ fuzzyCodeKeyTest key = true))
  ∧ (name metadata = "N/A"
     ∨ ∃ key s, In (key, JsString s) properties ∧ name metadata = s
                ∧ (s ≠ "" ∨ fuzzyNameKeyTest key = true))
  ∧ ((∀ key v, In (key, v) properties → In key (codeCandidates level) → truthy v = false) →
     (∀ key v, In (key, v) properties → fuzzyCodeKeyTest key = false) →
     code metadata = "N/A").
Proof.
  cbn zeta. unfold extractWatershedMetadata. cbn [code name].
  split; [apply extractField_source|]. split.
  - destruct (extractField_source properties
                [ "NAME"; "HU_" +:+ pretty level +:+ "_NAME";
                  "HUC" +:+ pretty level +:+ "_NAME"; "WBDNAME"; "name" ]
                fuzzyNameKeyTest) as [H|(key & s & Hp & Hs & Hk)].
    + left. exact H.
    + right. exists key, s. split; [exact Hp|]. split; [exact Hs|]. tauto.
  - intros Hfalsy Hnone. apply extractField_no_key; [|exact Hnone].
    intros key v Hin [Hc|Hf]; [apply (Hfalsy key v Hin Hc)|].
    rewrite (Hnone _ _ Hin) in Hf. discriminate.
Qed.

End CodeFacts.

(** ** Gauges of a HUC10 layer and the HUC10 click handler *)

Section GaugeLayerFacts.
Import Containment Watershed Streams Session StreamMap.



Lemma spreadSet_fixed (xs : list string) : NoDup xs → spreadSet xs = xs.
Proof.
  unfold spreadSet. change xs with ([] ++ xs) at 1 3. generalize (@nil string).
  induction xs as [|x xs IH]; intros acc Hnd; cbn [fold_left].
  - rewrite app_nil_r. reflexivity.
  - assert (Hx : x ∉ acc).
    { intros Hin. apply NoDup_app in Hnd as (_ & Hdisj & _).
      apply (Hdisj x Hin). left. }
    unfold setAdd at 2. unfold includes. rewrite bool_decide_eq_false_2 by exact Hx.
    rewrite (IH (acc ++ [x])).
    + rewrite <- app_assoc. reflexivity.
    + rewrite <- app_assoc. exact Hnd.
Qed.

Lemma filter_Boolean_fixed (xs : list string) :
  (∀ x, x ∈ xs → x ≠ "") → List.filter Boolean xs = xs.
Proof.
  induction xs as [|x xs IH]; intros H; [reflexivity|].
  cbn [List.filter].
  rewrite (proj2 (Boolean_true x)) by (apply H; left).
  rewrite IH; [reflexivity|]. intros y Hy. apply H. right. exact Hy.
Qed.

Lemma truthy_string (v : JsValue) :
  truthy v = true ↔ ∃ s, v = JsString s ∧ s ≠ "".
Proof.
  split.
  - destruct v as [| |s]; cbn; try discriminate.
    destruct (String.eqb_spec s ""); [discriminate|]. intros _. exists s. auto.
  - intros (s & -> & Hs). cbn. destruct (String.eqb_spec s ""); [contradiction|reflexivity].
Qed.

(** The loop of [getGaugeIdsInLayer]: it raises when [pointInGeometry]
    raises at a located gauge, and otherwise pushes the identifiers of the
    located gauges inside the geometry or the bounds. *)
Lemma collectGaugeIds_spec (layer : Huc10LayerView) :
  ∀ (gaugesLeft : list GaugeFeature) (acc : list string),
    match collectGaugeIds gaugesLeft layer acc with
    | Returns ids =>
        (∀ feature coords id,
            In feature gaugesLeft → locatedGauge feature coords id →
            pointInGeometry coords (layerGeometry layer) ≠ ThrowsTypeError)
        ∧ ∀ id, id ∈ ids
                ↔ id ∈ acc
                  ∨ ∃ feature coords,
                      In feature gaugesLeft ∧ locatedGauge feature coords id
                      ∧ (pointInGeometry coords (layerGeometry layer) = Returns true
                         ∨ withinBounds layer coords)
    | ThrowsTypeError =>
        ∃ feature coords id,
          In feature gaugesLeft ∧ locatedGauge feature coords id
          ∧ pointInGeometry coords (layerGeometry layer) = ThrowsTypeError
    end.
Proof.
  induction gaugesLeft as [|feature rest IH]; intros acc.
  - cbn [collectGaugeIds]. split; [intros f c id []|].
    intros id. split; [auto|]. intros [Hid|(f & c & [] & _)]. exact Hid.
  - cbn [collectGaugeIds].
    assert (Hskip : (∀ coords id, ¬ locatedGauge feature coords id) →
      match collectGaugeIds rest layer acc with
      | Returns ids =>
          (∀ f coords id,
              In f (feature :: rest) → locatedGauge f coords id →
              pointInGeometry coords (layerGeometry layer) ≠ ThrowsTypeError)
          ∧ ∀ id, id ∈ ids
                  ↔ id ∈ acc
                    ∨ ∃ f coords,
                        In f (feature :: rest) ∧ locatedGauge f coords id
                        ∧ (pointInGeometry coords (layerGeometry layer) = Returns true
                           ∨ withinBounds layer coords)
      | ThrowsTypeError =>
          ∃ f coords id,
            In f (feature :: rest) ∧ locatedGauge f coords id
            ∧ pointInGeometry coords (layerGeometry layer) = ThrowsTypeError
      end).
    { intros Hnot. specialize (IH acc).
      destruct (collectGaugeIds rest layer acc) as [ids|].
      - destruct IH as [Hsafe Hmem]. split.
        + intros f c id [<-|Hin] Hloc; [destruct (Hnot _ _ Hloc)|].
          exact (Hsafe f c id Hin Hloc).
        + intros id. rewrite Hmem.
          split; (intros [Hid|(f & c & Hin & Hloc & Hins)]; [left; exact Hid|right]).
          * exists f, c. split; [right; exact Hin|]. auto.
          * destruct Hin as [<-|Hin]; [destruct (Hnot _ _ Hloc)|].
            exists f, c. auto.
      - destruct IH as (f & c & id & Hin & Hloc & Hraise).
        exists f, c, id. split; [right; exact Hin|]. auto. }
    destruct (gaugeCoordinates feature) as [coords|] eqn:Hcoords.
    2:{ apply Hskip. intros c id (Hc & _). congruence. }
    destruct (length coords <? 2)%nat eqn:Hlen; cbn [orb].
    { apply Hskip. intros c id (Hc & Hl & _).
      apply Nat.ltb_lt in Hlen. replace c with coords in Hl by congruence. lia. }
    apply Nat.ltb_ge in Hlen.
    destruct (truthy (STREAM_ID feature)) eqn:Htruthy; cbn [negb].
    2:{ apply Hskip. intros c id (_ & _ & Hid & Hne).
        assert (truthy (STREAM_ID feature) = true)
          by (apply truthy_string; exists id; auto).
        congruence. }
    apply truthy_string in Htruthy as (gaugeId & Hid & Hne).
    assert (Hlocated : locatedGauge feature coords gaugeId) by (repeat split; auto).
    destruct (pointInGeometry coords (layerGeometry layer)) as [inGeometry|] eqn:Hpoint.
    2:{ exists feature, coords, gaugeId. split; [left; reflexivity|]. auto. }
    set (inside := inGeometry || _).
    assert (Hinside : inside = true
                      ↔ pointInGeometry coords (layerGeometry layer) = Returns true
                        ∨ withinBounds layer coords).
    { subst inside. rewrite Hpoint. unfold withinBounds. split.
      - intros Hor. apply orb_true_iff in Hor as [->|Hor]; [left; reflexivity|].
        right. destruct (boundsContain layer) as [contains|]; [|discriminate].
        exists contains. auto.
      - intros [[= ->]|(contains & Hb & Hc)]; [reflexivity|].
        rewrite Hb, Hc. apply orb_true_r. }
    specialize (IH (if inside then acc ++ [toString (STREAM_ID feature)] else acc)).
    destruct (collectGaugeIds rest layer _) as [ids|].
    + destruct IH as [Hsafe Hmem]. split.
      * intros f c id [<-|Hin] Hloc; [|exact (Hsafe f c id Hin Hloc)].
        destruct Hloc as (Hc & _). replace c with coords by congruence.
        rewrite Hpoint. discriminate.
      * intros id. rewrite Hmem. rewrite Hid. cbn [toString]. split.
        -- intros [Hacc|(f & c & Hin & Hloc & Hins)].
           ++ destruct inside eqn:Hi; [|left; exact Hacc].
              apply elem_of_app in Hacc as [Hacc|Hacc]; [left; exact Hacc|].
              apply list_elem_of_singleton in Hacc. subst id. right.
              exists feature, coords. split; [left; reflexivity|].
              split; [exact Hlocated|]. apply Hinside. reflexivity.
           ++ right. exists f, c. split; [right; exact Hin|]. auto.
        -- intros [Hacc|(f & c & [<-|Hin] & Hloc & Hins)].
           ++ left. destruct inside; [apply elem_of_app; left|]; exact Hacc.
           ++ left. destruct Hloc as (Hc & _ & Hi & _).
              assert (c = coords) by congruence. assert (id = gaugeId) by congruence.
              subst c id. apply Hinside in Hins. rewrite Hins.
              apply elem_of_app. right. left.
           ++ right. exists f, c. auto.
    + destruct IH as (f & c & id & Hin & Hloc & Hraise).
      exists f, c, id. split; [right; exact Hin|]. auto.
Qed.

Lemma getGaugeIdsInLayer_loaded (st : StreamsStore) (layer : Huc10LayerView) :
  getGaugeIdsInLayer st (Some layer)
  = match collectGaugeIds (loadedGauges st) layer [] with
    | Returns ids => Returns (spreadSet ids)
    | ThrowsTypeError => ThrowsTypeError
    end.
Proof.
  unfold getGaugeIdsInLayer, loadedGauges.
  destruct (gaugesGeoJson st) as [[[[|feature rest]|]]|]; reflexivity.
Qed.


Lemma getGaugeIdsInLayer_returns (st : StreamsStore) (layer : Huc10LayerView) :
  ¬ raisesAtAGauge st layer →
  ∃ ids, getGaugeIdsInLayer st (Some layer) = Returns ids
         ∧ NoDup ids
         ∧ ∀ id, id ∈ ids
                 ↔ ∃ feature coords,
                     In feature (loadedGauges st) ∧ locatedGauge feature coords id
                     ∧ (pointInGeometry coords (layerGeometry layer) = Returns true
                        ∨ withinBounds layer coords).
Proof.
  intros Hgeometry. rewrite getGaugeIdsInLayer_loaded.
  pose proof (collectGaugeIds_spec layer (loadedGauges st) []) as Hspec.
  destruct (collectGaugeIds (loadedGauges st) layer []) as [ids|];
    [|destruct (Hgeometry Hspec)].
  destruct Hspec as [_ Hmem].
  exists (spreadSet ids). split; [reflexivity|]. split; [apply spreadSet_NoDup|].
  intros id. rewrite spreadSet_elem_of, Hmem. split.
  - intros [Hid|Hid]; [inversion Hid|exact Hid].
  - intros Hid. right. exact Hid.
Qed.

(** Rings that are arrays of positions never make the test raise. *)
Lemma pointInGeometry_arrays_of_positions (coords : Position) (rings : list Ring) :
  pointInGeometry coords (Some (Polygon (List.map ringOf rings))) ≠ ThrowsTypeError.
Proof.
  cbn [pointInGeometry]. rewrite pointInPolygonRings_insidePolygon. discriminate.
Qed.

(** X5.  For a layer on whose geometry [pointInGeometry] raises at none of
    the loaded gauges that pass the guard, [getGaugeIdsInLayer] returns a
    list without duplicates that holds exactly the identifiers of the loaded
    gauges which have a position of at least two numbers and a non-empty
    STREAM_ID and lie inside the layer's geometry or inside the layer's
    bounds; a GeoJSON polygon whose rings are arrays of positions is such a
    geometry; without a layer it returns the empty list. *)
Theorem gauges_of_a_layer_lie_in_its_geometry_or_its_bounds
    (st : StreamsStore) (layer : Huc10LayerView)
    (Hgeometry : ¬ raisesAtAGauge st layer) :
  (∃ ids, getGaugeIdsInLayer st (Some layer) = Returns ids
          ∧ NoDup ids
          ∧ ∀ id, id ∈ ids
                  ↔ ∃ feature coords,
                      In feature (loadedGauges st) ∧ locatedGauge feature coords id
                      ∧ (pointInGeometry coords (layerGeometry layer) = Returns true
                         ∨ withinBounds layer coords))
  ∧ getGaugeIdsInLayer st None = Returns []
  ∧ (∀ (polygonLayer : Huc10LayerView) (rings : list Ring),
        layerGeometry polygonLayer = Some (Polygon (List.map ringOf rings)) →
        ¬ raisesAtAGauge st polygonLayer).
Proof.
  split; [apply getGaugeIdsInLayer_returns; exact Hgeometry|]. split.
  - unfold getGaugeIdsInLayer. destruct (gaugesGeoJson st) as [[[[|f r]|]]|]; reflexivity.
  - intros polygonLayer rings Hrings (f & c & id & _ & _ & Hraise).
    rewrite Hrings in Hraise. exact (pointInGeometry_arrays_of_positions c rings Hraise).
Qed.


(** X1.  A layer whose geometry is missing or has no type member, as an
    ArcGIS JSON polygon (rings, no type), is never matched by
    [pointInGeometry], whatever its rings: [getGaugeIdsInLayer] then selects
    by the layer's bounds alone, and nothing when the layer has no bounds. *)
Theorem untyped_geometry_selects_gauges_by_bounds_alone
    (st : StreamsStore) (layer : Huc10LayerView)
    (Huntyped : layerGeometry layer = None
                ∨ ∃ rings, layerGeometry layer = Some (OtherObject "" rings)) :
  ∃ ids, getGaugeIdsInLayer st (Some layer) = Returns ids
         ∧ (∀ id, id ∈ ids
                  ↔ ∃ feature coords,
                      In feature (loadedGauges st) ∧ locatedGauge feature coords id
                      ∧ withinBounds layer coords)
         ∧ (boundsContain layer = None → ids = []).
Proof.
  assert (Hfalse : ∀ coords, pointInGeometry coords (layerGeometry layer) = Returns false).
  { intros coords. destruct Huntyped as [->|[rings ->]]; reflexivity. }
  destruct (getGaugeIdsInLayer_returns st layer) as (ids & Hret & _ & Hmem).
  { intros (f & c & id & _ & _ & Hraise). rewrite Hfalse in Hraise. discriminate. }
  assert (Hmem' : ∀ id, id ∈ ids
                  ↔ ∃ feature coords,
                      In feature (loadedGauges st) ∧ locatedGauge feature coords id
                      ∧ withinBounds layer coords).
  { intros id. rewrite Hmem. split.
    - intros (f & c & Hin & Hloc & [H|H]); [rewrite Hfalse in H; discriminate|].
      exists f, c. auto.
    - intros (f & c & Hin & Hloc & H). exists f, c. auto. }
  exists ids. split; [exact Hret|]. split; [exact Hmem'|].
  intros Hnone. destruct ids as [|id ids]; [reflexivity|].
  destruct (proj1 (Hmem' id)) as (f & c & _ & _ & contains & Hb & _); [left|].
  congruence.
Qed.

End GaugeLayerFacts.

(** ** Domain selection: the gauges of the selected domains *)

Section DomainFacts.
Import Containment Watershed Streams Session StreamMap.

Lemma objectValues_elem_of (obj : gmap string (list string)) (ids : list string) :
  ids ∈ objectValues obj ↔ ∃ c, obj !! c = Some ids.
Proof.
  unfold objectValues. rewrite list_elem_of_fmap. split.
  - intros ([c v] & -> & Hin). exists c. apply elem_of_map_to_list in Hin. exact Hin.
  - intros [c Hc]. exists (c, ids). split; [reflexivity|].
    apply elem_of_map_to_list. exact Hc.
Qed.

Lemma derivedGaugeIds_elem_of (obj : gmap string (list string)) (g : string) :
  g ∈ derivedGaugeIds obj ↔ g ≠ "" ∧ ∃ c ids, obj !! c = Some ids ∧ g ∈ ids.
Proof.
  unfold derivedGaugeIds. rewrite spreadSet_elem_of, filter_elem_of, Boolean_true.
  rewrite list_elem_of_In, in_concat. split.
  - intros [(ids & Hids & Hg) Hne]. split; [exact Hne|].
    apply list_elem_of_In, objectValues_elem_of in Hids as [c Hc].
    exists c, ids. split; [exact Hc|]. apply list_elem_of_In. exact Hg.
  - intros [Hne (c & ids & Hc & Hg)]. split; [|exact Hne].
    exists ids. split; [|apply list_elem_of_In; exact Hg].
    apply list_elem_of_In, objectValues_elem_of. exists c. exact Hc.
Qed.

Lemma toggleDomain_not_single (st : Store) (domainCode : string) (gaugeIds : list string) :
  selectionType st ≠ "Single" →
  domainCode ≠ "" →
  let nextMap :=
    if hasTruthyProperty (selectedDomainGaugeMap st) domainCode
    then delete domainCode (selectedDomainGaugeMap st)
    else <[domainCode := List.filter Boolean (spreadSet gaugeIds)]>
           (selectedDomainGaugeMap st) in
  toggleDomainSelection domainCode gaugeIds st
  = {| selectedGaugeIds := derivedGaugeIds nextMap;
       selectedDomainCodes := objectKeys nextMap;
       selectedDomainGaugeMap := nextMap;
       selectionBy := selectionBy st; selectionType := selectionType st |}.
Proof.
  intros Htype Hcode. cbn zeta. unfold toggleDomainSelection.
  rewrite (proj2 (Boolean_true domainCode) Hcode). cbn [negb].
  destruct (String.eqb_spec (selectionType st) "Single"); [contradiction|].
  reflexivity.
Qed.

Lemma toggleDomain_derived (st : Store) (domainCode : string) (gaugeIds : list string) :
  domainCode ≠ "" → derivedFromMap (toggleDomainSelection domainCode gaugeIds st).
Proof.
  intros Hcode. destruct (String.eqb_spec (selectionType st) "Single") as [Hs|Hs].
  - unfold toggleDomainSelection.
    rewrite (proj2 (Boolean_true domainCode) Hcode). cbn [negb].
    rewrite Hs. cbn [String.eqb Ascii.eqb Bool.eqb].
    split; cbn [selectedDomainCodes selectedGaugeIds selectedDomainGaugeMap].
    + intros c. rewrite objectKeys_elem_of, list_elem_of_singleton.
      split.
      * intros ->. rewrite lookup_singleton_eq. eauto.
      * intros [v Hv]. apply lookup_singleton_Some in Hv as [-> _]. reflexivity.
    + intros g. rewrite derivedGaugeIds_elem_of, filter_elem_of, Boolean_true. split.
      * intros [Hg Hne]. split; [exact Hne|].
        exists domainCode, (List.filter Boolean (spreadSet gaugeIds)).
        split; [apply lookup_singleton_eq|].
        apply filter_elem_of. split; [exact Hg|apply Boolean_true, Hne].
      * intros [Hne (c & ids & Hc & Hg)].
        apply lookup_singleton_Some in Hc as [_ <-].
        apply filter_elem_of in Hg as [Hg _]. auto.
  - rewrite (toggleDomain_not_single st domainCode gaugeIds Hs Hcode).
    split; intros x; reflexivity.
Qed.

(** X7.  With a selection type other than Single, a domain toggle removes
    a selected domain or adds the domain with the gauges of the call, and
    the selected gauges are then exactly the non-empty identifiers held by
    the domains that remain selected: a gauge shared by two selected domains
    stays selected when one of them is deselected. *)
Theorem domain_toggle_selects_the_gauges_of_the_selected_domains
    (st : Store) (domainCode : string) (gaugeIds : list string)
    (Htype : selectionType st ≠ "Single")
    (Hcode : domainCode ≠ "") :
  let before := selectedDomainGaugeMap st in
  let st' := toggleDomainSelection domainCode gaugeIds st in
  (∀ g, g ∈ selectedGaugeIds st'
        ↔ g ≠ "" ∧ ∃ c ids, selectedDomainGaugeMap st' !! c = Some ids ∧ g ∈ ids)
  ∧ (∀ c, c ∈ selectedDomainCodes st' ↔ is_Some (selectedDomainGaugeMap st' !! c))
  ∧ (is_Some (before !! domainCode) →
     selectedDomainGaugeMap st' = delete domainCode before
     ∧ ∀ g, g ∈ selectedGaugeIds st'
            ↔ g ≠ "" ∧ ∃ c ids, c ≠ domainCode ∧ before !! c = Some ids ∧ g ∈ ids)
  ∧ (before !! domainCode = None →
     domainCode ∉ objectPrototypeKeys →
     selectedDomainGaugeMap st'
     = <[domainCode := List.filter Boolean (spreadSet gaugeIds)]> before
     ∧ ∀ g, g ∈ selectedGaugeIds st'
            ↔ g ≠ "" ∧ (g ∈ gaugeIds ∨ ∃ c ids, before !! c = Some ids ∧ g ∈ ids)).
Proof.
  cbn zeta. rewrite (toggleDomain_not_single st domainCode gaugeIds Htype Hcode).
  cbn [selectedGaugeIds selectedDomainCodes selectedDomainGaugeMap].
  split; [intros g; apply derivedGaugeIds_elem_of|].
  split; [intros c; apply objectKeys_elem_of|].
  split.
  - intros Hsome. unfold hasTruthyProperty.
    rewrite (bool_decide_eq_true_2 _ Hsome). cbn [orb].
    split; [reflexivity|]. intros g. rewrite derivedGaugeIds_elem_of.
    split; intros [Hne (c & ids & H)]; (split; [exact Hne|]); exists c, ids.
    + destruct H as [Hc Hg]. apply lookup_delete_Some in Hc as [Hc1 Hc2]. auto.
    + destruct H as (Hc1 & Hc2 & Hg). split; [|exact Hg].
      apply lookup_delete_Some. auto.
  - intros Hnone Hproto. unfold hasTruthyProperty, includes.
    rewrite bool_decide_eq_false_2 by (rewrite Hnone; intros [v [=]]).
    rewrite bool_decide_eq_false_2 by exact Hproto. cbn [orb].
    split; [reflexivity|]. intros g. rewrite derivedGaugeIds_elem_of.
    split.
    + intros [Hne (c & ids & Hc & Hg)]. split; [exact Hne|].
      apply lookup_insert_Some in Hc as [[_ <-]|[Hc1 Hc2]].
      * left. apply filter_elem_of in Hg as [Hg _].
        rewrite spreadSet_elem_of in Hg. exact Hg.
      * right. exists c, ids. auto.
    + intros [Hne [Hg|(c & ids & Hc & Hg)]]; (split; [exact Hne|]).
      * exists domainCode, (List.filter Boolean (spreadSet gaugeIds)).
        split; [apply lookup_insert_eq|].
        apply filter_elem_of. split; [apply spreadSet_elem_of, Hg|apply Boolean_true, Hne].
      * exists c, ids. split; [|exact Hg].
        apply lookup_insert_Some. right. split; [|exact Hc]. congruence.
Qed.

(** X8.  A click on a HUC10 layer in domain mode, when the layer's
    geometry does not raise ([pointInGeometry] raises at none of the loaded
    gauges that pass the guard), toggles the domain of the layer's code with the
    gauges of the layer, which the store keeps as they come (they hold no
    duplicate and no empty identifier, so the store's own filter changes
    nothing).  With selection type Single the domain and its gauges become
    the whole selection.  A layer whose code is empty changes nothing, and no
    part of the store other than the selection changes. *)
Theorem huc10_click_selects_the_domain_with_the_gauges_of_its_layer
    (st : StreamsStore) (layer : Huc10LayerView)
    (Hdomain : selectionBy (selection st) = "domain")
    (Hgeometry : ¬ raisesAtAGauge st layer) :
  let domainCode := code (extractWatershedMetadata (layerProperties layer) 10) in
  ∃ ids st',
    getGaugeIdsInLayer st (Some layer) = Returns ids
    ∧ onHuc10Click st layer = Returns st'
    ∧ st' = updateSelection (toggleDomainSelection domainCode ids) st
    ∧ List.filter Boolean (spreadSet ids) = ids
    ∧ (domainCode = "" → st' = st)
    ∧ (domainCode ≠ "" →
       selectionType (selection st) = "Single" →
       selectedDomainCodes (selection st') = [domainCode]
       ∧ selectedGaugeIds (selection st') = ids
       ∧ selectedDomainGaugeMap (selection st') = {[ domainCode := ids ]}).
Proof.
  cbn zeta.
  destruct (getGaugeIdsInLayer_returns st layer Hgeometry) as (ids & Hret & Hnd & Hmem).
  assert (Hfixed : List.filter Boolean (spreadSet ids) = ids).
  { rewrite (spreadSet_fixed ids Hnd). apply filter_Boolean_fixed.
    intros id Hid. apply Hmem in Hid as (f & c & _ & (_ & _ & _ & Hne) & _). exact Hne. }
  exists ids, (updateSelection
                 (toggleDomainSelection
                    (code (extractWatershedMetadata (layerProperties layer) 10)) ids) st).
  split; [exact Hret|]. split.
  { unfold onHuc10Click. rewrite Hdomain, Hret. reflexivity. }
  split; [reflexivity|]. split; [exact Hfixed|]. split.
  - intros Hempty. rewrite Hempty. unfold updateSelection, toggleDomainSelection.
    cbn [Boolean String.eqb negb]. destruct st; reflexivity.
  - intros Hcode Hsingle. unfold updateSelection. cbn [selection].
    unfold toggleDomainSelection.
    rewrite (proj2 (Boolean_true _) Hcode). cbn [negb].
    rewrite Hsingle. cbn [String.eqb Ascii.eqb Bool.eqb].
    cbn [selectedDomainCodes selectedGaugeIds selectedDomainGaugeMap].
    rewrite Hfixed. auto.
Qed.

Lemma JsValue_eq_dec (v w : JsValue) : v = w ∨ v ≠ w.
Proof.
  destruct v as [| |s], w as [| |t]; try (left; reflexivity); try (right; discriminate).
  destruct (String.eqb_spec s t) as [->|Hne]; [left; reflexivity|].
  right. intros [= H]. contradiction.
Qed.

Lemma includes_true (xs : list string) (x : string) : includes xs x = true ↔ x ∈ xs.
Proof. unfold includes. apply bool_decide_eq_true. Qed.

Lemma huc10Style_highlighted (st : StreamsStore) (layer : Huc10LayerView) :
  huc10Style st layer = Highlighted
  ↔ selectionBy (selection st) = "domain"
    ∧ normalizedCodeOf layer ≠ ""
    ∧ ∃ c, c ∈ selectedDomainCodes (selection st)
           ∧ normalizeHucCode (JsString c) = normalizedCodeOf layer.
Proof.
  unfold huc10Style. fold (normalizedCodeOf layer).
  destruct (String.eqb_spec (selectionBy (selection st)) "domain") as [Hd|Hd];
    cbn [andb].
  2:{ split; [discriminate|]. intros [H _]. contradiction. }
  destruct (Boolean (normalizedCodeOf layer)) eqn:Hb; cbn [andb].
  2:{ split; [discriminate|]. intros (_ & H & _).
      apply Boolean_true in H. congruence. }
  apply Boolean_true in Hb.
  destruct (includes _ (normalizedCodeOf layer)) eqn:Hi.
  - apply includes_true, spreadSet_elem_of, list_elem_of_In, List.in_map_iff in Hi
      as (c & Hc & Hin).
    split; [|reflexivity]. intros _. split; [exact Hd|]. split; [exact Hb|].
    exists c. split; [apply list_elem_of_In, Hin|exact Hc].
  - split; [discriminate|]. intros (_ & _ & c & Hin & Hc).
    assert (includes
              (spreadSet (List.map (fun code => normalizeHucCode (JsString code))
                            (selectedDomainCodes (selection st))))
              (normalizedCodeOf layer) = true).
    { apply includes_true, spreadSet_elem_of, list_elem_of_In, List.in_map_iff.
      exists c. split; [exact Hc|apply list_elem_of_In, Hin]. }
    congruence.
Qed.

(** X9.  [syncHuc10SelectionStyles] highlights a layer exactly when the
    store is in domain mode, the layer's normalised code is not empty and
    some selected domain code has the same normal form; outside domain mode
    nothing is highlighted.  Hence after a click on a HUC10 layer in domain
    mode with selection type Single, the layers highlighted are those whose
    normalised code is the clicked layer's, and a clicked layer whose code
    holds no digit (N/A) is selected without being highlighted. *)
Theorem highlighted_layers_bear_a_selected_code
    (st st' : StreamsStore) (clicked other : Huc10LayerView) :
  let domainCode := code (extractWatershedMetadata (layerProperties clicked) 10) in
  (huc10Style st other = Highlighted
   ↔ selectionBy (selection st) = "domain"
     ∧ normalizedCodeOf other ≠ ""
     ∧ ∃ c, c ∈ selectedDomainCodes (selection st)
            ∧ normalizeHucCode (JsString c) = normalizedCodeOf other)
  ∧ (selectionBy (selection st) ≠ "domain" →
     ∀ layers, syncHuc10SelectionStyles st (Some layers)
               = List.map (fun _ => Plain) layers)
  ∧ (selectionBy (selection st) = "domain" →
     selectionType (selection st) = "Single" →
     domainCode ≠ "" →
     onHuc10Click st clicked = Returns st' →
     selectedDomainCodes (selection st') = [domainCode]
     ∧ (huc10Style st' other = Highlighted
        ↔ normalizedCodeOf other ≠ ""
          ∧ normalizedCodeOf other = normalizedCodeOf clicked)
     ∧ (normalizedCodeOf clicked = "" → huc10Style st' clicked = Plain)).
Proof.
  cbn zeta. split; [apply huc10Style_highlighted|]. split.
  - intros Hmode layers. cbn [syncHuc10SelectionStyles].
    apply List.map_ext. intros l. destruct (huc10Style st l) eqn:Hs; [|reflexivity].
    apply huc10Style_highlighted in Hs as [H _]. contradiction.
  - intros Hdomain Hsingle Hcode Hclick.
    assert (Hst' : selectedDomainCodes (selection st')
                   = [code (extractWatershedMetadata (layerProperties clicked) 10)]
                   ∧ selectionBy (selection st') = "domain").
    { unfold onHuc10Click in Hclick. rewrite Hdomain in Hclick.
      set (domainCode := code _) in *.
      change ("domain" =? "domain")%string with true in Hclick. cbv iota in Hclick.
      destruct (getGaugeIdsInLayer st (Some clicked)) as [ids|]; [|discriminate].
      injection Hclick as <-. unfold updateSelection. cbn [selection].
      unfold toggleDomainSelection.
      rewrite (proj2 (Boolean_true _) Hcode). cbn [negb].
      rewrite Hsingle. cbn [String.eqb Ascii.eqb Bool.eqb].
      cbn [selectedDomainCodes selectionBy]. auto. }
    destruct Hst' as [Hcodes Hmode]. split; [exact Hcodes|].
    assert (Hiff : ∀ l, huc10Style st' l = Highlighted
                        ↔ normalizedCodeOf l ≠ ""
                          ∧ normalizedCodeOf l = normalizedCodeOf clicked).
    { intros l. rewrite huc10Style_highlighted, Hcodes. split.
      - intros (_ & Hne & c & Hin & Hc).
        apply list_elem_of_singleton in Hin. subst c. split; [exact Hne|].
        symmetry. exact Hc.
      - intros [Hne Heq]. split; [exact Hmode|]. split; [exact Hne|].
        eexists. split; [apply list_elem_of_singleton; reflexivity|].
        symmetry. exact Heq. }
    split; [apply Hiff|].
    intros Hempty. destruct (huc10Style st' clicked) eqn:Hs; [|reflexivity].
    apply Hiff in Hs as [Hne _]. contradiction.
Qed.

End DomainFacts.

(** ** The interface: what the handlers of the two components keep true *)

Section InterfaceFacts.
Import Containment Watershed Streams Session StreamMap Drawer Interface.

Lemma clearSession_selection (st : StreamsStore) :
  selection (clearSession st) = clearSelections (selection st).
Proof. reflexivity. Qed.

Lemma ensureValidSession_selection (st : StreamsStore) (now : Z) :
  selection (fst (ensureValidSession st now)) = selection st
  ∨ selection (fst (ensureValidSession st now)) = clearSelections (selection st).
Proof.
  unfold ensureValidSession.
  destruct (negb (Boolean (sessionToken st))); [left; reflexivity|].
  destruct (isSessionExpired st now); [right|left]; reflexivity.
Qed.

Lemma clearSelections_twice (sel : Store) :
  clearSelections (clearSelections sel) = clearSelections sel.
Proof. reflexivity. Qed.

Lemma fetchOptions_selection (st : StreamsStore) (response : Fetched Options) :
  selection (fst (fst (fetchOptions st response))) = selection st.
Proof. destruct response; reflexivity. Qed.

Lemma fetchGauges_selection (st : StreamsStore) (now maxFeatures : Z)
    (response : Fetched GaugeCollection) :
  selection (fst (fst (fetchGauges st now maxFeatures response))) = selection st
  ∨ selection (fst (fst (fetchGauges st now maxFeatures response)))
    = clearSelections (selection st).
Proof.
  unfold fetchGauges.
  destruct (negb (Boolean (sessionToken st))); [left; reflexivity|].
  pose proof (ensureValidSession_selection st now) as Hensure.
  destruct (ensureValidSession st now) as [st1 [error|]]; cbn [fst] in Hensure;
    [exact Hensure|].
  destruct response as [reason|reason|detail|data]; try exact Hensure.
  destruct (invalidToken detail); [|exact Hensure].
  change (clearSelections (selection st1) = selection st
          ∨ clearSelections (selection st1) = clearSelections (selection st)).
  destruct Hensure as [->| ->]; right; reflexivity.
Qed.

Lemma login_selection (st : StreamsStore) (now : Z) (username password : string)
    (response : Fetched LoginData) (optionsResponse : Fetched Options)
    (gaugesResponse : Fetched GaugeCollection) (first : bool) :
  let st' := fst (fst (login st now username password response optionsResponse
                         gaugesResponse first)) in
  selection st' = selection st ∨ selection st' = clearSelections (selection st).
Proof.
  cbn zeta. unfold login.
  destruct response as [reason|reason|detail|data]; try (left; reflexivity).
  set (st2 := setSessionExpiresAt _ _).
  pose proof (fetchOptions_selection st2 optionsResponse) as Hoptions.
  destruct (fetchOptions st2 optionsResponse) as [[st3 optionsOutcome] optionsRequests].
  cbn [fst] in Hoptions.
  pose proof (fetchGauges_selection st3 now 5000 gaugesResponse) as Hgauges.
  destruct (fetchGauges st3 now 5000 gaugesResponse)
    as [[st4 gaugesOutcome] gaugesRequests].
  cbn [fst] in Hgauges |- *. cbn [setLoadingLogin setLoading selection].
  rewrite Hoptions in Hgauges. exact Hgauges.
Qed.

Lemma logout_selection (st : StreamsStore) (delivered : bool) :
  selection (fst (logout st delivered)) = selection st
  ∨ selection (fst (logout st delivered)) = clearSelections (selection st).
Proof.
  unfold logout. destruct (negb (Boolean (sessionToken st))); [left|right]; reflexivity.
Qed.

Lemma downloadSelectedData_selection (st : StreamsStore) (now : Z)
    (startDate endDate : string) (waterQualityVariables otherDatasets : list string)
    (response : DownloadFetched) :
  let st' := fst (fst (downloadSelectedData st now startDate endDate
                         waterQualityVariables otherDatasets response)) in
  selection st' = selection st ∨ selection st' = clearSelections (selection st).
Proof.
  cbn zeta. unfold downloadSelectedData.
  pose proof (ensureValidSession_selection st now) as Hensure.
  destruct (ensureValidSession st now) as [st1 [error|]]; cbn [fst] in Hensure;
    [exact Hensure|].
  destruct (length (selectedGaugeIds (selection st1)) =? 0)%nat; [exact Hensure|].
  destruct response as [reason|[detail|]|reason|blob]; try exact Hensure.
  destruct (invalidToken detail); [|exact Hensure].
  change (clearSelections (selection st1) = selection st
          ∨ clearSelections (selection st1) = clearSelections (selection st)).
  destruct Hensure as [->| ->]; right; reflexivity.
Qed.

(** What one action does to the selection: nothing, a clearing, a change of
    mode or type, or a toggle in the mode the click belongs to. *)
Lemma act_selection (st : StreamsStore) (a : Action) :
  let sel := selection st in
  let sel' := selection (act st a) in
  sel' = sel
  ∨ (selectedGaugeIds sel' = [] ∧ selectedDomainCodes sel' = []
     ∧ selectedDomainGaugeMap sel' = ∅)
  ∨ (selectionBy sel = "gauge" ∧ ∃ id, sel' = toggleGaugeSelection id sel)
  ∨ (selectionBy sel = "domain" ∧ ∃ c ids, sel' = toggleDomainSelection c ids sel).
Proof.
  cbn zeta.
  assert (Hcleared : ∀ sel',
            sel' = selection st ∨ sel' = clearSelections (selection st) →
            sel' = selection st
            ∨ (selectedGaugeIds sel' = [] ∧ selectedDomainCodes sel' = []
               ∧ selectedDomainGaugeMap sel' = ∅)
            ∨ (selectionBy (selection st) = "gauge"
               ∧ ∃ id, sel' = toggleGaugeSelection id (selection st))
            ∨ (selectionBy (selection st) = "domain"
               ∧ ∃ c ids, sel' = toggleDomainSelection c ids (selection st))).
  { intros sel' [->| ->]; [left; reflexivity|right; left]. auto. }
  destruct a; cbn [act].
  - unfold onGaugeClick.
    destruct (String.eqb_spec (selectionBy (selection st)) "gauge") as [Hg|Hg];
      cbn [negb]; [|left; reflexivity].
    destruct (STREAM_ID feature) as [| |streamId]; try (left; reflexivity).
    right; right; left. split; [exact Hg|]. exists streamId. reflexivity.
  - unfold onHuc10Click.
    destruct (String.eqb_spec (selectionBy (selection st)) "domain") as [Hd|Hd];
      [|left; reflexivity].
    destruct (getGaugeIdsInLayer st (Some layer)) as [ids|]; [|left; reflexivity].
    right; right; right. split; [exact Hd|]. eexists _, ids. reflexivity.
  - right; left. auto.
  - right; left. auto.
  - right; left. auto.
  - left. reflexivity.
  - right; left. auto.
  - apply Hcleared, login_selection.
  - apply Hcleared, logout_selection.
  - apply Hcleared, downloadSelectedData_selection.
Qed.

Lemma toggleGaugeSelection_frame (id : string) (sel : Store) :
  let sel' := toggleGaugeSelection id sel in
  selectedDomainCodes sel' = selectedDomainCodes sel
  ∧ selectedDomainGaugeMap sel' = selectedDomainGaugeMap sel
  ∧ selectionBy sel' = selectionBy sel ∧ selectionType sel' = selectionType sel.
Proof.
  cbn zeta. unfold toggleGaugeSelection.
  destruct (negb (Boolean id)); [auto|].
  destruct (selectionType sel =? "Single")%string; [cbn; auto|].
  destruct (includes (selectedGaugeIds sel) id); cbn; auto.
Qed.

Lemma toggleDomainSelection_frame (c : string) (ids : list string) (sel : Store) :
  let sel' := toggleDomainSelection c ids sel in
  selectionBy sel' = selectionBy sel ∧ selectionType sel' = selectionType sel.
Proof.
  cbn zeta. unfold toggleDomainSelection.
  destruct (negb (Boolean c)); [auto|].
  destruct (selectionType sel =? "Single")%string; cbn; auto.
Qed.

Lemma objectKeys_empty : objectKeys ∅ = [].
Proof. unfold objectKeys. rewrite map_to_list_empty. reflexivity. Qed.

Lemma derivedGaugeIds_empty : derivedGaugeIds ∅ = [].
Proof. unfold derivedGaugeIds, objectValues. rewrite map_to_list_empty. reflexivity. Qed.

Lemma cleared_invariants (sel : Store) :
  selectedGaugeIds sel = [] → selectedDomainCodes sel = [] →
  selectedDomainGaugeMap sel = ∅ →
  selectionInvariant sel ∧ modesKeptApart sel ∧ singleHoldsAtMostOne sel.
Proof.
  intros Hg Hc Hm. split; [|split].
  - unfold selectionInvariant. rewrite Hg, Hc, Hm.
    split; [constructor|]. split; [intros id H; inversion H|].
    split; [constructor|]. split; [intros id H; inversion H|].
    intros k [v Hv]. rewrite lookup_empty in Hv. discriminate.
  - split; [auto|]. intros _. unfold derivedFromMap.
    rewrite Hg, Hc, Hm, objectKeys_empty, derivedGaugeIds_empty.
    split; intros x; reflexivity.
  - intros _. rewrite Hg, Hc. cbn. split; intros _; lia.
Qed.

Lemma act_invariants (st : StreamsStore) (a : Action) :
  selectionInvariant (selection st) ∧ modesKeptApart (selection st)
  ∧ singleHoldsAtMostOne (selection st) →
  selectionInvariant (selection (act st a)) ∧ modesKeptApart (selection (act st a))
  ∧ singleHoldsAtMostOne (selection (act st a)).
Proof.
  intros (Hinv & Hmodes & Hsingle).
  destruct (act_selection st a) as [->|[(Hg & Hc & Hm)|[(Hmode & id & ->)|(Hmode & c & ids & ->)]]].
  - auto.
  - apply cleared_invariants; assumption.
  - destruct (toggleGaugeSelection_frame id (selection st)) as (Fc & Fm & Fby & Fty).
    split; [apply (perform_invariant _ (ToggleGaugeSelection id)), Hinv|].
    assert (Hnot : selectionBy (selection st) ≠ "domain") by (rewrite Hmode; discriminate).
    split.
    + split.
      * intros _. rewrite Fc, Fm. apply Hmodes, Hnot.
      * rewrite Fby. intros H. contradiction.
    + intros Hty. rewrite Fty in Hty. split.
      * intros _. unfold toggleGaugeSelection.
        destruct (negb (Boolean id)); [apply (Hsingle Hty), Hnot|].
        rewrite Hty. cbn. lia.
      * rewrite Fby. intros H. contradiction.
  - destruct (toggleDomainSelection_frame c ids (selection st)) as (Fby & Fty).
    split; [apply (perform_invariant _ (ToggleDomainSelection c ids)), Hinv|].
    destruct (String.eqb_spec c "") as [->|Hc].
    { change (toggleDomainSelection "" ids (selection st)) with (selection st). auto. }
    split.
    + split.
      * rewrite Fby. intros H. contradiction.
      * intros _. apply toggleDomain_derived, Hc.
    + intros Hty. rewrite Fby. split; [intros H; contradiction|]. intros _.
      rewrite Fty in Hty. unfold toggleDomainSelection.
      rewrite (proj2 (Boolean_true c) Hc). cbn [negb]. rewrite Hty. cbn. lia.
Qed.

Lemma initialStore_invariants :
  selectionInvariant initialStore ∧ modesKeptApart initialStore
  ∧ singleHoldsAtMostOne initialStore.
Proof. apply cleared_invariants; reflexivity. Qed.

Lemma actAll_invariants (actions : list Action) :
  ∀ st,
    selectionInvariant (selection st) ∧ modesKeptApart (selection st)
    ∧ singleHoldsAtMostOne (selection st) →
    selectionInvariant (selection (actAll st actions))
    ∧ modesKeptApart (selection (actAll st actions))
    ∧ singleHoldsAtMostOne (selection (actAll st actions)).
Proof.
  induction actions as [|a actions IH]; intros st H; [exact H|].
  apply (IH (act st a)), act_invariants, H.
Qed.

(** X10.  Whatever the user does in the two components (clicks on gauges
    and HUC10 layers, the controls of the drawer, signing in and out,
    downloads, with any outcome of the requests), gauge selection and domain
    selection stay apart: outside domain mode no domain is selected; in
    domain mode the selected codes are the keys of the domain-gauge map and
    the selected gauges are exactly the non-empty identifiers of the gauges
    of the selected domains; and with selection type Single at most one gauge
    (outside domain mode) or one domain (in domain mode) is selected.  The
    selection lists never hold a duplicate or an empty identifier. *)
Theorem interface_keeps_gauge_and_domain_selection_apart (actions : list Action) :
  let sel := selection (actAll initialStreamsStore actions) in
  (NoDup (selectedGaugeIds sel) ∧ NoDup (selectedDomainCodes sel)
   ∧ (∀ id, id ∈ selectedGaugeIds sel → id ≠ "")
   ∧ (∀ c, c ∈ selectedDomainCodes sel → c ≠ ""))
  ∧ (selectionBy sel ≠ "domain" →
     selectedDomainCodes sel = [] ∧ selectedDomainGaugeMap sel = ∅)
  ∧ (selectionBy sel = "domain" →
     (∀ c, c ∈ selectedDomainCodes sel ↔ is_Some (selectedDomainGaugeMap sel !! c))
     ∧ (∀ g, g ∈ selectedGaugeIds sel
             ↔ g ≠ "" ∧ ∃ c ids, selectedDomainGaugeMap sel !! c = Some ids ∧ g ∈ ids))
  ∧ (selectionType sel = "Single" →
     (selectionBy sel ≠ "domain" → (length (selectedGaugeIds sel) <= 1)%nat)
     ∧ (selectionBy sel = "domain" → (length (selectedDomainCodes sel) <= 1)%nat)).
Proof.
  cbn zeta.
  destruct (actAll_invariants actions initialStreamsStore initialStore_invariants)
    as ((Hg & Hgt & Hc & Hct & _) & [Hgauge Hdomain] & Hsingle).
  split; [auto|]. split; [exact Hgauge|]. split; [|exact Hsingle].
  intros Hmode. destruct (Hdomain Hmode) as [Hcodes Hgauges]. split.
  - intros c. rewrite (Hcodes c). apply objectKeys_elem_of.
  - intros g. rewrite (Hgauges g). apply derivedGaugeIds_elem_of.
Qed.

End InterfaceFacts.

(** ** Gauge markers *)

Section GaugeClickFacts.
Import Containment Watershed Streams Session StreamMap.

Lemma gaugeMarkerSelected_true (st : StreamsStore) (feature : GaugeFeature) :
  gaugeMarkerSelected st feature = true
  ↔ ∃ id, STREAM_ID feature = JsString id ∧ id ∈ selectedGaugeIds (selection st).
Proof.
  unfold gaugeMarkerSelected, setHas. destruct (STREAM_ID feature) as [| |id].
  - split; [discriminate|intros (id & [=] & _)].
  - split; [discriminate|intros (id & [=] & _)].
  - rewrite includes_true, spreadSet_elem_of. split.
    + intros H. exists id. auto.
    + intros (id' & [= <-] & H). exact H.
Qed.

Lemma toggleGauge_elem_of (sel : Store) (gaugeId g : string) :
  selectionType sel ≠ "Single" → gaugeId ≠ "" →
  g ∈ selectedGaugeIds (toggleGaugeSelection gaugeId sel)
  ↔ (g ≠ gaugeId ∧ g ∈ selectedGaugeIds sel)
    ∨ (g = gaugeId ∧ gaugeId ∉ selectedGaugeIds sel).
Proof.
  intros Htype Hne. unfold toggleGaugeSelection.
  rewrite (proj2 (Boolean_true gaugeId) Hne). cbn [negb].
  destruct (String.eqb_spec (selectionType sel) "Single"); [contradiction|].
  destruct (includes (selectedGaugeIds sel) gaugeId) eqn:Hinc; cbn [selectedGaugeIds setGaugeIds].
  - apply includes_true in Hinc. rewrite filter_elem_of. split.
    + intros [Hg Hneq]. left. split; [|exact Hg].
      intros ->. rewrite String.eqb_refl in Hneq. discriminate.
    + intros [[Hneq Hg]|[-> Hnot]]; [|contradiction]. split; [exact Hg|].
      destruct (String.eqb_spec g gaugeId); [contradiction|reflexivity].
  - assert (Hnot : gaugeId ∉ selectedGaugeIds sel).
    { intros H. apply includes_true in H. congruence. }
    rewrite elem_of_app, list_elem_of_singleton. split.
    + intros [Hg| ->]; [left|right; auto]. split; [|exact Hg]. intros ->. contradiction.
    + intros [[_ Hg]|[-> _]]; auto.
Qed.

(** X21.  A click on the marker of a gauge acts only in gauge mode and
    only for a gauge with a non-empty STREAM_ID, and never touches the domain
    selection.  With selection type Single it makes that gauge the whole
    selection, and the markers drawn as selected are those bearing its
    STREAM_ID.  With another type it flips the marker of the gauge and leaves
    the other markers as they are, so that a second click restores every
    marker. *)
Theorem gauge_click_toggles_the_marker_of_the_gauge
    (st : StreamsStore) (feature : GaugeFeature) (gaugeId : string) :
  let st' := onGaugeClick st feature in
  (selectionBy (selection st) ≠ "gauge" → st' = st)
  ∧ (truthy (STREAM_ID feature) = false → st' = st)
  ∧ selectedDomainCodes (selection st') = selectedDomainCodes (selection st)
  ∧ selectedDomainGaugeMap (selection st') = selectedDomainGaugeMap (selection st)
  ∧ (selectionBy (selection st) = "gauge" →
     STREAM_ID feature = JsString gaugeId →
     gaugeId ≠ "" →
     (selectionType (selection st) = "Single" →
      selectedGaugeIds (selection st') = [gaugeId]
      ∧ ∀ other, gaugeMarkerSelected st' other = true
                 ↔ STREAM_ID other = JsString gaugeId)
     ∧ (selectionType (selection st) ≠ "Single" →
        gaugeMarkerSelected st' feature = negb (gaugeMarkerSelected st feature)
        ∧ (∀ other, STREAM_ID other ≠ JsString gaugeId →
                    gaugeMarkerSelected st' other = gaugeMarkerSelected st other)
        ∧ ∀ other, gaugeMarkerSelected (onGaugeClick st' feature) other
                   = gaugeMarkerSelected st other)).
Proof.
  cbn zeta.
  assert (Hframe : selectedDomainCodes (selection (onGaugeClick st feature))
                   = selectedDomainCodes (selection st)
                   ∧ selectedDomainGaugeMap (selection (onGaugeClick st feature))
                     = selectedDomainGaugeMap (selection st)
                   ∧ selectionBy (selection (onGaugeClick st feature))
                     = selectionBy (selection st)
                   ∧ selectionType (selection (onGaugeClick st feature))
                     = selectionType (selection st)).
  { unfold onGaugeClick. destruct (negb _); [auto|].
    destruct (STREAM_ID feature) as [| |id]; auto.
    apply (toggleGaugeSelection_frame id (selection st)). }
  split.
  { intros Hmode. unfold onGaugeClick.
    destruct (String.eqb_spec (selectionBy (selection st)) "gauge");
      [contradiction|reflexivity]. }
  split.
  { intros Hfalsy. unfold onGaugeClick. destruct (negb _); [reflexivity|].
    destruct (STREAM_ID feature) as [| |id]; try reflexivity.
    unfold updateSelection, toggleGaugeSelection.
    cbn in Hfalsy. unfold Boolean. rewrite Hfalsy. destruct st; reflexivity. }
  split; [apply Hframe|]. split; [apply Hframe|].
  intros Hmode Hid Hne.
  assert (Hclick : ∀ st0, selectionBy (selection st0) = "gauge" →
            selection (onGaugeClick st0 feature)
            = toggleGaugeSelection gaugeId (selection st0)).
  { intros st0 Hm. unfold onGaugeClick. rewrite Hm, Hid. reflexivity. }
  assert (Hbool : ∀ a b : bool, (a = true ↔ b = true) → a = b).
  { intros [] [] H; try reflexivity; [symmetry|]; apply H; reflexivity. }
  split.
  - intros Hsingle.
    assert (Hids : selectedGaugeIds (selection (onGaugeClick st feature)) = [gaugeId]).
    { rewrite (Hclick st Hmode). unfold toggleGaugeSelection.
      rewrite (proj2 (Boolean_true gaugeId) Hne), Hsingle. reflexivity. }
    split; [exact Hids|]. intros other. rewrite gaugeMarkerSelected_true, Hids. split.
    + intros (id & Ho & Hin). apply list_elem_of_singleton in Hin. congruence.
    + intros Ho. exists gaugeId. split; [exact Ho|]. apply list_elem_of_singleton. reflexivity.
  - intros Htype.
    assert (Hmark : ∀ st0 other,
              selectionBy (selection st0) = "gauge" →
              selectionType (selection st0) ≠ "Single" →
              gaugeMarkerSelected (onGaugeClick st0 feature) other = true
              ↔ (STREAM_ID other ≠ JsString gaugeId ∧ gaugeMarkerSelected st0 other = true)
                ∨ (STREAM_ID other = JsString gaugeId
                   ∧ gaugeMarkerSelected st0 other = false)).
    { intros st0 other Hm Ht. split.
      - intros H. apply gaugeMarkerSelected_true in H as (id & Ho & Hin).
        rewrite (Hclick st0 Hm) in Hin.
        apply (toggleGauge_elem_of _ _ _ Ht Hne) in Hin as [[Hneq Hin]|[-> Hnot]].
        + left. split; [congruence|]. apply gaugeMarkerSelected_true. eauto.
        + right. split; [exact Ho|].
          destruct (gaugeMarkerSelected st0 other) eqn:Hs; [|reflexivity].
          apply gaugeMarkerSelected_true in Hs as (id & Ho' & Hin).
          assert (id = gaugeId) by congruence. subst id. contradiction.
      - intros [[Hneq Hs]|[Ho Hs]]; apply gaugeMarkerSelected_true;
          rewrite (Hclick st0 Hm).
        + apply gaugeMarkerSelected_true in Hs as (id & Ho & Hin).
          exists id. split; [exact Ho|].
          apply (toggleGauge_elem_of _ _ _ Ht Hne). left. split; [congruence|exact Hin].
        + exists gaugeId. split; [exact Ho|].
          apply (toggleGauge_elem_of _ _ _ Ht Hne). right. split; [reflexivity|].
          intros Hin.
          assert (gaugeMarkerSelected st0 other = true)
            by (apply gaugeMarkerSelected_true; eauto).
          congruence. }
    destruct Hframe as (_ & _ & Hby & Hty).
    split; [|split].
    + apply Hbool. rewrite (Hmark st feature Hmode Htype). split.
      * intros [[H _]|[_ H]]; [contradiction|]. rewrite H. reflexivity.
      * intros H. right. split; [exact Hid|].
        destruct (gaugeMarkerSelected st feature); [discriminate|reflexivity].
    + intros other Ho. apply Hbool. rewrite (Hmark st other Hmode Htype). split.
      * intros [[_ H]|[H _]]; [exact H|contradiction].
      * intros H. left. auto.
    + intros other. apply Hbool.
      rewrite (Hmark (onGaugeClick st feature) other) by congruence.
      split.
      * intros [[Ho H]|[Ho H]].
        -- apply (Hmark st other Hmode Htype) in H as [[_ H]|[H _]];
             [exact H|contradiction].
        -- destruct (gaugeMarkerSelected st other) eqn:Hs; [reflexivity|].
           assert (gaugeMarkerSelected (onGaugeClick st feature) other = true)
             by (apply (Hmark st other Hmode Htype); right; auto).
           congruence.
      * intros H.
        destruct (JsValue_eq_dec (STREAM_ID other) (JsString gaugeId)) as [Ho|Ho].
        -- right. split; [exact Ho|].
           destruct (gaugeMarkerSelected (onGaugeClick st feature) other) eqn:Hs;
             [|reflexivity].
           apply (Hmark st other Hmode Htype) in Hs as [[Hn _]|[_ Hs]];
             [contradiction|congruence].
        -- left. split; [exact Ho|].
           apply (Hmark st other Hmode Htype). left. auto.
Qed.

End GaugeClickFacts.

(** ** Session, sign-in and download *)

Section SessionFacts.
Import Containment Watershed Streams Session StreamMap Drawer Interface.

Lemma ensureValidSession_signed_out (st : StreamsStore) (now : Z) :
  sessionToken st = "" →
  ensureValidSession st now
  = (st, Some (NewError "Please sign in before continuing.")).
Proof. intros H. unfold ensureValidSession. rewrite H. reflexivity. Qed.

Lemma ensureValidSession_expired (st : StreamsStore) (now : Z) :
  sessionToken st ≠ "" → isSessionExpired st now = true →
  ensureValidSession st now
  = (clearSession st,
     Some (NewError "Your STREAMS session has expired. Please sign in again.")).
Proof.
  intros Htoken Hexpired. unfold ensureValidSession.
  rewrite (proj2 (Boolean_true _) Htoken), Hexpired. reflexivity.
Qed.

Lemma ensureValidSession_live (st : StreamsStore) (now : Z) :
  sessionToken st ≠ "" → isSessionExpired st now = false →
  ensureValidSession st now = (st, None).
Proof.
  intros Htoken Hexpired. unfold ensureValidSession.
  rewrite (proj2 (Boolean_true _) Htoken), Hexpired. reflexivity.
Qed.

Lemma length_zero_iff (xs : list string) : (length xs =? 0)%nat = true ↔ xs = [].
Proof. destruct xs; cbn; split; congruence. Qed.

Section Download.
Variables (st : StreamsStore) (now : Z) (startDate endDate : string)
  (variables datasets : list string) (response : DownloadFetched).

Lemma download_signed_out :
  sessionToken st = "" →
  downloadSelectedData st now startDate endDate variables datasets
    response
  = (st, Rejects (NewError "Please sign in before continuing."), []).
Proof.
  intros H. unfold downloadSelectedData.
  rewrite (ensureValidSession_signed_out st now H). reflexivity.
Qed.

Lemma download_expired :
  sessionToken st ≠ "" → isSessionExpired st now = true →
  downloadSelectedData st now startDate endDate variables datasets
    response
  = (clearSession st,
     Rejects (NewError "Your STREAMS session has expired. Please sign in again."), []).
Proof.
  intros Ht He. unfold downloadSelectedData.
  rewrite (ensureValidSession_expired st now Ht He). reflexivity.
Qed.

Lemma download_without_gauge :
  sessionToken st ≠ "" → isSessionExpired st now = false →
  selectedGaugeIds (selection st) = [] →
  downloadSelectedData st now startDate endDate variables datasets
    response
  = (st, Rejects (NewError "Select at least one gauge before downloading."), []).
Proof.
  intros Ht He Hg. unfold downloadSelectedData.
  rewrite (ensureValidSession_live st now Ht He), Hg. reflexivity.
Qed.

Lemma download_sent :
  sessionToken st ≠ "" → isSessionExpired st now = false →
  selectedGaugeIds (selection st) ≠ [] →
  ∃ st' outcome,
    downloadSelectedData st now startDate endDate variables datasets
      response
    = (st', outcome,
       [PostDownload (sessionToken st)
          {| gauges := selectedGaugeIds (selection st);
             start_date := startDate +:+ "T00:00:00Z";
             end_date := endDate +:+ "T23:59:59Z";
             waterQualityVariables := variables;
             otherDatasets := datasets |}])
    ∧ loadingDownload (loading st') = false.
Proof.
  intros Ht He Hg. unfold downloadSelectedData.
  rewrite (ensureValidSession_live st now Ht He).
  destruct (length (selectedGaugeIds (selection st)) =? 0)%nat eqn:Hlen.
  { apply length_zero_iff in Hlen. contradiction. }
  destruct response as [reason|[detail|]|reason|blob]; eexists _, _;
    (split; [reflexivity|reflexivity]).
Qed.

End Download.

(** X11.  [downloadSelectedData] sends a request exactly when a token is
    stored, the session has not expired and a gauge is selected; the request
    then carries the token, the selected gauges and the two dates extended to
    the first and the last second of their day, and the download flag is
    down again when the call ends, whatever the response.  Without a token
    or without a gauge the call rejects and leaves the store as it is; with
    an expired session it clears the session, and with it the selection.  The
    Download button of the drawer is enabled only if a gauge is selected. *)
Theorem download_is_sent_for_a_live_session_with_gauges
    (st : StreamsStore) (now : Z) (d : DrawerState) (response : DownloadFetched) :
  let result :=
    downloadSelectedData st now (startDate d) (endDate d)
      (selectedWaterQuality d) (selectedDatasets d) response in
  let st' := fst (fst result) in
  let outcome := snd (fst result) in
  let requests := snd result in
  let live := sessionToken st ≠ "" ∧ isSessionExpired st now = false in
  (requests ≠ [] ↔ live ∧ selectedGaugeIds (selection st) ≠ [])
  ∧ (requests ≠ [] →
     requests
     = [PostDownload (sessionToken st)
          {| gauges := selectedGaugeIds (selection st);
             start_date := startDate d +:+ "T00:00:00Z";
             end_date := endDate d +:+ "T23:59:59Z";
             waterQualityVariables := selectedWaterQuality d;
             otherDatasets := selectedDatasets d |}]
     ∧ loadingDownload (loading st') = false)
  ∧ (sessionToken st = "" →
     st' = st ∧ outcome = Rejects (NewError "Please sign in before continuing."))
  ∧ (sessionToken st ≠ "" → isSessionExpired st now = true →
     st' = clearSession st
     ∧ outcome
       = Rejects (NewError "Your STREAMS session has expired. Please sign in again."))
  ∧ (live → selectedGaugeIds (selection st) = [] →
     st' = st
     ∧ outcome = Rejects (NewError "Select at least one gauge before downloading."))
  ∧ (canDownload d st = true → selectedGaugeIds (selection st) ≠ [])
  ∧ (canDownload d st = true → live → requests ≠ []).
Proof.
  cbn zeta.
  assert (Hcan : canDownload d st = true → selectedGaugeIds (selection st) ≠ []).
  { unfold canDownload. intros H.
    apply andb_true_iff in H as [H _]. apply andb_true_iff in H as [H _].
    apply andb_true_iff in H as [H _]. apply Nat.ltb_lt in H.
    intros Hnil. rewrite Hnil in H. cbn in H. lia. }
  assert (Hsent : sessionToken st ≠ "" → isSessionExpired st now = false →
            selectedGaugeIds (selection st) ≠ [] →
            snd (downloadSelectedData st now (startDate d) (endDate d)
                   (selectedWaterQuality d) (selectedDatasets d) response) ≠ []).
  { intros Ht He Hg.
    destruct (download_sent st now (startDate d) (endDate d) (selectedWaterQuality d)
                (selectedDatasets d) response Ht He Hg) as (st1 & o1 & -> & _).
    discriminate. }
  assert (Hunsent : snd (downloadSelectedData st now (startDate d) (endDate d)
                           (selectedWaterQuality d) (selectedDatasets d) response) ≠ [] →
            (sessionToken st ≠ "" ∧ isSessionExpired st now = false)
            ∧ selectedGaugeIds (selection st) ≠ []).
  { intros Hreq.
    destruct (String.eqb_spec (sessionToken st) "") as [Ht|Ht].
    { rewrite download_signed_out in Hreq by exact Ht. destruct (Hreq eq_refl). }
    destruct (isSessionExpired st now) eqn:He.
    { rewrite download_expired in Hreq by assumption. destruct (Hreq eq_refl). }
    split; [auto|]. intros Hg.
    rewrite download_without_gauge in Hreq by assumption. destruct (Hreq eq_refl). }
  split; [split; [exact Hunsent|intros [[Ht He] Hg]; auto]|].
  split.
  { intros Hreq. destruct (Hunsent Hreq) as [[Ht He] Hg].
    destruct (download_sent st now (startDate d) (endDate d) (selectedWaterQuality d)
                (selectedDatasets d) response Ht He Hg) as (st1 & o1 & -> & Hflag).
    auto. }
  split; [intros Ht; rewrite download_signed_out by exact Ht; auto|].
  split; [intros Ht He; rewrite download_expired by assumption; auto|].
  split; [intros [Ht He] Hg; rewrite download_without_gauge by assumption; auto|].
  split; [exact Hcan|].
  intros Hc [Ht He]. auto.
Qed.

(** X12.  A response that refuses the session token (detail Invalid or
    expired STREAMS session token.) clears the session and the selection in
    both calls that read it, but reports differently: [fetchGauges] rejects
    with the request to sign in again, whereas in [downloadSelectedData] that
    error is thrown inside the [try] whose [catch] discards it, so the call
    rejects with the detail of the response, which is what the drawer
    shows. *)
Theorem refused_token_clears_the_session_and_download_reports_the_detail
    (st : StreamsStore) (now : Z) (maxFeatures : Z) (d : DrawerState)
    (Htoken : sessionToken st ≠ "")
    (Hlive : isSessionExpired st now = false) :
  let refusal := JsString "Invalid or expired STREAMS session token." in
  let fetched := fetchGauges st now maxFeatures (NotOk refusal) in
  let downloaded := onDownload d st now (DownloadNotOk (Some refusal)) in
  (sessionToken (fst (fst fetched)) = ""
   ∧ gaugesGeoJson (fst (fst fetched)) = None
   ∧ selection (fst (fst fetched)) = clearSelections (selection st)
   ∧ loadingGauges (loading (fst (fst fetched))) = false
   ∧ snd (fst fetched)
     = Rejects (NewError "Your STREAMS session expired. Please sign in again."))
  ∧ (selectedGaugeIds (selection st) ≠ [] →
     sessionToken (fst (fst downloaded)) = ""
     ∧ gaugesGeoJson (fst (fst downloaded)) = None
     ∧ selection (fst (fst downloaded)) = clearSelections (selection st)
     ∧ loadingDownload (loading (fst (fst downloaded))) = false
     ∧ snd downloaded
       = inr {| alertTitle := "STREAMS Download Error";
                alertText := "Error: Invalid or expired STREAMS session token.";
                alertType := "error" |}).
Proof.
  cbn zeta. split.
  - unfold fetchGauges.
    rewrite (proj2 (Boolean_true _) Htoken). cbn [negb].
    rewrite (ensureValidSession_live st now Htoken Hlive). cbn. auto.
  - intros Hsome. unfold onDownload, downloadSelectedData.
    rewrite (ensureValidSession_live st now Htoken Hlive).
    destruct (length (selectedGaugeIds (selection st)) =? 0)%nat eqn:Hlen.
    { apply length_zero_iff in Hlen. contradiction. }
    cbn. auto.
Qed.

Lemma fetchOptions_frame (st : StreamsStore) (response : Fetched Options) :
  let st' := fst (fst (fetchOptions st response)) in
  sessionToken st' = sessionToken st
  ∧ sessionExpiresAt st' = sessionExpiresAt st
  ∧ gaugesGeoJson st' = gaugesGeoJson st
  ∧ loadingLogin (loading st') = loadingLogin (loading st)
  ∧ loadingOptions (loading st') = false
  ∧ snd (fetchOptions st response) = [GetOptions]
  ∧ (snd (fst (fetchOptions st response)) = Fulfils tt ↔ ∃ data, response = Ok data)
  ∧ (∀ data, response = Ok data → options st' = data).
Proof.
  destruct response as [reason|reason|detail|data]; cbn;
    repeat (split; [reflexivity|]);
    (split; [split; [try discriminate; eauto|intros [x [=]]; reflexivity]
            |intros x [=]; subst; reflexivity]).
Qed.

Lemma fetchGauges_live (st : StreamsStore) (now maxFeatures : Z)
    (response : Fetched GaugeCollection) :
  sessionToken st ≠ "" → isSessionExpired st now = false →
  (∀ detail, response = NotOk detail → invalidToken detail = false) →
  let st' := fst (fst (fetchGauges st now maxFeatures response)) in
  sessionToken st' = sessionToken st
  ∧ sessionExpiresAt st' = sessionExpiresAt st
  ∧ options st' = options st
  ∧ loadingLogin (loading st') = loadingLogin (loading st)
  ∧ loadingGauges (loading st') = false
  ∧ snd (fetchGauges st now maxFeatures response)
    = [GetGauges maxFeatures (sessionToken st)]
  ∧ ((∃ value, snd (fst (fetchGauges st now maxFeatures response)) = Fulfils value)
     ↔ ∃ data, response = Ok data)
  ∧ (∀ data, response = Ok data → gaugesGeoJson st' = Some data).
Proof.
  intros Htoken Hlive Hrefused. unfold fetchGauges.
  rewrite (proj2 (Boolean_true _) Htoken). cbn [negb].
  rewrite (ensureValidSession_live st now Htoken Hlive).
  destruct response as [reason|reason|detail|data];
    try rewrite (Hrefused detail eq_refl); cbn;
    repeat (split; [reflexivity|]);
    (split; [split; [intros [x [=]]; eauto|intros [x [=]]; eauto]
            |intros x [=]; subst; reflexivity]).
Qed.

Lemma login_fulfils (st : StreamsStore) (now : Z) (username password : string)
    (response : Fetched LoginData) (optionsResponse : Fetched Options)
    (gaugesResponse : Fetched GaugeCollection) (first : bool) (value : LoginData) :
  snd (fst (login st now username password response optionsResponse gaugesResponse
              first)) = Fulfils value →
  response = Ok value.
Proof.
  unfold login. destruct response as [reason|reason|detail|data]; try discriminate.
  destruct (fetchOptions _ optionsResponse) as [[st3 o3] r3].
  destruct (fetchGauges st3 now 5000 gaugesResponse) as [[st4 o4] r4].
  cbn [fst snd]. destruct (promiseAll o3 o4 r4 first); [|discriminate].
  intros [= ->]. reflexivity.
Qed.

Lemma login_outcome
    (st : StreamsStore) (now : Z) (username password : string)
    (response : Fetched LoginData) (optionsResponse : Fetched Options)
    (gaugesResponse : Fetched GaugeCollection) (first : bool) :
  let result := login st now username password response optionsResponse
                  gaugesResponse first in
  let st' := fst (fst result) in
  let outcome := snd (fst result) in
  let requests := snd result in
  loadingLogin (loading st') = false
  ∧ ((∀ data, response ≠ Ok data) →
     st' = setLoadingLogin st false
     ∧ requests = [PostLogin username password]
     ∧ ∃ error, outcome = Rejects error)
  ∧ (∀ data,
       response = Ok data →
       session_token data ≠ "" →
       isSessionExpired (setSessionExpiresAt st (expires_at data)) now = false →
       (∀ detail, gaugesResponse = NotOk detail → invalidToken detail = false) →
       sessionToken st' = session_token data
       ∧ sessionExpiresAt st' = expires_at data
       ∧ requests = [PostLogin username password; GetOptions;
                     GetGauges 5000 (session_token data)]
       ∧ (outcome = Fulfils data
          ↔ ∃ optionsData gaugesData,
              optionsResponse = Ok optionsData ∧ gaugesResponse = Ok gaugesData)
       ∧ (∀ optionsData gaugesData,
            optionsResponse = Ok optionsData → gaugesResponse = Ok gaugesData →
            options st' = optionsData ∧ gaugesGeoJson st' = Some gaugesData)).
Proof.
  cbn zeta. split; [|split].
  - unfold login. destruct response as [reason|reason|detail|data]; try reflexivity.
    destruct (fetchOptions _ optionsResponse) as [[st3 o3] r3].
    destruct (fetchGauges st3 now 5000 gaugesResponse) as [[st4 o4] r4]. reflexivity.
  - intros Hnot. unfold login.
    destruct response as [reason|reason|detail|data]; cbn [fst snd];
      try (split; [destruct st as [? ? ? ? ? ? []]; reflexivity|split; [reflexivity|eauto]]).
    destruct (Hnot data eq_refl).
  - intros data -> Htoken Hlive Hrefused. unfold login.
    set (st2 := setSessionExpiresAt _ _).
    assert (Ht2 : sessionToken st2 = session_token data) by reflexivity.
    assert (He2 : sessionExpiresAt st2 = expires_at data) by reflexivity.
    destruct (fetchOptions_frame st2 optionsResponse)
      as (Ft & Fe & Fg & Fl & Fo & Freq & Fok & Fdata).
    destruct (fetchOptions st2 optionsResponse) as [[st3 o3] r3].
    cbn [fst snd] in Ft, Fe, Fg, Fl, Fo, Freq, Fok, Fdata.
    destruct (fetchGauges_live st3 now 5000 gaugesResponse)
      as (Gt & Ge & Go & Gl & Gg & Greq & Gok & Gdata).
    { rewrite Ft, Ht2. exact Htoken. }
    { unfold isSessionExpired in *. rewrite Fe, He2. exact Hlive. }
    { exact Hrefused. }
    destruct (fetchGauges st3 now 5000 gaugesResponse) as [[st4 o4] r4].
    cbn [fst snd] in Gt, Ge, Go, Gl, Gg, Greq, Gok, Gdata |- *.
    cbn [setLoadingLogin setLoading sessionToken sessionExpiresAt options gaugesGeoJson].
    split; [congruence|]. split; [congruence|].
    split; [rewrite Freq, Greq, Ft, Ht2; reflexivity|].
    split.
    + split.
      * intros Hfulfils.
        destruct o3 as [[]|e3]; destruct o4 as [v4|e4]; cbn [promiseAll] in Hfulfils;
          try discriminate.
        -- destruct (proj1 Fok eq_refl) as [od Hod].
           destruct (proj1 Gok (ex_intro _ v4 eq_refl)) as [gd Hgd]. eauto.
        -- destruct r4; [discriminate|]. destruct first; discriminate.
      * intros (od & gd & Hod & Hgd).
        rewrite (proj2 Fok (ex_intro _ od Hod)).
        destruct (proj2 Gok (ex_intro _ gd Hgd)) as [v4 ->]. reflexivity.
    + intros od gd Hod Hgd. split.
      * rewrite Go. apply Fdata, Hod.
      * apply Gdata, Hgd.
Qed.

(** X13.  [login] stores the token and its expiry as soon as the login
    response is ok, before the options and the gauges are loaded.  It
    fulfils exactly when both loads succeed; when one of them fails, the call
    rejects although the store is signed in, and the drawer shows a login
    error and keeps the password, whereas after a sign-in that fulfils it
    wipes the password.  When the login request itself fails, nothing but
    the login flag is touched and no further request is sent.  The login flag
    is down when the call ends. *)
Theorem sign_in_stores_the_token_before_loading
    (st : StreamsStore) (now : Z) (d : DrawerState)
    (response : Fetched LoginData) (optionsResponse : Fetched Options)
    (gaugesResponse : Fetched GaugeCollection) (first : bool) :
  let result := login st now (username d) (password d) response optionsResponse
                  gaugesResponse first in
  let st' := fst (fst result) in
  let outcome := snd (fst result) in
  let requests := snd result in
  let shown := onLogin d st now response optionsResponse gaugesResponse first in
  let bothLoaded :=
    ∃ optionsData gaugesData,
      optionsResponse = Ok optionsData ∧ gaugesResponse = Ok gaugesData in
  loadingLogin (loading st') = false
  ∧ snd (fst shown) = st'
  ∧ ((∀ data, response ≠ Ok data) →
     st' = setLoadingLogin st false
     ∧ requests = [PostLogin (username d) (password d)]
     ∧ (∃ error, outcome = Rejects error)
     ∧ fst (fst shown) = d
     ∧ alertTitle (snd shown) = "STREAMS Login Error")
  ∧ (∀ data,
       response = Ok data →
       session_token data ≠ "" →
       isSessionExpired (setSessionExpiresAt st (expires_at data)) now = false →
       (∀ detail, gaugesResponse = NotOk detail → invalidToken detail = false) →
       sessionToken st' = session_token data
       ∧ sessionExpiresAt st' = expires_at data
       ∧ requests = [PostLogin (username d) (password d); GetOptions;
                     GetGauges 5000 (session_token data)]
       ∧ (outcome = Fulfils data ↔ bothLoaded)
       ∧ (∀ optionsData gaugesData,
            optionsResponse = Ok optionsData → gaugesResponse = Ok gaugesData →
            options st' = optionsData ∧ gaugesGeoJson st' = Some gaugesData)
       ∧ (bothLoaded →
          password (fst (fst shown)) = "" ∧ username (fst (fst shown)) = username d
          ∧ alertText (snd shown) = "Signed in and gauges loaded.")
       ∧ (¬ bothLoaded →
          fst (fst shown) = d ∧ alertTitle (snd shown) = "STREAMS Login Error")).
Proof.
  cbn zeta.
  destruct (login_outcome st now (username d) (password d) response optionsResponse
              gaugesResponse first) as (Hflag & Hfailed & Hok).
  pose proof (login_fulfils st now (username d) (password d) response optionsResponse
                gaugesResponse first) as Hvalue.
  unfold onLogin.
  destruct (login st now (username d) (password d) response optionsResponse
              gaugesResponse first) as [[st1 outcome] requests].
  cbn [fst snd] in Hflag, Hfailed, Hok, Hvalue |- *.
  split; [exact Hflag|]. split; [destruct outcome; reflexivity|]. split.
  - intros Hnot. destruct (Hfailed Hnot) as (Hst & Hreq & error & ->).
    cbn [fst snd alertTitle]. eauto 10.
  - intros data Hdata Htoken Hlive Hrefused.
    destruct (Hok data Hdata Htoken Hlive Hrefused) as (Ht & He & Hreq & Hiff & Hloaded).
    split; [exact Ht|]. split; [exact He|]. split; [exact Hreq|].
    split; [exact Hiff|]. split; [exact Hloaded|]. split.
    + intros Hboth. apply Hiff in Hboth. rewrite Hboth. cbn. auto.
    + intros Hnot. destruct outcome as [value|error]; [|cbn; auto].
      exfalso. apply Hnot, Hiff.
      specialize (Hvalue value eq_refl). congruence.
Qed.

(** X14.  [logout] without a token does nothing and sends nothing.  With
    a token it sends one request and, whether or not the request gets
    through, clears the session: token, expiry, gauges and every selected
    gauge and domain are gone (mode, type and options stay), no gauge
    feature counts as selected and a HUC10 layer holds no gauge any more,
    and a later download or gauge load sends no request. *)
Theorem signing_out_clears_the_session_and_the_selection
    (st : StreamsStore) (delivered : bool) (now : Z) (d : DrawerState)
    (maxFeatures : Z) (response : DownloadFetched)
    (gaugesResponse : Fetched GaugeCollection) (layer : option Huc10LayerView) :
  let st' := fst (logout st delivered) in
  (sessionToken st = "" → logout st delivered = (st, []))
  ∧ (sessionToken st ≠ "" →
     snd (logout st delivered) = [PostLogout (sessionToken st)]
     ∧ st' = clearSession st)
  ∧ (sessionToken st ≠ "" →
     sessionToken st' = "" ∧ sessionExpiresAt st' = NoExpiry ∧ gaugesGeoJson st' = None
     ∧ selectedGaugeIds (selection st') = []
     ∧ selectedDomainCodes (selection st') = []
     ∧ selectedDomainGaugeMap (selection st') = ∅
     ∧ selectionBy (selection st') = selectionBy (selection st)
     ∧ selectionType (selection st') = selectionType (selection st)
     ∧ options st' = options st
     ∧ selectedGaugeFeatures st' = []
     ∧ getGaugeIdsInLayer st' layer = Returns []
     ∧ snd (downloadSelectedData st' now (startDate d) (endDate d)
              (selectedWaterQuality d) (selectedDatasets d) response) = []
     ∧ fetchGauges st' now maxFeatures gaugesResponse = (st', Fulfils None, [])).
Proof.
  cbn zeta. unfold logout.
  destruct (String.eqb_spec (sessionToken st) "") as [Htoken|Htoken].
  - rewrite Htoken. cbn. split; [reflexivity|]. split; intros H; destruct (H eq_refl).
  - rewrite (proj2 (Boolean_true _) Htoken). cbn [negb fst snd].
    split; [intros H; contradiction|]. split; [auto|]. intros _.
    repeat split; destruct layer; reflexivity.
Qed.

End SessionFacts.

(** ** Resolver and click handler: what stays true over any run *)

Section RunFacts.
Import Containment Watershed.
Context {geoJsonLayer : Leaflet}.

Lemma orderedFieldCandidates_candidates (s : MapState) :
  huc10DetectedField s = "" ∨ In (huc10DetectedField s) fieldCandidates →
  ∀ f, In f (orderedFieldCandidates s) → In f fieldCandidates.
Proof.
  intros Hdet f. unfold orderedFieldCandidates.
  destruct (String.eqb_spec (huc10DetectedField s) "") as [He|He]; cbn [negb]; [auto|].
  destruct Hdet as [Hd|Hd]; [contradiction|].
  intros [<-|Hin]; [exact Hd|]. apply List.filter_In in Hin as [Hin _]. exact Hin.
Qed.

Lemma tryNext_invariant (n : string) (g : Geometry) (fields : list string)
    (q : Query) (k : Awaiting) :
  n ≠ "" ∨ fields = [] →
  allDigits n = true →
  (∀ f, In f fields → In f fieldCandidates) →
  tryNext n g fields = Await q k →
  allDigits (awaitingCode k) = true
  ∧ match k with
    | AwaitWhere normalizedCode _ field rest =>
        normalizedCode ≠ "" ∧ ∀ f, In f (field :: rest) → In f fieldCandidates
    | AwaitIntersects _ _ => True
    end.
Proof.
  intros Hn Hd Hf. destruct fields as [|field rest]; cbn [tryNext]; intros [= _ <-];
    cbn [awaitingCode]; (split; [exact Hd|]); [exact I|].
  split; [|exact Hf]. destruct Hn as [Hn|Hn]; [exact Hn|discriminate].
Qed.

Lemma tryNext_not_done (n : string) (g : Geometry) (fields : list string) :
  (∀ c, tryNext n g fields ≠ Return c) ∧ (∀ e, tryNext n g fields ≠ Throw e).
Proof. destruct fields; split; discriminate. Qed.

Lemma continueHandler_invariant (s : MapState) (rid : Z) (huc6Code : string)
    (p : Progress) :
  resolverInvariant s →
  (∀ q k, p = Await q k →
          allDigits (awaitingCode k) = true
          ∧ match k with
            | AwaitWhere normalizedCode _ field rest =>
                normalizedCode ≠ "" ∧ ∀ f, In f (field :: rest) → In f fieldCandidates
            | AwaitIntersects _ _ => True
            end) →
  resolverInvariant (fst (continueHandler s rid huc6Code p)).
Proof.
  intros (Hdet & Hsus & Hcache) Hp.
  pose proof (continueHandler_frame s rid huc6Code p) as F. cbn zeta in F.
  destruct F as (_ & _ & Fc & Fd & _ & Fs).
  unfold resolverInvariant. rewrite Fc, Fd, Fs.
  split; [exact Hdet|]. split; [|exact Hcache].
  destruct p as [c|e|q k]; [exact Hsus..|].
  intros h Hin. apply in_app_or in Hin as [Hin|[<-|[]]]; [exact (Hsus h Hin)|].
  cbn [awaiting]. exact (Hp q k eq_refl).
Qed.

Lemma handle_resolverInvariant (s : MapState) (ev : Event) :
  resolverInvariant s → resolverInvariant (fst (handle s ev)).
Proof.
  intros Hinv. pose proof Hinv as (Hdet & Hsus & Hcache).
  destruct ev as [[feature|]|rid answer|newName]; cbn [handle]; [| exact Hinv | |].
  - unfold onHuc6Click.
    destruct (leaflet s); [|exact Hinv].
    destruct (geometry feature) as [g|]; [|exact Hinv].
    apply continueHandler_invariant; [exact Hinv|].
    intros q k. unfold queryHuc10ByHuc6.
    set (n := normalizeHucCode (JsString (code (extractWatershedMetadata (properties feature) 6)))).
    assert (Hn : allDigits n = true) by apply normalizeHucCode_allDigits.
    destruct (String.eqb_spec n "") as [He|He]; cbn [negb].
    + apply tryNext_invariant; [right; reflexivity|exact Hn|intros f []].
    + destruct (huc10QueryCache _ !! n); [discriminate|].
      apply tryNext_invariant; [left; exact He|exact Hn|].
      apply orderedFieldCandidates_candidates. exact Hdet.
  - unfold onServiceReply.
    destruct (List.find _ (suspended s)) as [h0|] eqn:Hfind; [|exact Hinv].
    apply List.find_some in Hfind as [Hin0 _].
    destruct (Hsus h0 Hin0) as [Hd0 Hk0].
    set (s0 := setSuspended s _).
    assert (Hinv0 : resolverInvariant s0).
    { split; [exact Hdet|]. split; [|exact Hcache].
      intros h Hin. apply List.filter_In in Hin as [Hin _]. exact (Hsus h Hin). }
    destruct (awaiting h0) as [n g field rest|n g] eqn:Hk; cbn [awaitingCode] in Hd0.
    + destruct Hk0 as [Hn Hfields].
      assert (Hnext : ∀ q k, tryNext n g rest = Await q k →
                allDigits (awaitingCode k) = true
                ∧ match k with
                  | AwaitWhere normalizedCode _ field rest =>
                      normalizedCode ≠ ""
                      ∧ ∀ f, In f (field :: rest) → In f fieldCandidates
                  | AwaitIntersects _ _ => True
                  end).
      { intros q k. apply tryNext_invariant; [left; exact Hn|exact Hd0|].
        intros f Hf. apply Hfields. right. exact Hf. }
      cbn [resumeQueryHuc10ByHuc6].
      destruct answer as [collection|error].
      * destruct (negb (length (features collection) =? 0)%nat).
        -- apply continueHandler_invariant; [|discriminate].
           split; [right; apply Hfields; left; reflexivity|].
           split; [exact (proj1 (proj2 Hinv0))|].
           intros k Hk'. cbn [setCache huc10QueryCache setDetectedField] in Hk'.
           destruct (String.eqb_spec k n) as [->|Hne]; [auto|].
           rewrite lookup_insert_ne in Hk' by congruence. apply Hcache, Hk'.
        -- apply continueHandler_invariant; [exact Hinv0|exact Hnext].
      * apply continueHandler_invariant; [exact Hinv0|exact Hnext].
    + cbn [resumeQueryHuc10ByHuc6].
      destruct answer as [collection|error].
      * apply continueHandler_invariant; [|discriminate].
        destruct (String.eqb_spec n "") as [He|He]; cbn [negb]; [exact Hinv0|].
        split; [exact Hdet|]. split; [exact (proj1 (proj2 Hinv0))|].
        intros k Hk'. cbn [setCache huc10QueryCache] in Hk'.
        destruct (String.eqb_spec k n) as [->|Hne]; [auto|].
        rewrite lookup_insert_ne in Hk' by congruence. apply Hcache, Hk'.
      * apply continueHandler_invariant; [exact Hinv0|discriminate].
  - cbn [fst]. unfold onRouteChange. destruct (negb _); exact Hinv.
Qed.

Lemma run_resolverInvariant (evs : list Event) :
  ∀ s, resolverInvariant s → resolverInvariant (fst (run s evs)).
Proof.
  induction evs as [|ev evs IH]; intros s H; [exact H|].
  rewrite run_cons. apply IH, handle_resolverInvariant, H.
Qed.

Lemma initialState_resolverInvariant (route : string) :
  resolverInvariant (initialState route).
Proof.
  split; [left; reflexivity|]. split; [intros h []|].
  intros k [v Hv]. cbn in Hv. rewrite lookup_empty in Hv. discriminate.
Qed.

(** X15.  Whatever is clicked and answered, the detected field is empty or
    one of the seven candidate fields, every key of the result cache is a
    non-empty string of digits, and every call waiting for a where-query
    carries a non-empty code and asks for a candidate field. *)
Theorem resolver_state_stays_sound (route : string) (evs : list Event) :
  let s := fst (run (initialState route) evs) in
  (huc10DetectedField s = "" ∨ In (huc10DetectedField s) fieldCandidates)
  ∧ (∀ k, is_Some (huc10QueryCache s !! k) → k ≠ "" ∧ allDigits k = true)
  ∧ (∀ h normalizedCode g field rest,
        In h (suspended s) →
        awaiting h = AwaitWhere normalizedCode g field rest →
        normalizedCode ≠ "" ∧ allDigits normalizedCode = true
        ∧ In field fieldCandidates).
Proof.
  cbn zeta.
  destruct (run_resolverInvariant evs _ (initialState_resolverInvariant route))
    as (Hdet & Hsus & Hcache).
  split; [exact Hdet|]. split; [exact Hcache|].
  intros h n g field rest Hin Hk. destruct (Hsus h Hin) as [Hd Hm].
  rewrite Hk in Hd, Hm. cbn [awaitingCode] in Hd. destruct Hm as [Hn Hf].
  split; [exact Hn|]. split; [exact Hd|]. apply Hf. left. reflexivity.
Qed.

Lemma settle_done (fuel : nat) (svc : Service) (s : MapState) :
  (∀ c, settle fuel svc s (Return c) = Some (s, Resolved c, []))
  ∧ (∀ e, settle fuel svc s (Throw e) = Some (s, Rejected e, [])).
Proof. destruct fuel; split; reflexivity. Qed.

(** A call started at any list of fields ends, and has then sent the first
    queries of the list. *)
Lemma settle_total (svc : Service) (n : string) (g : Geometry) :
  ∀ (fields : list string) (s : MapState) (fuel : nat),
    length fields < fuel →
    ∃ s' reply sent post,
      settle fuel svc s (tryNext n g fields) = Some (s', reply, sent)
      ∧ (sent ++ post)%list = queriesInOrder n g fields.
Proof.
  unfold queriesInOrder.
  induction fields as [|field rest IH]; intros s fuel Hfuel.
  - destruct fuel as [|fuel]; [cbn in Hfuel; lia|].
    cbn [tryNext settle answerQuery runHuc10IntersectsQuery resumeQueryHuc10ByHuc6].
    destruct (answerIntersects svc g) as [collection|error];
      [rewrite (proj1 (settle_done fuel svc _))|rewrite (proj2 (settle_done fuel svc _))];
      eexists _, _, _, []; (split; [reflexivity|reflexivity]).
  - destruct fuel as [|fuel]; [cbn in Hfuel; lia|]. cbn [length] in Hfuel.
    cbn [tryNext settle resumeQueryHuc10ByHuc6].
    assert (Hrest : ∀ s0,
              ∃ s' reply sent post,
                match settle fuel svc s0 (tryNext n g rest) with
                | Some (s2, r, sent0) =>
                    Some (s2, r, runHuc10WhereQuery field n :: sent0)
                | None => None
                end = Some (s', reply, sent)
                ∧ (sent ++ post)%list
                  = List.map (whereQueryFor n) (field :: rest) ++ [IntersectsQuery g]).
    { intros s0. destruct (IH s0 fuel) as (s' & reply & sent & post & -> & Hpost); [lia|].
      exists s', reply, (runHuc10WhereQuery field n :: sent), post.
      split; [reflexivity|]. cbn [List.map app]. rewrite Hpost. reflexivity. }
    destruct (answerQuery svc (runHuc10WhereQuery field n)) as [collection|error];
      [|apply Hrest].
    destruct (negb (length (features collection) =? 0)%nat); [|apply Hrest].
    rewrite (proj1 (settle_done fuel svc _)).
    eexists _, _, _, (List.map (whereQueryFor n) rest ++ [IntersectsQuery g]).
    split; [reflexivity|reflexivity].
Qed.

Lemma length_append (a b : string) :
  String.length (a +:+ b) = String.length a + String.length b.
Proof. induction a as [|c a IH]; [reflexivity|]. simpl. rewrite IH. reflexivity. Qed.

Lemma append_cancel_r (a b x : string) : a +:+ x = b +:+ x → a = b.
Proof.
  revert b. induction a as [|c a IH]; intros [|c' b] H; simpl in H.
  - reflexivity.
  - exfalso. apply (f_equal String.length) in H.
    rewrite !length_append in H. simpl in H. rewrite ?length_append in H. lia.
  - exfalso. apply (f_equal String.length) in H.
    rewrite !length_append in H. simpl in H. rewrite ?length_append in H. lia.
  - injection H as -> H. rewrite (IH b H). reflexivity.
Qed.

Lemma queriesInOrder_NoDup (n : string) (g : Geometry) (fields : list string) :
  NoDup fields → NoDup (queriesInOrder n g fields).
Proof.
  unfold queriesInOrder. intros Hnd. apply NoDup_app. split; [|split].
  - induction Hnd as [|f fs Hf Hnd IH]; [constructor|]. cbn [List.map].
    constructor; [|exact IH]. intros Hin. apply Hf.
    apply list_elem_of_In, List.in_map_iff in Hin as (f' & Heq & Hin).
    unfold whereQueryFor, runHuc10WhereQuery in Heq. injection Heq as Heq.
    apply append_cancel_r in Heq. subst f'. apply list_elem_of_In. exact Hin.
  - intros q Hq Hq'. apply list_elem_of_singleton in Hq'. subst q.
    apply list_elem_of_In, List.in_map_iff in Hq as (f & Heq & _). discriminate.
  - apply NoDup_singleton.
Qed.

Lemma orderedFieldCandidates_sound (s : MapState) :
  huc10DetectedField s = "" ∨ In (huc10DetectedField s) fieldCandidates →
  length (orderedFieldCandidates s) = 7 ∧ NoDup (orderedFieldCandidates s).
Proof.
  unfold orderedFieldCandidates.
  intros [->|Hin];
    [split; [reflexivity|]; apply (bool_decide_unpack _); vm_compute; exact I|].
  cbn in Hin.
  destruct Hin as [<-|[<-|[<-|[<-|[<-|[<-|[<-|[]]]]]]]];
    (split; [reflexivity|]); apply (bool_decide_unpack _); vm_compute; exact I.
Qed.

(** X16.  In every state a run can reach, a call of [queryHuc10ByHuc6]
    on its own ends for every service and every code, after at most eight
    remote queries, all different, each of them the where-query of one of
    the seven ordered candidate fields or the intersection query. *)
Theorem a_call_ends_within_eight_distinct_queries
    (route : string) (evs : list Event) (svc : Service)
    (huc6Geometry : Geometry) (huc6Code : string) :
  let s := fst (run (initialState route) evs) in
  let normalizedCode := normalizeHucCode (JsString huc6Code) in
  length (orderedFieldCandidates s) = 7
  ∧ ∃ s' reply sent,
      queryHuc10ByHuc6Alone svc s huc6Geometry huc6Code = Some (s', reply, sent)
      ∧ length sent <= 8
      ∧ NoDup sent
      ∧ ∀ q, In q sent →
             In q (queriesInOrder normalizedCode huc6Geometry (orderedFieldCandidates s)).
Proof.
  cbn zeta. set (s := fst (run (initialState route) evs)).
  set (n := normalizeHucCode (JsString huc6Code)).
  destruct (run_resolverInvariant evs _ (initialState_resolverInvariant route))
    as (Hdet & _ & _). fold s in Hdet.
  destruct (orderedFieldCandidates_sound s Hdet) as [Hlen Hnd].
  split; [exact Hlen|].
  unfold queryHuc10ByHuc6Alone, queryHuc10ByHuc6. fold n.
  assert (Hgo : ∀ fields, length fields <= 7 → NoDup fields →
            ∃ s' reply sent,
              settle (length fieldCandidates + 2) svc s (tryNext n huc6Geometry fields)
              = Some (s', reply, sent)
              ∧ length sent <= 8 ∧ NoDup sent
              ∧ ∀ q, In q sent → In q (queriesInOrder n huc6Geometry fields)).
  { intros fields Hl Hn.
    destruct (settle_total svc n huc6Geometry fields s (length fieldCandidates + 2))
      as (s' & reply & sent & post & Hrun & Hpost); [cbn; lia|].
    exists s', reply, sent. split; [exact Hrun|].
    pose proof (queriesInOrder_NoDup n huc6Geometry fields Hn) as Hall.
    rewrite <- Hpost in Hall. apply NoDup_app in Hall as (Hsent & _ & _).
    assert (Hlength : length (sent ++ post) = length fields + 1).
    { rewrite Hpost. unfold queriesInOrder.
      rewrite length_app, length_map. reflexivity. }
    rewrite length_app in Hlength.
    split; [lia|]. split; [exact Hsent|].
    intros q Hq. rewrite <- Hpost. apply in_or_app. left. exact Hq. }
  destruct (String.eqb_spec n "") as [He|He]; cbn [negb].
  - destruct (Hgo []) as (s' & reply & sent & Hrun & Hl & Hn & Hin);
      [cbn; lia|constructor|].
    exists s', reply, sent. split; [exact Hrun|]. split; [exact Hl|].
    split; [exact Hn|]. intros q Hq. specialize (Hin q Hq).
    unfold queriesInOrder in *. cbn [List.map app] in Hin.
    apply in_or_app. right. exact Hin.
  - destruct (huc10QueryCache s !! n) as [cached|].
    + exists s, (Resolved cached), []. split; [reflexivity|]. split; [cbn; lia|].
      split; [constructor|]. intros q [].
    + destruct (Hgo (orderedFieldCandidates s))
        as (s' & reply & sent & Hrun & Hl & Hn & Hin); [lia|exact Hnd|].
      exists s', reply, sent. auto.
Qed.

Lemma onQueryResolved_off_route (s : MapState) (rid : Z) (huc6Code : string)
    (fc : FeatureCollection) :
  isStreamRoute s = false → onQueryResolved s rid huc6Code fc = s.
Proof.
  intros H. unfold onQueryResolved. rewrite H. rewrite orb_true_r. reflexivity.
Qed.

Lemma continueHandler_layer (s : MapState) (rid : Z) (huc6Code : string) (p : Progress) :
  (isStreamRoute s = false → huc10Layer s = []) →
  let s' := fst (continueHandler s rid huc6Code p) in
  isStreamRoute s' = false → huc10Layer s' = [].
Proof.
  intros Hinv. cbn zeta.
  pose proof (continueHandler_frame s rid huc6Code p) as F. cbn zeta in F.
  destruct F as (_ & Fr & _). unfold isStreamRoute in *. rewrite Fr. intros Hoff.
  destruct p as [c|e|q k]; cbn [continueHandler fst].
  - rewrite onQueryResolved_off_route by exact Hoff. apply Hinv, Hoff.
  - apply Hinv, Hoff.
  - apply Hinv, Hoff.
Qed.

Lemma handle_layer_off_route (s : MapState) (ev : Event) :
  (isStreamRoute s = false → huc10Layer s = []) →
  isStreamRoute (fst (handle s ev)) = false → huc10Layer (fst (handle s ev)) = [].
Proof.
  intros Hinv.
  destruct ev as [[feature|]|rid answer|newName]; cbn [handle]; [| exact Hinv | |].
  - unfold onHuc6Click.
    destruct (leaflet s); [|exact Hinv].
    destruct (geometry feature) as [g|]; [|exact Hinv].
    apply continueHandler_layer. exact Hinv.
  - unfold onServiceReply.
    destruct (List.find _ (suspended s)) as [h0|]; [|exact Hinv].
    pose proof (resume_frame
                  (setSuspended s (List.filter (fun h' => negb (requestId h' =? rid)%Z)
                                     (suspended s)))
                  (awaiting h0) answer) as F.
    cbn zeta in F.
    destruct (resumeQueryHuc10ByHuc6 _ (awaiting h0) answer) as [s1 p].
    cbn [fst] in F. destruct F as (_ & Fr & _ & Fl & _).
    apply continueHandler_layer. unfold isStreamRoute. rewrite Fr, Fl. exact Hinv.
  - cbn [fst]. unfold onRouteChange.
    destruct (negb (isStreamRoute (setRoute s newName))) eqn:Hoff; [reflexivity|].
    intros H. apply negb_false_iff in Hoff. congruence.
Qed.

(** X17.  HUC10 features are shown on the stream route only: in every
    state a run can reach, the HUC10 layer is empty unless the route is the
    stream route (results that arrive on another route are dropped, and
    leaving the stream route empties the layer). *)
Theorem huc10_features_are_shown_on_the_stream_route_only
    (route : string) (evs : list Event) :
  let s := fst (run (initialState route) evs) in
  routeName s ≠ "stream" → huc10Layer s = [].
Proof.
  cbn zeta. intros Hroute.
  assert (Hrun : ∀ evs s, (isStreamRoute s = false → huc10Layer s = []) →
            isStreamRoute (fst (run s evs)) = false → huc10Layer (fst (run s evs)) = []).
  { clear. induction evs as [|ev evs IH]; intros s H; [exact H|].
    rewrite run_cons. apply IH, handle_layer_off_route, H. }
  apply (Hrun evs (initialState route)); [reflexivity|].
  unfold isStreamRoute. destruct (String.eqb_spec (routeName (fst (run (initialState route) evs))) "stream");
    [contradiction|reflexivity].
Qed.

Lemma onQueryResolved_alerts (s : MapState) (rid : Z) (huc6Code : string)
    (fc : FeatureCollection) :
  let s' := onQueryResolved s rid huc6Code fc in
  (rid = huc10QueryRequestId s → isStreamRoute s = true → features fc ≠ [] →
   huc10Layer s' = drawn (addData (strictlyNested huc6Code fc))
   ∧ alerts s'
     = alerts s ++ match raised (addData (strictlyNested huc6Code fc)) with
                   | Some error => ["Could not load HUC10 subwatersheds: " +:+ error]
                   | None => []
                   end)
  ∧ (¬ (rid = huc10QueryRequestId s ∧ isStreamRoute s = true ∧ features fc ≠ []) →
     alerts s' = alerts s).
Proof.
  cbn zeta. unfold onQueryResolved. split.
  - intros -> -> Hne. rewrite Z.eqb_refl. cbn [negb orb].
    destruct (features fc) as [|f l]; [contradiction|]. cbn [length Nat.eqb negb].
    cbn [setLayer huc10Layer app].
    destruct (raised (addData _)) as [error|]; cbn.
    + split; reflexivity.
    + rewrite app_nil_r. split; reflexivity.
  - intros Hnot.
    destruct (Z.eqb_spec rid (huc10QueryRequestId s)) as [Hrid|Hrid]; [|reflexivity].
    destruct (isStreamRoute s) eqn:Hroute; [|reflexivity]. cbn [negb orb].
    destruct (features fc) as [|f l]; [reflexivity|].
    destruct Hnot. split; [exact Hrid|]. split; [reflexivity|discriminate].
Qed.

(** How one turn comes to an end: with nothing done that shows, or with
    the click handler continued after its call. *)
Lemma handle_continues (s : MapState) (ev : Event) :
  (snd (handle s ev) = [] ∧ alerts (fst (handle s ev)) = alerts s)
  ∨ ∃ s0 rid huc6Code p,
      handle s ev = continueHandler s0 rid huc6Code p
      ∧ alerts s0 = alerts s ∧ huc10Layer s0 = huc10Layer s
      ∧ (∀ error, p = Throw error →
           ∃ h normalizedCode g,
             ev = ServiceReply rid (Rejected error) ∧ handlerFor s rid = Some h
             ∧ awaiting h = AwaitIntersects normalizedCode g)
      ∧ (∀ error h normalizedCode g field rest,
           ev = ServiceReply rid (Rejected error) → handlerFor s rid = Some h →
           awaiting h = AwaitWhere normalizedCode g field rest →
           ∃ q k, p = Await q k).
Proof.
  destruct ev as [[feature|]|rid answer|newName]; cbn [handle].
  - unfold onHuc6Click.
    destruct (leaflet s); [|left; split; reflexivity].
    destruct (geometry feature) as [g|]; [|left; split; reflexivity].
    right. eexists _, _, _, _. split; [reflexivity|].
    split; [reflexivity|]. split; [reflexivity|]. split.
    + intros error Hthrow. exfalso. revert Hthrow. unfold queryHuc10ByHuc6.
      destruct (negb _); [destruct (huc10QueryCache _ !! _); [discriminate|]|];
        apply tryNext_not_done.
    + intros error h n g0 field rest [=].
  - left. split; reflexivity.
  - unfold onServiceReply, handlerFor.
    destruct (List.find (fun h => (requestId h =? rid)%Z) (suspended s))
      as [h0|] eqn:Hfind; [|left; split; reflexivity].
    right.
    pose proof (resume_frame
                  (setSuspended s (List.filter (fun h' => negb (requestId h' =? rid)%Z)
                                     (suspended s)))
                  (awaiting h0) answer) as F.
    cbn zeta in F.
    destruct (resumeQueryHuc10ByHuc6 _ (awaiting h0) answer) as [s1 p] eqn:Hresume.
    cbn [fst] in F. destruct F as (_ & _ & _ & Fl & Fa & _).
    exists s1, rid, (handlerCode h0), p. split; [reflexivity|].
    split; [exact Fa|]. split; [exact Fl|]. split.
    + intros error ->.
      destruct (awaiting h0) as [n g field rest|n g] eqn:Hk;
        cbn [resumeQueryHuc10ByHuc6] in Hresume.
      * exfalso.
        destruct answer as [collection|e];
          [destruct (negb (length (features collection) =? 0)%nat)|];
          apply (f_equal snd) in Hresume; cbn [snd] in Hresume; try discriminate;
          exact (proj2 (tryNext_not_done n g rest) error Hresume).
      * destruct answer as [collection|e];
          apply (f_equal snd) in Hresume; cbn [snd] in Hresume; [discriminate|].
        injection Hresume as ->. exists h0, n, g. auto.
    + intros error h n g field rest Hev Hfind' Hk.
      injection Hev as ->. assert (h = h0) by congruence. subst h.
      rewrite Hk in Hresume. cbn [resumeQueryHuc10ByHuc6] in Hresume.
      apply (f_equal snd) in Hresume. cbn [snd] in Hresume. subst p.
      destruct rest; cbn [tryNext]; eauto.
  - left. split; [reflexivity|]. cbn [fst]. unfold onRouteChange.
    destruct (negb _); reflexivity.
Qed.

(** X18.  An alert is the work of the [catch] branch of the click handler.
    Handling an event adds an alert exactly when the event is the rejection
    of the intersection query of a handler in flight, or when the handler
    acts on the result of its call and Leaflet raises while it draws the
    nested features.  In the first case the alert carries the error, is
    shown even when a later click has overtaken the handler, and the HUC10
    layer stays as it is; in the second the alert carries what Leaflet
    raised and the layer holds what Leaflet had drawn.  A where-query that
    fails is passed over in silence. *)
Theorem alerts_report_a_failed_query_or_a_failed_drawing (s : MapState) (ev : Event) :
  let s' := fst (handle s ev) in
  let alert := fun error => "Could not load HUC10 subwatersheds: " +:+ error in
  (∀ rid error h normalizedCode g,
      ev = ServiceReply rid (Rejected error) →
      handlerFor s rid = Some h →
      awaiting h = AwaitIntersects normalizedCode g →
      alerts s' = alerts s ++ [alert error] ∧ huc10Layer s' = huc10Layer s)
  ∧ (∀ rid error h normalizedCode g field rest,
        ev = ServiceReply rid (Rejected error) →
        handlerFor s rid = Some h →
        awaiting h = AwaitWhere normalizedCode g field rest →
        alerts s' = alerts s)
  ∧ (∀ rid huc6Code collection,
        snd (handle s ev) = [Returned rid huc6Code collection] →
        rid = huc10QueryRequestId s' → isStreamRoute s' = true →
        features collection ≠ [] →
        huc10Layer s' = drawn (addData (strictlyNested huc6Code collection))
        ∧ alerts s'
          = alerts s ++ match raised (addData (strictlyNested huc6Code collection)) with
                        | Some error => [alert error]
                        | None => []
                        end)
  ∧ (alerts s' ≠ alerts s →
     (∃ rid error h normalizedCode g,
         ev = ServiceReply rid (Rejected error)
         ∧ handlerFor s rid = Some h
         ∧ awaiting h = AwaitIntersects normalizedCode g)
     ∨ (∃ rid huc6Code collection error,
           snd (handle s ev) = [Returned rid huc6Code collection]
           ∧ rid = huc10QueryRequestId s' ∧ isStreamRoute s' = true
           ∧ raised (addData (strictlyNested huc6Code collection)) = Some error
           ∧ alerts s' = alerts s ++ [alert error])).
Proof.
  cbn zeta.
  destruct (handle_continues s ev)
    as [[Hnone Hsame]|(s0 & rid0 & c0 & p & Hstep & Ha & Hl & Hthrow & Hwhere)].
  { split; [|split; [|split]].
    - intros rid error h n g -> Hfind Hk. exfalso. revert Hnone.
      cbn [handle]. unfold onServiceReply. unfold handlerFor in Hfind.
      rewrite Hfind, Hk. cbn. discriminate.
    - intros. exact Hsame.
    - intros rid c fc Heff. rewrite Hnone in Heff. discriminate.
    - intros Hchanged. destruct (Hchanged Hsame). }
  rewrite Hstep.
  pose proof (continueHandler_frame s0 rid0 c0 p) as F. cbn zeta in F.
  destruct F as (_ & Fr & _ & _ & Fc & _).
  pose proof (onQueryResolved_alerts s0 rid0 c0) as Hres.
  destruct p as [fc|error|q k]; cbn [continueHandler fst snd] in *.
  - (* the call returned *)
    specialize (Hres fc). cbn zeta in Hres. destruct Hres as [Hacts Hidle].
    assert (Hroute : isStreamRoute (onQueryResolved s0 rid0 c0 fc) = isStreamRoute s0)
      by (unfold isStreamRoute; rewrite Fr; reflexivity).
    split; [|split; [|split]].
    + intros rid error h n g -> Hfind Hk. exfalso.
      cbn [handle] in Hstep. unfold onServiceReply in Hstep.
      unfold handlerFor in Hfind. rewrite Hfind, Hk in Hstep. cbn in Hstep.
      apply (f_equal snd) in Hstep. discriminate.
    + intros rid error h n g field rest Hev Hfind Hk.
      assert (rid = rid0).
      { subst ev. cbn [handle] in Hstep. unfold onServiceReply in Hstep.
        unfold handlerFor in Hfind. rewrite Hfind in Hstep.
        destruct (resumeQueryHuc10ByHuc6 _ _ _) in Hstep.
        apply (f_equal snd) in Hstep. cbn in Hstep.
        destruct p as [c1|e1|q1 k1]; cbn in Hstep; congruence. }
      subst rid0. destruct (Hwhere error h n g field rest Hev Hfind Hk) as (q & k & [=]).
    + intros rid c collection [= <- <- <-] Hrid Hstream Hne.
      rewrite Fc in Hrid. rewrite Hroute in Hstream.
      destruct (Hacts Hrid Hstream Hne) as [Hlayer Halerts].
      rewrite Hlayer, Halerts, Ha. split; reflexivity.
    + intros Hchanged. right.
      destruct (Z.eq_dec rid0 (huc10QueryRequestId s0)) as [Hrid|Hrid].
      2:{ destruct Hchanged. rewrite Hidle, Ha; [reflexivity|]. intros [Hr _]. contradiction. }
      destruct (isStreamRoute s0) eqn:Hstream.
      2:{ destruct Hchanged. rewrite Hidle, Ha; [reflexivity|]. intros (_ & Hr & _). discriminate. }
      destruct (features fc) as [|f l] eqn:Hfc.
      { destruct Hchanged. rewrite Hidle, Ha; [reflexivity|]. intros (_ & _ & Hr).
        contradiction. }
      destruct (Hacts Hrid eq_refl) as [_ Halerts]; [discriminate|].
      destruct (raised (addData (strictlyNested c0 fc))) as [error|] eqn:Hraised.
      * exists rid0, c0, fc, error. rewrite Fc, Hroute, Halerts, Ha. auto.
      * destruct Hchanged. rewrite Halerts, Ha, app_nil_r. reflexivity.
  - (* the call threw *)
    destruct (Hthrow error eq_refl) as (h0 & n0 & g0 & Hev & Hfind0 & Hk0).
    split; [|split; [|split]].
    + intros rid error' h n g Hev' Hfind Hk. rewrite Hev in Hev'.
      injection Hev' as <- <-. unfold onQueryRejected. cbn. rewrite Ha, Hl. auto.
    + intros rid error' h n g field rest Hev' Hfind Hk. rewrite Hev in Hev'.
      injection Hev' as <- <-. congruence.
    + intros rid c collection [=].
    + intros _. left. exists rid0, error, h0, n0, g0. auto.
  - (* the call awaits a query *)
    split; [|split; [|split]].
    + intros rid error h n g -> Hfind Hk. exfalso.
      cbn [handle] in Hstep. unfold onServiceReply in Hstep.
      unfold handlerFor in Hfind. rewrite Hfind, Hk in Hstep. cbn in Hstep.
      apply (f_equal snd) in Hstep. discriminate.
    + intros. exact Ha.
    + intros rid c collection [=].
    + intros Hchanged. destruct (Hchanged Ha).
Qed.

Lemma tryNext_sent (n : string) (g : Geometry) (fields : list string)
    (clause : string) (k : Awaiting) :
  tryNext n g fields = Await (WhereQuery clause) k →
  ∃ field, In field fields ∧ clause = field +:+ " LIKE '" +:+ n +:+ "%'".
Proof.
  destruct fields as [|field rest]; cbn [tryNext]; [discriminate|].
  unfold runHuc10WhereQuery. intros [= <- _]. exists field. split; [left|]; reflexivity.
Qed.

Lemma continueHandler_sent (s : MapState) (rid rid' : Z) (huc6Code : string)
    (p : Progress) (q : Query) :
  In (Sent rid' q) (snd (continueHandler s rid huc6Code p)) → ∃ k, p = Await q k.
Proof.
  destruct p as [c|e|q0 k]; cbn [continueHandler snd]; intros [H|[]]; try discriminate.
  injection H as _ <-. eauto.
Qed.

Lemma handle_sent (s : MapState) (ev : Event) (rid : Z) (clause : string) :
  resolverInvariant s →
  In (Sent rid (WhereQuery clause)) (snd (handle s ev)) →
  ∃ field n,
    In field fieldCandidates ∧ n ≠ "" ∧ allDigits n = true
    ∧ clause = field +:+ " LIKE '" +:+ n +:+ "%'".
Proof.
  intros (Hdet & Hsus & _).
  destruct ev as [[feature|]|rid0 answer|newName]; cbn [handle snd];
    [|intros []| |intros []].
  - unfold onHuc6Click.
    destruct (leaflet s); [|intros []].
    destruct (geometry feature) as [g|]; [|intros []].
    intros Hin. apply continueHandler_sent in Hin as [k Hp].
    unfold queryHuc10ByHuc6 in Hp.
    set (n := normalizeHucCode
                (JsString (code (extractWatershedMetadata (properties feature) 6)))) in *.
    destruct (String.eqb_spec n "") as [He|He]; cbn [negb] in Hp; [discriminate|].
    destruct (huc10QueryCache _ !! n); [discriminate|].
    apply tryNext_sent in Hp as (field & Hfield & ->).
    exists field, n. split; [|split; [exact He|split; [|reflexivity]]].
    + apply (orderedFieldCandidates_candidates
               (setRequestId s (huc10QueryRequestId s + 1))); assumption.
    + apply normalizeHucCode_allDigits.
  - unfold onServiceReply.
    destruct (List.find _ (suspended s)) as [h0|] eqn:Hfind; [|intros []].
    apply List.find_some in Hfind as [Hin0 _].
    destruct (Hsus h0 Hin0) as [Hd0 Hk0].
    destruct (awaiting h0) as [n g field rest|n g] eqn:Hk; cbn [awaitingCode] in Hd0;
      cbn [resumeQueryHuc10ByHuc6].
    + destruct Hk0 as [Hn Hfields].
      assert (Hnext : ∀ s0,
                In (Sent rid (WhereQuery clause))
                  (snd (continueHandler s0 rid0 (handlerCode h0) (tryNext n g rest))) →
                ∃ field n,
                  In field fieldCandidates ∧ n ≠ "" ∧ allDigits n = true
                  ∧ clause = field +:+ " LIKE '" +:+ n +:+ "%'").
      { intros s0 Hin. apply continueHandler_sent in Hin as [k Hp].
        apply tryNext_sent in Hp as (f & Hf & ->).
        exists f, n. split; [apply Hfields; right; exact Hf|]. auto. }
      destruct answer as [collection|error]; [|apply Hnext].
      destruct (negb (length (features collection) =? 0)%nat); [|apply Hnext].
      intros Hin. apply continueHandler_sent in Hin as [k Hp]. discriminate.
    + destruct answer as [collection|error];
        intros Hin; apply continueHandler_sent in Hin as [k Hp]; discriminate.
Qed.

Lemma run_sent (evs : list Event) (rid : Z) (clause : string) :
  ∀ s, resolverInvariant s →
       In (Sent rid (WhereQuery clause)) (snd (run s evs)) →
       ∃ field n,
         In field fieldCandidates ∧ n ≠ "" ∧ allDigits n = true
         ∧ clause = field +:+ " LIKE '" +:+ n +:+ "%'".
Proof.
  induction evs as [|ev evs IH]; intros s Hinv; [intros []|].
  cbn [run]. pose proof (handle_sent s ev rid clause Hinv) as Hnow.
  pose proof (handle_resolverInvariant s ev Hinv) as Hnext.
  destruct (handle s ev) as [s1 done1]. cbn [fst snd] in Hnow, Hnext.
  specialize (IH s1 Hnext). destruct (run s1 evs) as [s2 done2]. cbn [snd] in IH |- *.
  intros Hin. apply in_app_or in Hin as [Hin|Hin]; auto.
Qed.

(** X22.  Every where-clause a run sends to the feature service is one of
    the seven candidate fields followed by LIKE and a quoted pattern made of
    a non-empty string of decimal digits and the percent sign: whatever the
    attributes of the clicked features hold, no other text reaches the
    clause. *)
Theorem where_clauses_hold_a_candidate_field_and_digits
    (route : string) (evs : list Event) (rid : Z) (clause : string) :
  In (Sent rid (WhereQuery clause)) (snd (run (initialState route) evs)) →
  ∃ field n,
    In field fieldCandidates ∧ n ≠ "" ∧ allDigits n = true
    ∧ clause = field +:+ " LIKE '" +:+ n +:+ "%'".
Proof. apply run_sent, initialState_resolverInvariant. Qed.

End RunFacts.

(** ** Zoom to the selection, and the drawer's reset *)

Section DrawerFacts.
Import Containment Watershed Streams Session StreamMap Drawer.

Lemma mathMax_at_least (current : float) :
  (mathMax current 12 <? 12)%float = false.
Proof.
  unfold mathMax.
  destruct (is_nan current); [reflexivity|].
  change (is_nan 12) with false. cbn [orb].
  destruct (current <? 12)%float eqn:Hlt; [reflexivity|].
  destruct (12 <? current)%float; [exact Hlt|].
  destruct (1 / current <? 0)%float; [reflexivity|exact Hlt].
Qed.

Lemma selectedGaugeFeatures_In (st : StreamsStore) (feature : GaugeFeature) :
  In feature (selectedGaugeFeatures st)
  ↔ In feature (loadedGauges st)
    ∧ ∃ id, STREAM_ID feature = JsString id ∧ id ∈ selectedGaugeIds (selection st).
Proof.
  unfold selectedGaugeFeatures, loadedGauges.
  destruct (gaugesGeoJson st) as [[[features|]]|];
    try (split; [intros []|intros [[] _]]).
  rewrite List.filter_In. unfold setHas.
  split; intros [Hin H]; (split; [exact Hin|]).
  - destruct (STREAM_ID feature) as [| |id]; try discriminate.
    exists id. split; [reflexivity|]. apply includes_true in H.
    rewrite spreadSet_elem_of in H. exact H.
  - destruct H as (id & -> & Hid). apply includes_true, spreadSet_elem_of. exact Hid.
Qed.

Lemma gaugeLatLngs_In (selectedFeatures : list GaugeFeature) (latLng : float * float) :
  In latLng (gaugeLatLngs selectedFeatures)
  ↔ ∃ feature coords,
      In feature selectedFeatures ∧ gaugeCoordinates feature = Some coords
      ∧ (2 <= length coords)%nat ∧ latLng = (entry coords 1, entry coords 0).
Proof.
  unfold gaugeLatLngs. rewrite List.in_flat_map. split.
  - intros (feature & Hin & H).
    destruct (gaugeCoordinates feature) as [coords|] eqn:Hc; [|destruct H].
    destruct (length coords <? 2)%nat eqn:Hlen; [destruct H|].
    destruct H as [<-|[]]. apply Nat.ltb_ge in Hlen.
    exists feature, coords. auto.
  - intros (feature & coords & Hin & Hc & Hlen & ->).
    exists feature. split; [exact Hin|]. rewrite Hc.
    apply Nat.ltb_ge in Hlen. rewrite Hlen. left. reflexivity.
Qed.

(** X19.  [zoomToSelectedStreamGauges] moves the map only when the map
    exists, the route is the stream route and some loaded gauge is selected
    and has a position; its targets are exactly the positions (latitude,
    longitude) of the loaded gauges whose STREAM_ID is selected.  One target:
    the view is centred on it and the zoom is never below 12.  Several: the
    view is fitted to all of them, zooming in to level 12 at most. *)
Theorem zoom_to_selection_targets_the_selected_loaded_gauges
    (leafletZoom : option float) (routeName : string) (st : StreamsStore) :
  let change := zoomToSelectedStreamGauges leafletZoom routeName st in
  let targets := gaugeLatLngs (selectedGaugeFeatures st) in
  (∀ latLng,
      In latLng targets
      ↔ ∃ feature coords id,
          In feature (loadedGauges st)
          ∧ STREAM_ID feature = JsString id ∧ id ∈ selectedGaugeIds (selection st)
          ∧ gaugeCoordinates feature = Some coords ∧ (2 <= length coords)%nat
          ∧ latLng = (entry coords 1, entry coords 0))
  ∧ (change = None ↔ leafletZoom = None ∨ routeName ≠ "stream" ∨ targets = [])
  ∧ (∀ lat lng zoom,
        change = Some (SetView lat lng zoom) →
        targets = [(lat, lng)] ∧ (zoom <? 12)%float = false
        ∧ ∃ current, leafletZoom = Some current ∧ zoom = mathMax current 12)
  ∧ (∀ latLngs maxZoom,
        change = Some (FitBounds latLngs maxZoom) →
        latLngs = targets ∧ (2 <= length targets)%nat ∧ maxZoom = 12%float).
Proof.
  cbn zeta. split.
  { intros latLng. rewrite gaugeLatLngs_In. split.
    - intros (feature & coords & Hin & Hc & Hlen & ->).
      apply selectedGaugeFeatures_In in Hin as (Hin & id & Hid & Hsel).
      exists feature, coords, id. auto 10.
    - intros (feature & coords & id & Hin & Hid & Hsel & Hc & Hlen & ->).
      exists feature, coords. split; [|auto].
      apply selectedGaugeFeatures_In. split; [exact Hin|]. exists id. auto. }
  unfold zoomToSelectedStreamGauges.
  destruct leafletZoom as [current|].
  2:{ split; [split; auto|]. split; [intros ? ? ? [=]|intros ? ? [=]]. }
  destruct (String.eqb_spec routeName "stream") as [Hr|Hr]; cbn [negb].
  2:{ split; [split; auto|]. split; [intros ? ? ? [=]|intros ? ? [=]]. }
  destruct (gaugeLatLngs (selectedGaugeFeatures st)) as [|[lat lng] [|second more]].
  - split; [split; [intros _; right; right; reflexivity|reflexivity]|].
    split; [intros ? ? ? [=]|intros ? ? [=]].
  - split.
    { split; [discriminate|]. intros [H|[H|H]]; [discriminate|contradiction|discriminate]. }
    split; [|intros ? ? [=]].
    intros lat' lng' zoom [= <- <- <-]. split; [reflexivity|].
    split; [apply mathMax_at_least|]. exists current. auto.
  - split.
    { split; [discriminate|]. intros [H|[H|H]]; [discriminate|contradiction|discriminate]. }
    split; [intros ? ? ? [=]|].
    intros latLngs maxZoom [= <- <-]. split; [reflexivity|]. split; [cbn; lia|reflexivity].
Qed.

(** X20.  Reset Options of the drawer does more than reset the download
    options: it puts the selection of the store back to its initial state
    (mode gauge, type Single, no gauge and no domain selected), so that the
    Download button is disabled and no HUC10 layer is highlighted
    afterwards; the session, the options and the gauges stay, and so do the
    credentials typed in the drawer. *)
Theorem reset_options_restores_the_initial_selection
    (today : string) (d : DrawerState) (st : StreamsStore) :
  let d' := fst (resetOptions today d st) in
  let st' := snd (resetOptions today d st) in
  selection st' = initialStore
  ∧ (selectedWaterQuality d' = [] ∧ selectedDatasets d' = []
     ∧ startDate d' = "2011-01-01" ∧ endDate d' = today
     ∧ username d' = username d ∧ password d' = password d)
  ∧ (sessionToken st' = sessionToken st ∧ sessionExpiresAt st' = sessionExpiresAt st
     ∧ options st' = options st ∧ gaugesGeoJson st' = gaugesGeoJson st
     ∧ loading st' = loading st)
  ∧ canDownload d' st' = false
  ∧ selectedGaugeFeatures st' = []
  ∧ ∀ layer, huc10Style st' layer = Plain.
Proof.
  cbn zeta. split; [reflexivity|]. split; [cbn; auto 10|]. split; [cbn; auto 10|].
  split; [reflexivity|]. split.
  - unfold selectedGaugeFeatures. cbn.
    destruct (gaugesGeoJson st) as [[[features|]]|]; try reflexivity.
    induction features as [|f fs IH]; [reflexivity|]. cbn.
    destruct (STREAM_ID f); cbn; exact IH.
  - intros layer. reflexivity.
Qed.

End DrawerFacts.

(** * Concrete runs *)

Section Examples.
Import Containment Watershed Streams.
#[local] Existing Instance leafletOfTheRuns.

Example point_in_square_outside_hole :
  pointInGeometry [3; 3]%float (Some (Polygon [ringOf square; ringOf squareHole])) = Returns true.
Proof. vm_compute. reflexivity. Qed.

Example point_in_hole :
  pointInGeometry [1.5; 1.5]%float (Some (Polygon [ringOf square; ringOf squareHole])) = Returns false.
Proof. vm_compute. reflexivity. Qed.

Example point_outside_square :
  pointInGeometry [5; 1.5]%float (Some (Polygon [ringOf square; ringOf squareHole])) = Returns false.
Proof. vm_compute. reflexivity. Qed.

Example point_in_second_polygon :
  pointInGeometry [1.5; 1.5]%float
    (Some (MultiPolygon (polygonsOf [Some [square; squareHole]; None; Some [squareHole]])))
  = Returns true.
Proof. vm_compute. reflexivity. Qed.

Example arcgis_rings_need_a_type :
  pointInGeometry [3; 3]%float (Some (OtherObject "" (Some [ringOf square])))
  = Returns false
  ∧ pointInGeometry [3; 3]%float
      (Some (OtherObject "esriGeometryPolygon" (Some [ringOf square])))
    = Returns true.
Proof. split; vm_compute; reflexivity. Qed.

(** A hole that is [null] is reached only by a point inside the outer
    ring; a ring that is a number is passed over. *)
Example null_hole_raises_inside_the_outer_ring :
  pointInGeometry [3; 3]%float (Some (Polygon [ringOf square; NullRing]))
  = ThrowsTypeError
  ∧ pointInGeometry [5; 1.5]%float (Some (Polygon [ringOf square; NullRing]))
    = Returns false
  ∧ pointInGeometry [3; 3]%float (Some (Polygon [ringOf square; NoRing]))
    = Returns true
  ∧ pointInGeometry [3; 3]%float
      (Some (Polygon [RingArray [VertexArray [0; 0]; NotIterable]]))%float
    = ThrowsTypeError.
Proof. repeat split; vm_compute; reflexivity. Qed.

Example normalizeHucCode_examples :
  normalizeHucCode (JsString "HUC 1705-01") = "170501"
  ∧ normalizeHucCode (JsString "N/A") = ""
  ∧ normalizeHucCode JsNull = "".
Proof. repeat split. Qed.

Example extractWatershedMetadata_examples :
  extractWatershedMetadata [("NAME", JsString "Lower Snake"); ("HUC6", JsString "170601")] 6
  = {| code := "170601"; name := "Lower Snake" |}
  ∧ extractWatershedMetadata [("OBJECTID", JsString "7"); ("Hu_10_Id", JsString "1706010203")] 10
    = {| code := "1706010203"; name := "N/A" |}
  ∧ extractWatershedMetadata [] 6 = {| code := "N/A"; name := "N/A" |}.
Proof. repeat split. Qed.

Lemma resolver_tries_fields_in_order_then_intersects_witness :
  ∃ s',
    queryHuc10ByHuc6Alone flakyService (initialState "stream") (Polygon []) "170501"
    = Some (s', Resolved firstAnswer,
            [ WhereQuery "HUC10 LIKE '170501%'"; WhereQuery "HUC_10 LIKE '170501%'";
              WhereQuery "HUC LIKE '170501%'" ])
    ∧ huc10DetectedField s' = "HUC"
    ∧ huc10QueryCache s' !! "170501" = Some firstAnswer.
Proof.
  destruct (resolver_tries_fields_in_order_then_intersects
              flakyService (initialState "stream") (Polygon []) "170501")
    as (_ & _ & _ & Hcalls & _).
  destruct Hcalls as [Hhit _].
  - vm_compute. discriminate.
  - vm_compute. reflexivity.
  - eexists. split; [|split].
    + apply (Hhit ["HUC10"; "HUC_10"] "HUC" ["huc10"; "huc_code"; "HUC_CODE"; "HU_10"]
               firstAnswer).
      * reflexivity.
      * repeat constructor.
      * reflexivity.
      * discriminate.
    + reflexivity.
    + vm_compute. reflexivity.
Defined.


Lemma cached_collection_is_returned_without_remote_query_witness :
  let s2 := fst (run (initialState "stream")
                   [ Huc6Click (Some regionClicked);
                     ServiceReply 1 (Resolved firstAnswer);
                     RouteChange "home"; RouteChange "stream" ]) in
  snd (handle s2 (Huc6Click (Some regionClicked)))
  = [Returned (huc10QueryRequestId s2 + 1) "170501" firstAnswer].
Proof.
  intros s2.
  destruct (cached_collection_is_returned_without_remote_query
              "stream" [Huc6Click (Some regionClicked)]
              [RouteChange "home"; RouteChange "stream"]
              (ServiceReply 1 (Resolved firstAnswer))
              1%Z "170501" firstAnswer regionClicked (Polygon []))
    as [Hcached _].
  destruct Hcached as [_ Hanswer].
  - vm_compute. left. reflexivity.
  - vm_compute. discriminate.
  - intros h Hin. vm_compute in Hin. destruct Hin.
  - reflexivity.
  - reflexivity.
  - vm_compute in Hanswer |- *. exact Hanswer.
Defined.

(** A result with a nested feature, a feature of a neighbouring region and
    a nested feature without geometry: the two nested features are handed
    to the layer, which draws the one that has a geometry. *)
Lemma displayed_huc10_features_are_the_nested_ones_witness :
  let s := setRequestId (initialState "stream") 1 in
  let answer := {| features := [nestedFeature; neighbourFeature; bareFeature] |} in
  let after := onQueryResolved s 1 "170501" answer in
  strictlyNested "170501" answer = [nestedFeature; bareFeature]
  ∧ huc10Layer after = [nestedFeature]
  ∧ alerts after = []
  ∧ (In neighbourFeature (strictlyNested "170501" answer)
     ↔ In neighbourFeature (features answer)
       ∧ ("170501" = "" ∨ ∃ rest, "1706020304" = "170501" +:+ rest)).
Proof.
  intros s answer after.
  destruct (displayed_huc10_features_are_the_nested_ones s 1%Z "170501" answer)
    as (Hiff & _ & _ & Hfull & _ & _).
  - reflexivity.
  - reflexivity.
  - split; [reflexivity|].
    destruct Hfull as [Hlayer Halerts]; [discriminate|].
    split; [etransitivity; [exact Hlayer|reflexivity]|].
    split; [etransitivity; [exact Halerts|reflexivity]|].
    exact (Hiff neighbourFeature).
Defined.

(** A nested feature whose geometry has no type stops the drawing: the
    features before it are on the layer, and the error is shown. *)
Example untyped_geometry_stops_the_drawing :
  let s := setRequestId (initialState "stream") 1 in
  let after := onQueryResolved s 1 "170501"
                 {| features := [nestedFeature; untypedFeature; bareFeature] |} in
  huc10Layer after = [nestedFeature]
  ∧ alerts after = ["Could not load HUC10 subwatersheds: Invalid GeoJSON object."].
Proof. split; reflexivity. Qed.

Lemma single_selection_replaces_witness :
  let st := performAll initialStore [ToggleGaugeSelection "g0"] in
  let st' := toggleDomainSelection "d1" ["a"; ""; "b"; "a"] st in
  selectedGaugeIds (toggleGaugeSelection "g1" st) = ["g1"]
  ∧ selectedDomainCodes st' = ["d1"]
  ∧ selectedDomainGaugeMap st' = {[ "d1" := selectedGaugeIds st' ]}
  ∧ objectKeys (selectedDomainGaugeMap st') = ["d1"]
  ∧ NoDup (selectedGaugeIds st')
  ∧ ∀ id, id ∈ selectedGaugeIds st' ↔ id ∈ ["a"; ""; "b"; "a"] ∧ id ≠ "".
Proof.
  intros st st'.
  destruct (single_selection_replaces st "g1" "d1" ["a"; ""; "b"; "a"])
    as [Hgauge Hdomain].
  - reflexivity.
  - split; [apply Hgauge; discriminate | apply Hdomain; discriminate].
Defined.


End Examples.

(** * Concrete runs of the further properties *)

Section FurtherExamples.
Import Containment Watershed Streams Session StreamMap Drawer Interface.
#[local] Existing Instance leafletOfTheRuns.

(** The gauge in the hole of the square lies outside the polygon and inside
    the bounds: it counts as a gauge of the layer. *)
Example gauges_of_the_sample_layer :
  getGaugeIdsInLayer signedIn (Some sampleLayer) = Returns ["S1"; "S2"]
  ∧ pointInGeometry [1.5; 1.5]%float (layerGeometry sampleLayer) = Returns false
  ∧ getGaugeIdsInLayer signedIn (Some arcgisLayer) = Returns ["S1"; "S2"].
Proof. vm_compute. auto. Qed.

Lemma gauges_of_a_layer_lie_in_its_geometry_or_its_bounds_witness :
  ∃ ids, getGaugeIdsInLayer signedIn (Some sampleLayer) = Returns ids
         ∧ NoDup ids
         ∧ ("S2" ∈ ids
            ↔ ∃ feature coords,
                In feature (loadedGauges signedIn) ∧ locatedGauge feature coords "S2"
                ∧ (pointInGeometry coords (layerGeometry sampleLayer) = Returns true
                   ∨ withinBounds sampleLayer coords)).
Proof.
  destruct (gauges_of_a_layer_lie_in_its_geometry_or_its_bounds signedIn sampleLayer)
    as [(ids & Hret & Hnd & Hmem) _].
  - intros (f & c & id & _ & _ & Hraise).
    exact (pointInGeometry_arrays_of_positions c [square; squareHole] Hraise).
  - exists ids. split; [exact Hret|]. split; [exact Hnd|]. apply Hmem.
Defined.

(** A polygon with [null] in the place of its ring fails the click in
    domain mode, and is not looked at in gauge mode. *)
Example click_on_a_broken_layer :
  getGaugeIdsInLayer signedIn (Some brokenLayer) = ThrowsTypeError
  ∧ onHuc10Click signedIn brokenLayer = ThrowsTypeError
  ∧ onHuc10Click (updateSelection (setSelectionBy "gauge") signedIn) brokenLayer
    = Returns (updateSelection (setSelectionBy "gauge") signedIn).
Proof. repeat split; vm_compute; reflexivity. Qed.

Lemma untyped_geometry_selects_gauges_by_bounds_alone_witness :
  ∃ ids, getGaugeIdsInLayer signedIn (Some arcgisLayer) = Returns ids
         ∧ ("S1" ∈ ids
            ↔ ∃ feature coords,
                In feature (loadedGauges signedIn) ∧ locatedGauge feature coords "S1"
                ∧ withinBounds arcgisLayer coords).
Proof.
  destruct (untyped_geometry_selects_gauges_by_bounds_alone signedIn arcgisLayer)
    as (ids & Hret & Hmem & _).
  - right. exists (Some [ringOf square]). reflexivity.
  - exists ids. split; [exact Hret|]. apply Hmem.
Defined.

Lemma domain_toggle_selects_the_gauges_of_the_selected_domains_witness :
  let st := performAll initialStore
              [ SetSelectionType "Multiple"; ToggleDomainSelection "d1" ["a"; "b"];
                ToggleDomainSelection "d2" ["b"; "c"] ] in
  let st' := toggleDomainSelection "d1" ["a"; "b"] st in
  selectedDomainGaugeMap st' = delete "d1" (selectedDomainGaugeMap st)
  ∧ "b" ∈ selectedGaugeIds st'.
Proof.
  cbn zeta.
  destruct (domain_toggle_selects_the_gauges_of_the_selected_domains
              (performAll initialStore
                 [ SetSelectionType "Multiple"; ToggleDomainSelection "d1" ["a"; "b"];
                   ToggleDomainSelection "d2" ["b"; "c"] ])
              "d1" ["a"; "b"]) as (_ & _ & Hdeselect & _).
  - vm_compute. discriminate.
  - discriminate.
  - destruct Hdeselect as [Hmap Hgauges].
    + exists ["a"; "b"]. vm_compute. reflexivity.
    + split; [exact Hmap|]. apply Hgauges. split; [discriminate|].
      exists "d2", ["b"; "c"]. split; [discriminate|].
      split; [vm_compute; reflexivity|]. left.
Defined.

Lemma huc10_click_selects_the_domain_with_the_gauges_of_its_layer_witness :
  ∃ st', onHuc10Click signedIn sampleLayer = Returns st'
         ∧ selectedDomainCodes (selection st') = ["1705010101"]
         ∧ selectedGaugeIds (selection st') = ["S1"; "S2"].
Proof.
  destruct (huc10_click_selects_the_domain_with_the_gauges_of_its_layer
              signedIn sampleLayer) as (ids & st' & Hret & Hclick & _ & _ & _ & Hsingle).
  - reflexivity.
  - intros (f & c & id & _ & _ & Hraise).
    exact (pointInGeometry_arrays_of_positions c [square; squareHole] Hraise).
  - exists st'. split; [exact Hclick|].
    destruct Hsingle as (Hcodes & Hgauges & _); [discriminate|reflexivity|].
    split; [exact Hcodes|]. rewrite Hgauges.
    assert (Hids : Returns ids = Returns ["S1"; "S2"])
      by (rewrite <- Hret; vm_compute; reflexivity).
    injection Hids as ->. reflexivity.
Defined.

Lemma highlighted_layers_bear_a_selected_code_witness :
  ∃ st', onHuc10Click signedIn sampleLayer = Returns st'
         ∧ huc10Style st' sampleLayer = Highlighted
         ∧ huc10Style st' arcgisLayer = Plain.
Proof.
  assert (Hclick : ∃ st', onHuc10Click signedIn sampleLayer = Returns st').
  { vm_compute. eauto. }
  destruct Hclick as [st' Hclick].
  destruct (highlighted_layers_bear_a_selected_code signedIn st' sampleLayer sampleLayer)
    as (_ & _ & Hsame).
  destruct (highlighted_layers_bear_a_selected_code signedIn st' sampleLayer arcgisLayer)
    as (_ & _ & Hother).
  destruct Hsame as (_ & Hsame & _); [reflexivity|reflexivity|discriminate|exact Hclick|].
  destruct Hother as (_ & Hother & _); [reflexivity|reflexivity|discriminate|exact Hclick|].
  exists st'. split; [exact Hclick|]. split.
  - apply Hsame. split; [discriminate|reflexivity].
  - destruct (huc10Style st' arcgisLayer) eqn:Hs; [|reflexivity].
    destruct (proj1 Hother eq_refl) as [_ Hcodes]. vm_compute in Hcodes.
    discriminate Hcodes.
Defined.

Lemma refused_token_clears_the_session_and_download_reports_the_detail_witness :
  let st := updateSelection (toggleDomainSelection "1705010101" ["S1"]) signedIn in
  let refusal := JsString "Invalid or expired STREAMS session token." in
  snd (fst (fetchGauges st 500 5000 (NotOk refusal)))
  = Rejects (NewError "Your STREAMS session expired. Please sign in again.")
  ∧ snd (onDownload filledDrawer st 500 (DownloadNotOk (Some refusal)))
    = inr {| alertTitle := "STREAMS Download Error";
             alertText := "Error: Invalid or expired STREAMS session token.";
             alertType := "error" |}
  ∧ sessionToken (fst (fst (onDownload filledDrawer st 500
                              (DownloadNotOk (Some refusal))))) = "".
Proof.
  cbn zeta.
  destruct (refused_token_clears_the_session_and_download_reports_the_detail
              (updateSelection (toggleDomainSelection "1705010101" ["S1"]) signedIn)
              500 5000 filledDrawer) as [Hfetch Hdownload].
  - discriminate.
  - reflexivity.
  - destruct Hfetch as (_ & _ & _ & _ & Hrejects).
    destruct Hdownload as (Htoken & _ & _ & _ & Halert); [discriminate|].
    split; [exact Hrejects|]. split; [exact Halert|exact Htoken].
Defined.

Lemma huc10_features_are_shown_on_the_stream_route_only_witness :
  huc10Layer (fst (run (initialState "stream")
                     [ Huc6Click (Some regionClicked);
                       ServiceReply 1 (Resolved firstAnswer) ]))
  = [nestedFeature]
  ∧ huc10Layer (fst (run (initialState "stream")
                       [ Huc6Click (Some regionClicked);
                         ServiceReply 1 (Resolved firstAnswer);
                         RouteChange "home" ]))
    = [].
Proof.
  split; [vm_compute; reflexivity|].
  apply (huc10_features_are_shown_on_the_stream_route_only "stream"
           [ Huc6Click (Some regionClicked); ServiceReply 1 (Resolved firstAnswer);
             RouteChange "home" ]).
  vm_compute. discriminate.
Defined.

Lemma where_clauses_hold_a_candidate_field_and_digits_witness :
  ∃ field n,
    In field fieldCandidates ∧ n ≠ "" ∧ allDigits n = true
    ∧ "HUC_10 LIKE '170501%'" = field +:+ " LIKE '" +:+ n +:+ "%'".
Proof.
  apply (where_clauses_hold_a_candidate_field_and_digits "stream"
           [ Huc6Click (Some {| properties := [("HUC6", JsString "1705-01'; --")];
                                geometry := Some (Polygon []) |});
             ServiceReply 1 (Rejected "timeout") ] 1).
  vm_compute. right. left. reflexivity.
Defined.

(** A sign-in whose gauges fail to load: the drawer reports a login error,
    and the store is signed in. *)
Example sign_in_with_failing_gauges :
  let shown :=
    onLogin filledDrawer initialStreamsStore 500
      (Ok {| session_token := "token"; expires_at := ExpiresAt 1000 |})
      (Ok {| water_quality_variables := Some ["pH"]; other_datasets := Some [] |})
      (NotOk (JsString "Upstream unavailable")) true in
  alertTitle (snd shown) = "STREAMS Login Error"
  ∧ alertText (snd shown) = "Error: Upstream unavailable"
  ∧ sessionToken (snd (fst shown)) = "token"
  ∧ password (fst (fst shown)) = "secret".
Proof. vm_compute. auto. Qed.

End FurtherExamples.
